(** * FASTag recharge flow: proxy routes and client logic

    A shallow embedding of the TypeScript sources

    - [src/app/api/bbps/pre-enquiry/route.ts]
    - [src/app/api/bbps/billers/route.ts]
    - the biller-details route
    - the wizard page ([FastagRechargePage]) and the infinite-scroll page
      ([Home])

    The upstream payloads are typed [any] in the sources, so they are
    modelled as untyped JavaScript values with the language's own coercions
    ([||], [&&], [??], [?.], [String(...)], truthiness).  Typed records of
    the sources ([Biller], [InputParameter], ...) are Rocq records.

    Conventions of the model:
    - strings are ASCII text ([toUpperCase] and the [/i] flag act on the
      letters a-z / A-Z);
    - numbers inside JSON payloads are integer valued; amounts handled by
      [toNumber] / [formatINR] are exact decimal rationals, the binary
      rounding of doubles and their overflow to [Infinity] are not
      modelled. *)

From Stdlib Require Import ZArith QArith Qround Qabs Qminmax Lia List Bool Ascii String.
From stdpp Require Import base option list gmap strings.

Set Warnings "-register-all".
Local Open Scope Z_scope.

(* ===================================================================== *)
(** * JavaScript values and coercions *)
(* ===================================================================== *)

Module JS.

(** A JavaScript value as produced by [JSON.parse], plus [undefined] for
    absent properties.  An object is its list of own properties; a property
    is read at its first occurrence. *)
Inductive value : Type :=
| VUndef
| VNull
| VBool (b : bool)
| VNum (n : Z)
| VStr (s : string)
| VArr (items : list value)
| VObj (fields : list (string * value)).

(** ** Strings *)

Definition is_lower (c : ascii) : bool :=
  let n := N_of_ascii c in ((97 <=? n) && (n <=? 122))%N.

Definition is_upper (c : ascii) : bool :=
  let n := N_of_ascii c in ((65 <=? n) && (n <=? 90))%N.

Definition upper_ascii (c : ascii) : ascii :=
  if is_lower c then ascii_of_N (N_of_ascii c - 32) else c.

Definition lower_ascii (c : ascii) : ascii :=
  if is_upper c then ascii_of_N (N_of_ascii c + 32) else c.

(** [s.toUpperCase()] *)
Fixpoint toUpperCase (s : string) : string :=
  match s with
  | EmptyString => EmptyString
  | String c s' => String (upper_ascii c) (toUpperCase s')
  end.

(** [s.toLowerCase()] *)
Fixpoint toLowerCase (s : string) : string :=
  match s with
  | EmptyString => EmptyString
  | String c s' => String (lower_ascii c) (toLowerCase s')
  end.

(** [arr.includes(s)] on an array of strings *)
Definition includes (arr : list string) (s : string) : bool :=
  existsb (String.eqb s) arr.

(** [parts.join(",")] *)
Fixpoint join_comma (parts : list string) : string :=
  match parts with
  | [] => EmptyString
  | [p] => p
  | p :: rest => p +:+ "," +:+ join_comma rest
  end.

(** Decimal digits of a non-negative integer, most significant first.  The
    fuel is one more than the bit length, which the number of decimal digits
    never exceeds. *)
Definition digit_char (d : Z) : ascii := ascii_of_N (Z.to_N (48 + d)).

Fixpoint digits_fuel (fuel : nat) (n : Z) (acc : list ascii) : list ascii :=
  match fuel with
  | O => acc
  | S fuel' =>
      let acc' := digit_char (n mod 10) :: acc in
      if n <? 10 then acc' else digits_fuel fuel' (n / 10) acc'
  end.

Definition digits (n : Z) : list ascii :=
  digits_fuel (S (S (Z.to_nat (Z.log2 n)))) n [].

(** [String(n)] for an integer-valued number below 10^21 in magnitude
    (from there on the engine prints an exponent) *)
Definition Number_toString (n : Z) : string :=
  if n <? 0 then String "-" (string_of_list_ascii (digits (- n)))
  else string_of_list_ascii (digits n).

(** ** Coercions *)

(** [String(v)], where it returns.  On a parsed object that has a member
    of its own named [toString] the conversion throws a TypeError instead
    (the payloads without one are the [printable] ones). *)
Fixpoint toStr (v : value) : string :=
  match v with
  | VUndef => "undefined"
  | VNull => "null"
  | VBool true => "true"
  | VBool false => "false"
  | VNum n => Number_toString n
  | VStr s => s
  | VArr items =>
      join_comma
        ((fix elems (l : list value) : list string :=
            match l with
            | [] => []
            | x :: l' =>
                match x with
                | VUndef | VNull => EmptyString
                | _ => toStr x
                end :: elems l'
            end) items)
  | VObj _ => "[object Object]"
  end.

(** ToBoolean *)
Definition truthy (v : value) : bool :=
  match v with
  | VUndef | VNull => false
  | VBool b => b
  | VNum n => negb (n =? 0)
  | VStr s => negb (String.eqb s "")
  | VArr _ | VObj _ => true
  end.

(** [a || b] *)
Definition or (a b : value) : value := if truthy a then a else b.

(** [a && b] *)
Definition and (a b : value) : value := if truthy a then b else a.

(** [a ?? b] *)
Definition nullish (a b : value) : value :=
  match a with
  | VUndef | VNull => b
  | _ => a
  end.

(** [typeof v === "string"] and [typeof v === "boolean"] *)
Definition is_string (v : value) : bool :=
  match v with VStr _ => true | _ => false end.

Definition is_boolean (v : value) : bool :=
  match v with VBool _ => true | _ => false end.

(** [v === "lit"] *)
Definition strict_eq_str (v : value) (lit : string) : bool :=
  match v with VStr s => String.eqb s lit | _ => false end.

(** ** Property access *)

Fixpoint lookup_field (k : string) (fields : list (string * value)) : value :=
  match fields with
  | [] => VUndef
  | (k', v) :: rest => if String.eqb k k' then v else lookup_field k rest
  end.

(** [v?.k]: none of the property names read by the sources is a built-in
    property of strings, arrays, numbers or booleans, so only objects
    answer. *)
Definition get (k : string) (v : value) : value :=
  match v with
  | VObj fields => lookup_field k fields
  | _ => VUndef
  end.

(** ** Regular expressions of the sources

    Every pattern literal of the sources is an alternation of plain words
    with the [i] flag; [re.test(s)] searches every start position and
    compares characters after canonicalisation. *)

Fixpoint match_here (word s : string) : bool :=
  match word, s with
  | EmptyString, _ => true
  | String _ _, EmptyString => false
  | String w word', String c s' =>
      Ascii.eqb (upper_ascii w) (upper_ascii c) && match_here word' s'
  end.

Fixpoint regexp_test_i (alternatives : list string) (s : string) : bool :=
  existsb (fun w => match_here w s) alternatives
  || match s with
     | EmptyString => false
     | String _ s' => regexp_test_i alternatives s'
     end.

End JS.

Import JS.

(* ===================================================================== *)
(** * Numbers, [parseFloat] and [Intl.NumberFormat("en-IN")] *)
(* ===================================================================== *)

Module Num.

(** A JavaScript number: a finite value (kept as an exact rational), [NaN]
    or an infinity. *)
Inductive number : Type :=
| Finite (q : Q)
| NaN
| Infinity (negative : bool).

(** [Number.isFinite(n)] *)
Definition isFinite (n : number) : bool :=
  match n with Finite _ => true | _ => false end.

Definition is_digit (c : ascii) : bool :=
  let n := N_of_ascii c in ((48 <=? n) && (n <=? 57))%N.

Definition digit_val (c : ascii) : Z := Z.of_N (N_of_ascii c) - 48.

(** White space in the ASCII range: tab, line feed, vertical tab, form
    feed, carriage return, space. *)
Definition is_space (c : ascii) : bool :=
  let n := N_of_ascii c in (((9 <=? n) && (n <=? 13)) || (n =? 32))%N.

(** The longest run of decimal digits at the head of the input: the value
    accumulated, the number of digits read, and the rest. *)
Fixpoint read_digits (s : list ascii) (acc : Z) (count : nat) : Z * nat * list ascii :=
  match s with
  | c :: s' =>
      if is_digit c then read_digits s' (10 * acc + digit_val c) (S count)
      else (acc, count, s)
  | [] => (acc, count, s)
  end.

Fixpoint skip_spaces (s : list ascii) : list ascii :=
  match s with
  | c :: s' => if is_space c then skip_spaces s' else s
  | [] => []
  end.

Definition read_sign (s : list ascii) : bool * list ascii :=
  match s with
  | "-"%char :: s' => (true, s')
  | "+"%char :: s' => (false, s')
  | _ => (false, s)
  end.

Fixpoint starts_with (word s : list ascii) : bool :=
  match word, s with
  | [], _ => true
  | _ :: _, [] => false
  | w :: word', c :: s' => Ascii.eqb w c && starts_with word' s'
  end.

(** The exponent part [e±ddd], taken only when at least one digit follows. *)
Definition read_exponent (s : list ascii) : Z :=
  match s with
  | c :: s' =>
      if Ascii.eqb c "e" || Ascii.eqb c "E" then
        let '(neg, s'') := read_sign s' in
        let '(e, n, _) := read_digits s'' 0 0%nat in
        match n with
        | O => 0
        | S _ => if neg then - e else e
        end
      else 0
  | [] => 0
  end.

(** [parseFloat(s)]: leading white space is skipped, then the longest
    prefix that is a decimal literal is converted; [NaN] when there is
    none. *)
Definition parseFloat_chars (s : list ascii) : number :=
  let s1 := skip_spaces s in
  let '(neg, s2) := read_sign s1 in
  if starts_with (list_ascii_of_string "Infinity") s2 then Infinity neg
  else
    let '(ip, ni, s3) := read_digits s2 0 0%nat in
    let '(fp, nf, s4) :=
      match s3 with
      | "."%char :: s3' => read_digits s3' 0 0%nat
      | _ => (0, 0%nat, s3)
      end in
    match (ni + nf)%nat with
    | O => NaN
    | S _ =>
        let mantissa :=
          (inject_Z (ip * 10 ^ Z.of_nat nf + fp) / inject_Z (10 ^ Z.of_nat nf))%Q in
        let magnitude := (mantissa * Qpower (inject_Z 10) (read_exponent s4))%Q in
        Finite (if neg then - magnitude else magnitude)%Q
    end.

Definition parseFloat (s : string) : number :=
  parseFloat_chars (list_ascii_of_string s).

(** [s.replace(/[,\s]/g, "")] *)
Definition strip_separators (s : list ascii) : list ascii :=
  List.filter (fun c => negb (Ascii.eqb c "," || is_space c)) s.

(** ** [Intl.NumberFormat("en-IN", opts).format] *)

Record NumberFormatOptions : Type := mkOpts {
  minimumFractionDigits : option nat;
  maximumFractionDigits : option nat
}.

(** The digit bounds the constructor resolves for the decimal style.  The
    option objects written in the sources have [min <= max]; combinations
    that make the constructor throw are not modelled. *)
Definition resolve_digits (opts : NumberFormatOptions) : nat * nat :=
  match minimumFractionDigits opts, maximumFractionDigits opts with
  | None, None => (0%nat, 3%nat)
  | Some mn, None => (mn, Nat.max mn 3)
  | None, Some mx => (0%nat, mx)
  | Some mn, Some mx => (mn, mx)
  end.

(** Indian grouping of integer digits, on the reversed digit list: the last
    three digits, then groups of two. *)
Fixpoint group_pairs (rev : list ascii) : list ascii :=
  match rev with
  | a :: rest1 =>
      match rest1 with
      | b :: rest2 =>
          match rest2 with
          | [] => rev
          | _ :: _ => a :: b :: ","%char :: group_pairs rest2
          end
      | [] => rev
      end
  | [] => rev
  end.

Definition group_en_IN (ds : list ascii) : list ascii :=
  match List.rev ds with
  | a :: b :: c :: (_ :: _) as rest => List.rev (a :: b :: c :: ","%char :: group_pairs rest)
  | _ => ds
  end.

(** Exactly [k] decimal digits of [m], zero padded on the left. *)
Fixpoint fixed_digits (k : nat) (m : Z) (acc : list ascii) : list ascii :=
  match k with
  | O => acc
  | S k' => fixed_digits k' (m / 10) (digit_char (m mod 10) :: acc)
  end.

(** Drop at most [k] trailing zeros (the list is reversed). *)
Fixpoint drop_zeros (k : nat) (rev : list ascii) : list ascii :=
  match k, rev with
  | S k', "0"%char :: rest => drop_zeros k' rest
  | _, _ => rev
  end.

(** The formatter on a finite value: round half away from zero to [mx]
    fraction digits, group the integer part, keep at least [mn] fraction
    digits. *)
Definition format_en_IN (opts : NumberFormatOptions) (q : Q) : string :=
  let '(mn, mx) := resolve_digits opts in
  let scale := 10 ^ Z.of_nat mx in
  let scaled := Qfloor (Qabs q * inject_Z scale + (1 # 2))%Q in
  let int_part := group_en_IN (digits (scaled / scale)) in
  let frac := List.rev (drop_zeros (mx - mn) (List.rev (fixed_digits mx (scaled mod scale) []))) in
  let sign := if Qlt_le_dec q 0 then ["-"%char] else [] in
  string_of_list_ascii
    (sign ++ int_part ++ match frac with [] => [] | _ :: _ => "."%char :: frac end).

End Num.

(* ===================================================================== *)
(** * Exceptions and HTTP plumbing shared by the three routes *)
(* ===================================================================== *)

(** A thrown value: an [Error] with its message, or something else. *)
Inductive exn : Type :=
| ErrorExn (message : string)
| OtherExn.

(** A computation that may throw. *)
Inductive result (A : Type) : Type :=
| Ok (a : A)
| Throw (e : exn).
Arguments Ok {A} a.
Arguments Throw {A} e.

Definition bind {A B} (r : result A) (k : A -> result B) : result B :=
  match r with
  | Ok a => k a
  | Throw e => Throw e
  end.

Notation "'let*' x ':=' r 'in' k" := (bind r (fun x => k))
  (at level 10, x name, r at level 100, k at level 200).

(** What [NextResponse.json(body, { status })] builds. *)
Record Response : Type := NextResponse_json { resp_body : value; resp_status : Z }.

(** The upstream answer seen through [fetch]: the status line arrives, then
    [res.json()] parses the body or throws. *)
Record UpstreamReply : Type := mkReply { up_status : Z; up_json : result value }.

(** [res.ok] *)
Definition ok (res : UpstreamReply) : bool :=
  (200 <=? up_status res) && (up_status res <=? 299).

(** [fetch(LAMBDA_BASE + path, { method: "POST", body: JSON.stringify(b) })]:
    the upstream service is a function of the path and the posted JSON; the
    call itself may throw (network failure). *)
Definition Upstream : Type := string -> value -> result UpstreamReply.

(** The [catch (e)] block shared by the three handlers. *)
Definition on_exception (e : exn) : Response :=
  let message := match e with ErrorExn m => m | OtherExn => "Unknown error"%string end in
  NextResponse_json (VObj [("error"%string, VStr message)]) 500.

Definition try_catch (r : result Response) : Response :=
  match r with
  | Ok resp => resp
  | Throw e => on_exception e
  end.

(* ===================================================================== *)
(** * [api/bbps/pre-enquiry/route.ts] *)
(* ===================================================================== *)

Module PreEnquiryRoute.

Definition errorStatusCodes : list string :=
  ["ERR"; "IAN"; "INV"; "NF"; "NA"]%string.

Definition errorStatusWords : list string :=
  ["invalid"; "error"; "failed"; "not found"; "unavailable"]%string.

(** [isErrorResponse]: the JavaScript value the function returns; callers
    branch on its truthiness. *)
Definition isErrorResponse (data : value) : value :=
  if negb (truthy data) then VBool false
  else
    let statuscode := JS.or (get "statuscode" data) (get "statuscode" (get "error" data)) in
    let status := JS.or (get "status" data) (get "status" (get "error" data)) in
    let hasErrorStatusCode :=
      JS.and statuscode (VBool (includes errorStatusCodes (toUpperCase (toStr statuscode)))) in
    let hasErrorStatus :=
      JS.and status (VBool (regexp_test_i errorStatusWords (toStr status))) in
    JS.or hasErrorStatusCode hasErrorStatus.

(** [extractErrorStatus] of the route.  With optional chaining no access can
    throw on a JSON value, so the [catch] branch is never taken. *)
Definition extractErrorStatus (data : value) : value :=
  JS.or (get "status" data)
    (JS.or (get "status" (get "error" data))
       (JS.or (if is_string (get "error" data) then get "error" data else VStr "")
          (JS.or (get "message" data) (VStr "An error occurred")))).

Definition POST_body (request_json : result value) (fetch : Upstream) : result Response :=
  let* body := request_json in
  let b := JS.or body (VObj []) in
  let billerId := get "billerId" b in
  let inputParameters := get "inputParameters" b in
  let externalRef := get "externalRef" b in
  let transactionAmount := get "transactionAmount" b in
  if negb (truthy billerId) || negb (truthy inputParameters) || negb (truthy externalRef)
  then Ok (NextResponse_json
             (VObj [("error"%string, VStr "billerId, inputParameters, externalRef are required")])
             400)
  else
    let* res := fetch "/bbps/pre-enquiry"%string
                  (VObj [("billerId"%string, billerId);
                         ("inputParameters"%string, inputParameters);
                         ("externalRef"%string, externalRef);
                         ("transactionAmount"%string, nullish transactionAmount (VNum 0))]) in
    let* data := up_json res in
    if negb (ok res) then
      let msg := JS.or (extractErrorStatus data) (VStr "Request failed") in
      Ok (NextResponse_json (VObj [("error"%string, msg); ("details"%string, data)]) (up_status res))
    else if truthy (isErrorResponse data) then
      let msg := JS.or (extractErrorStatus data) (VStr "Invalid request") in
      Ok (NextResponse_json (VObj [("error"%string, msg); ("details"%string, data)]) 400)
    else Ok (NextResponse_json data 200).

Definition POST (request_json : result value) (fetch : Upstream) : Response :=
  try_catch (POST_body request_json fetch).

End PreEnquiryRoute.

(* ===================================================================== *)
(** * [api/bbps/billers/route.ts] *)
(* ===================================================================== *)

Module BillersRoute.

(** The JSON posted upstream. *)
Definition upstream_request (pageNumber recordsPerPage categoryKey : value) : value :=
  VObj [("pagination"%string,
         VObj [("pageNumber"%string, pageNumber); ("recordsPerPage"%string, recordsPerPage)]);
        ("filters"%string, VObj [("categoryKey"%string, categoryKey)])].

(** [await request.json().catch(() => ({}))] *)
Definition read_body (request_json : result value) : value :=
  match request_json with
  | Ok body => body
  | Throw _ => VObj []
  end.

Definition pageNumber_of (body : value) : value :=
  nullish (get "pageNumber" (get "pagination" body)) (VNum 1).

Definition recordsPerPage_of (body : value) : value :=
  nullish (get "recordsPerPage" (get "pagination" body)) (VNum 50).

Definition categoryKey_of (body : value) : value :=
  nullish (get "categoryKey" (get "filters" body)) (VStr "C10").

Definition POST_body (request_json : result value) (fetch : Upstream) : result Response :=
  let body := read_body request_json in
  let pageNumber := pageNumber_of body in
  let recordsPerPage := recordsPerPage_of body in
  let categoryKey := categoryKey_of body in
  let* res := fetch "/bbps/billers"%string
                (upstream_request pageNumber recordsPerPage categoryKey) in
  let* data := up_json res in
  if negb (ok res) then
    Ok (NextResponse_json (VObj [("error"%string, data)]) (up_status res))
  else Ok (NextResponse_json data 200).

Definition POST (request_json : result value) (fetch : Upstream) : Response :=
  try_catch (POST_body request_json fetch).

End BillersRoute.

(* ===================================================================== *)
(** * The biller-details route *)
(* ===================================================================== *)

Module BillerDetailsRoute.

Definition POST_body (request_json : result value) (fetch : Upstream) : result Response :=
  let* body := request_json in
  let billerId := get "billerId" body in
  if negb (truthy billerId) then
    Ok (NextResponse_json (VObj [("error"%string, VStr "billerId is required")]) 400)
  else
    let* res := fetch "/bbps/biller-details"%string (VObj [("billerId"%string, billerId)]) in
    let* data := up_json res in
    if negb (ok res) then
      Ok (NextResponse_json (VObj [("error"%string, data)]) (up_status res))
    else Ok (NextResponse_json data 200).

Definition POST (request_json : result value) (fetch : Upstream) : Response :=
  try_catch (POST_body request_json fetch).

End BillerDetailsRoute.

(* ===================================================================== *)
(** * Client: API helpers shared by the wizard page and the home page *)
(* ===================================================================== *)

Module Client.
Import Num.

(** ** [fetchBillers]: normalisation of upstream records *)

(** [type Biller].  The fields copied from the untyped upstream record keep
    whatever value was there; [isAvailable] is always a genuine boolean. *)
Record Biller : Type := mkBiller {
  billerId : value;
  billerName : value;
  isAvailable : bool;
  coverage : value;
  iconUrl : value
}.

(** [b.coverageCity && b.coverageCity !== "-" ? ... : ...] *)
Definition coverage_of (b : value) : value :=
  let city := get "coverageCity" b in
  let state := get "coverageState" b in
  if truthy (JS.and city (VBool (negb (strict_eq_str city "-")))) then city
  else if truthy (JS.and state (VBool (negb (strict_eq_str state "-")))) then state
  else VStr "PAN India".

(** [typeof b.isAvailable === "boolean" ? b.isAvailable : b.billerStatus === "ACTIVE"] *)
Definition isAvailable_of (b : value) : bool :=
  match get "isAvailable" b with
  | VBool flag => flag
  | _ => strict_eq_str (get "billerStatus" b) "ACTIVE"
  end.

(** The callback of [list.map(...)].  Reading a property of [null] or
    [undefined] throws a TypeError; its message is the engine's (here in
    V8's wording). *)
Definition normalize (b : value) : result Biller :=
  match b with
  | VUndef => Throw (ErrorExn "Cannot read properties of undefined (reading 'billerId')")
  | VNull => Throw (ErrorExn "Cannot read properties of null (reading 'billerId')")
  | _ =>
      Ok {| billerId := JS.or (get "billerId" b) (JS.or (get "id" b) (VStr ""));
            billerName := JS.or (get "billerName" b) (JS.or (get "name" b) (VStr ""));
            isAvailable := isAvailable_of b;
            coverage := coverage_of b;
            iconUrl := get "iconUrl" b |}
  end.

Fixpoint map_normalize (items : list value) : result (list Biller) :=
  match items with
  | [] => Ok []
  | b :: rest =>
      let* r := normalize b in
      let* rs := map_normalize rest in
      Ok (r :: rs)
  end.

(** The records part of [fetchBillers] once the proxy has answered [data]:
    [data?.data?.records || data?.records || data?.data || []], then
    [.map].  A list that is not an array has no [map]. *)
Definition fetchBillers_records (data : value) : result (list Biller) :=
  let list :=
    JS.or (get "records" (get "data" data))
      (JS.or (get "records" data) (JS.or (get "data" data) (VArr []))) in
  match list with
  | VArr items => map_normalize items
  | _ => Throw (ErrorExn "list.map is not a function")
  end.

(** [type BillerMeta]; the [Number(...)] coercions that fill it are not
    modelled, the pages receive it ready made. *)
Record BillerMeta : Type := mkMeta {
  totalPages : Z;
  currentPage : Z;
  totalRecords : Z;
  recordsOnCurrentPage : Z;
  recordFrom : Z;
  recordTo : Z
}.

(** ** [extractErrorStatus] of the client *)

Definition extractErrorStatus (data : value) : value :=
  JS.or (get "error" data)
    (JS.or (get "status" data)
       (JS.or (get "status" (get "error" data))
          (JS.or (if is_string (get "error" data) then get "error" data else VStr "")
             (JS.or (get "message" data) (VStr "An error occurred"))))).

(** ** Amounts *)

(** [toNumber] of [preEnquiryApi] *)
Definition toNumber (val : value) : number :=
  let n := parseFloat_chars
             (strip_separators (list_ascii_of_string (toStr (nullish val (VStr ""))))) in
  if isFinite n then n else Finite 0.

(** The argument of [formatINR]: [number | string | undefined]. *)
Inductive amount_arg : Type :=
| ANumber (n : number)
| AString (s : string)
| AUndefined.

Definition default_opts : NumberFormatOptions :=
  {| minimumFractionDigits := Some 2%nat; maximumFractionDigits := Some 2%nat |}.

Definition formatINR (amount : amount_arg) (opts : NumberFormatOptions) : string :=
  let n :=
    match amount with
    | ANumber n => n
    | AString s => parseFloat (if String.eqb s "" then "0" else s)
    | AUndefined => parseFloat "0"
    end in
  format_en_IN opts (match n with Finite q => q | _ => 0%Q end).

(** ** [preEnquiryApi] *)

(** [s.trim()] on ASCII white space *)
Definition trim (s : string) : string :=
  string_of_list_ascii
    (List.rev (skip_spaces (List.rev (skip_spaces (list_ascii_of_string s))))).

(** [mapListToRecord].  An assignment to [rec["__proto__"]] goes to the
    setter of [Object.prototype], which ignores a string: nothing is
    stored. *)
Definition mapListToRecord (list : value) : result (gmap string string) :=
  match JS.or list (VArr []) with
  | VArr items =>
      Ok (fold_left
            (fun (rec : gmap string string) (it : value) =>
               if negb (truthy it) then rec
               else
                 let k := trim (toStr (JS.or (get "Name" it) (JS.or (get "name" it) (VStr "")))) in
                 let v := trim (toStr (JS.or (get "Value" it) (JS.or (get "value" it) (VStr "")))) in
                 if negb (String.eqb k "") then
                   if String.eqb k "__proto__" then rec else <[k := v]> rec
                 else rec)
            items ∅)
  | _ => Throw (ErrorExn "forEach is not a function")
  end.

Record EnquiryResponse : Type := mkEnquiry {
  enquiryReferenceId : value;
  amount : number;
  customerName : value;
  policyStatus : value;
  dueDate : value;
  billNumber : value;
  billPeriod : value;
  billDate : value;
  billDueDate : value;
  customerParams : gmap string string;
  additionalDetails : gmap string string;
  billDetails : gmap string string
}.

(** [throw new Error(msg)] *)
Definition throw_Error {A} (msg : value) : result A := Throw (ErrorExn (toStr msg)).

(** What [preEnquiryApi] does with the proxy's answer ([res.ok], parsed
    [data]); [externalRef] is the [SABPE_<timestamp>] token it generated. *)
Definition preEnquiryApi_settle (externalRef : string) (res_ok : bool) (data : value)
  : result EnquiryResponse :=
  if negb res_ok then
    throw_Error (JS.or (extractErrorStatus data) (VStr "Failed to fetch recharge details"))
  else
    let statuscode := JS.or (get "statuscode" data) (get "statuscode" (get "error" data)) in
    let status := JS.or (get "status" data) (get "status" (get "error" data)) in
    let hasErrorStatusCode :=
      JS.and statuscode
        (VBool (includes PreEnquiryRoute.errorStatusCodes (toUpperCase (toStr statuscode)))) in
    let hasErrorStatus :=
      JS.and status (VBool (regexp_test_i PreEnquiryRoute.errorStatusWords (toStr status))) in
    if truthy (JS.or hasErrorStatusCode hasErrorStatus) then
      throw_Error (JS.or (extractErrorStatus data) (VStr "Invalid request"))
    else
      let e := JS.or (get "data" data) data in
      let* customerParams :=
        mapListToRecord (JS.or (get "CustomerParamsDetails" e)
                           (JS.or (get "customerParamsDetails" e) (VArr []))) in
      let* additionalDetails :=
        mapListToRecord (JS.or (get "AdditionalDetails" e)
                           (JS.or (get "additionalDetails" e) (VArr []))) in
      let* billDetails :=
        mapListToRecord (JS.or (get "BillDetails" e) (JS.or (get "billDetails" e) (VArr []))) in
      Ok {| enquiryReferenceId := JS.or (get "enquiryReferenceId" e) (VStr externalRef);
            amount := toNumber (nullish (get "BillAmount" e) (nullish (get "amount" e) (VNum 0)));
            customerName := JS.or (get "CustomerName" e) (get "customerName" e);
            policyStatus :=
              JS.or (get "policyStatus" e)
                (match additionalDetails !! "status"%string with
                 | Some s => VStr s
                 | None => VUndef
                 end);
            dueDate := JS.or (get "BillDueDate" e) (get "dueDate" e);
            billNumber := get "BillNumber" e;
            billPeriod := get "BillPeriod" e;
            billDate := get "BillDate" e;
            billDueDate := get "BillDueDate" e;
            customerParams := customerParams;
            additionalDetails := additionalDetails;
            billDetails := billDetails |}.

(** ** Biller details *)

Inductive DataType : Type := NUMERIC | ALPHANUMERIC.

(** [type InputParameter] *)
Record InputParameter : Type := mkParam {
  name : string;
  paramName : string;
  dataType : DataType;
  minLength : Z;
  maxLength : Z;
  regex : option string;
  mandatory : bool;
  desc : option string
}.

Inductive Exactness : Type := EXACT | ANY.

(** [type BillerDetails] *)
Record BillerDetails : Type := mkDetails {
  inputParameters : list InputParameter;
  paymentModes : list string;
  fetchRequirement : string;
  supportValidation : string;
  paymentAmountExactness : Exactness
}.

End Client.

(* ===================================================================== *)
(** * Form validation shared by the two pages *)
(* ===================================================================== *)

(** What a handler asks of the outside world. *)
Inductive Effect : Type :=
| WindowAlert (message : string)
| PreEnquiryCall (billerId : value) (inputParameters : gmap string string).

(** [e?.message || fallback] in a [catch (e: any)] block *)
Definition message_or (e : exn) (fallback : string) : string :=
  match e with
  | ErrorExn m => if String.eqb m "" then fallback else m
  | OtherExn => fallback
  end.

(** The form is kept in a plain object: [formData[k]] yields the string
    stored under [k] and, for a [k] that was never stored, what every object
    inherits from [Object.prototype].  Each inherited member is listed with
    the [length] of its value: the arity of the function, and none for
    [__proto__], which yields the prototype object itself. *)
Definition Object_prototype : list (string * option Z) :=
  [("constructor", Some 1); ("__defineGetter__", Some 2); ("__defineSetter__", Some 2);
   ("hasOwnProperty", Some 1); ("__lookupGetter__", Some 1); ("__lookupSetter__", Some 1);
   ("isPrototypeOf", Some 1); ("propertyIsEnumerable", Some 1); ("toString", Some 0);
   ("valueOf", Some 0); ("__proto__", None); ("toLocaleString", Some 0)]%string.

Definition is_inherited (k : string) : bool :=
  existsb (fun m => String.eqb k (fst m)) Object_prototype.

(** What [formData[k] || ""] can be: a string, or an inherited member (a
    function or an object, never a string). *)
Inductive Field : Type :=
| Text (s : string)
| Inherited (member : string).

Section Forms.
Import Client.

(** [new RegExp(pattern).test(value)]: the platform's regular expression
    engine; it throws a SyntaxError on a pattern that does not compile, and
    converts a [value] that is not a string to the engine's text for it. *)
Variable RegExp_test : string -> Field -> result bool.

Definition nonempty (s : string) : bool := negb (String.eqb s "").

(** [formData[p.paramName] || ""] *)
Definition field_value (formData : gmap string string) (p : InputParameter) : Field :=
  match formData !! paramName p with
  | Some s => Text s
  | None => if is_inherited (paramName p) then Inherited (paramName p) else Text ""
  end.

(** ToBoolean of the value read *)
Definition filled (value : Field) : bool :=
  match value with
  | Text s => nonempty s
  | Inherited _ => true
  end.

(** [value.length]; [None] stands for [undefined]. *)
Definition field_length (value : Field) : option Z :=
  match value with
  | Text s => Some (Z.of_nat (String.length s))
  | Inherited member =>
      match List.find (fun m => String.eqb member (fst m)) Object_prototype with
      | Some (_, len) => len
      | None => None
      end
  end.

(** [value.length < n]; a comparison with [undefined] is false. *)
Definition shorter_than (value : Field) (n : Z) : bool :=
  match field_length value with
  | Some len => len <? n
  | None => false
  end.

(** [value && p.regex && !(new RegExp(p.regex).test(value))] *)
Definition regex_rejects (p : InputParameter) (value : Field) : result bool :=
  if filled value then
    match regex p with
    | Some pattern =>
        if nonempty pattern then
          let* matched := RegExp_test pattern value in Ok (negb matched)
        else Ok false
    | None => Ok false
    end
  else Ok false.

(** The [for (const p of billerDetails.inputParameters)] loop of [onSubmit]:
    the message of the early [return], or [None] when the loop runs to its
    end. *)
Fixpoint validate (params : list InputParameter) (formData : gmap string string)
  : result (option string) :=
  match params with
  | [] => Ok None
  | p :: rest =>
      let value := field_value formData p in
      if mandatory p && negb (filled value) then
        Ok (Some ("Please enter " +:+ name p))
      else
        let* bad := regex_rejects p value in
        if bad then Ok (Some ("Invalid " +:+ name p))
        else if filled value && shorter_than value (minLength p) then
          Ok (Some (name p +:+ " must be at least " +:+ Number_toString (minLength p)
                    +:+ " characters"))
        else validate rest formData
  end.

End Forms.

(* --------------------------------------------------------------------- *)
(** ** The wizard page, [FastagRechargePage] *)
(* --------------------------------------------------------------------- *)

Module Wizard.
Import Client.

Inductive AlertType : Type := info | error | success.

Record Alert : Type := mkAlert { alert_type : AlertType; message : string }.

(** The [useState] cells of the component. *)
Record State : Type := mkState {
  currentStep : Z;
  billers : list Biller;
  search : string;
  selectedBiller : option Biller;
  billerDetails : option BillerDetails;
  formData : gmap string string;
  enquiryData : option EnquiryResponse;
  selectedPaymentMode : option string;
  loadingBillers : bool;
  pageNumber : Z;
  meta : option BillerMeta;
  loadingEnquiry : bool;
  alert : option Alert
}.

Definition initial : State :=
  {| currentStep := 1; billers := []; search := ""; selectedBiller := None;
     billerDetails := None; formData := ∅; enquiryData := None;
     selectedPaymentMode := None; loadingBillers := false; pageNumber := 1;
     meta := None; loadingEnquiry := false; alert := None |}.

Definition set_currentStep (x : Z) (st : State) : State :=
  {| currentStep := x; billers := billers st; search := search st;
     selectedBiller := selectedBiller st; billerDetails := billerDetails st;
     formData := formData st; enquiryData := enquiryData st;
     selectedPaymentMode := selectedPaymentMode st;
     loadingBillers := loadingBillers st; pageNumber := pageNumber st; meta := meta st;
     loadingEnquiry := loadingEnquiry st; alert := alert st |}.

Definition set_billers (x : list Biller) (st : State) : State :=
  {| currentStep := currentStep st; billers := x; search := search st;
     selectedBiller := selectedBiller st; billerDetails := billerDetails st;
     formData := formData st; enquiryData := enquiryData st;
     selectedPaymentMode := selectedPaymentMode st;
     loadingBillers := loadingBillers st; pageNumber := pageNumber st; meta := meta st;
     loadingEnquiry := loadingEnquiry st; alert := alert st |}.

Definition set_search (x : string) (st : State) : State :=
  {| currentStep := currentStep st; billers := billers st; search := x;
     selectedBiller := selectedBiller st; billerDetails := billerDetails st;
     formData := formData st; enquiryData := enquiryData st;
     selectedPaymentMode := selectedPaymentMode st;
     loadingBillers := loadingBillers st; pageNumber := pageNumber st; meta := meta st;
     loadingEnquiry := loadingEnquiry st; alert := alert st |}.

Definition set_selectedBiller (x : option Biller) (st : State) : State :=
  {| currentStep := currentStep st; billers := billers st; search := search st;
     selectedBiller := x; billerDetails := billerDetails st; formData := formData st;
     enquiryData := enquiryData st; selectedPaymentMode := selectedPaymentMode st;
     loadingBillers := loadingBillers st; pageNumber := pageNumber st; meta := meta st;
     loadingEnquiry := loadingEnquiry st; alert := alert st |}.

Definition set_billerDetails (x : option BillerDetails) (st : State) : State :=
  {| currentStep := currentStep st; billers := billers st; search := search st;
     selectedBiller := selectedBiller st; billerDetails := x; formData := formData st;
     enquiryData := enquiryData st; selectedPaymentMode := selectedPaymentMode st;
     loadingBillers := loadingBillers st; pageNumber := pageNumber st; meta := meta st;
     loadingEnquiry := loadingEnquiry st; alert := alert st |}.

Definition set_formData (x : gmap string string) (st : State) : State :=
  {| currentStep := currentStep st; billers := billers st; search := search st;
     selectedBiller := selectedBiller st; billerDetails := billerDetails st;
     formData := x; enquiryData := enquiryData st;
     selectedPaymentMode := selectedPaymentMode st;
     loadingBillers := loadingBillers st; pageNumber := pageNumber st; meta := meta st;
     loadingEnquiry := loadingEnquiry st; alert := alert st |}.

Definition set_enquiryData (x : option EnquiryResponse) (st : State) : State :=
  {| currentStep := currentStep st; billers := billers st; search := search st;
     selectedBiller := selectedBiller st; billerDetails := billerDetails st;
     formData := formData st; enquiryData := x;
     selectedPaymentMode := selectedPaymentMode st;
     loadingBillers := loadingBillers st; pageNumber := pageNumber st; meta := meta st;
     loadingEnquiry := loadingEnquiry st; alert := alert st |}.

Definition set_selectedPaymentMode (x : option string) (st : State) : State :=
  {| currentStep := currentStep st; billers := billers st; search := search st;
     selectedBiller := selectedBiller st; billerDetails := billerDetails st;
     formData := formData st; enquiryData := enquiryData st; selectedPaymentMode := x;
     loadingBillers := loadingBillers st; pageNumber := pageNumber st; meta := meta st;
     loadingEnquiry := loadingEnquiry st; alert := alert st |}.

Definition set_loadingBillers (x : bool) (st : State) : State :=
  {| currentStep := currentStep st; billers := billers st; search := search st;
     selectedBiller := selectedBiller st; billerDetails := billerDetails st;
     formData := formData st; enquiryData := enquiryData st;
     selectedPaymentMode := selectedPaymentMode st; loadingBillers := x;
     pageNumber := pageNumber st; meta := meta st; loadingEnquiry := loadingEnquiry st;
     alert := alert st |}.

Definition set_pageNumber (x : Z) (st : State) : State :=
  {| currentStep := currentStep st; billers := billers st; search := search st;
     selectedBiller := selectedBiller st; billerDetails := billerDetails st;
     formData := formData st; enquiryData := enquiryData st;
     selectedPaymentMode := selectedPaymentMode st;
     loadingBillers := loadingBillers st; pageNumber := x; meta := meta st;
     loadingEnquiry := loadingEnquiry st; alert := alert st |}.

Definition set_meta (x : option BillerMeta) (st : State) : State :=
  {| currentStep := currentStep st; billers := billers st; search := search st;
     selectedBiller := selectedBiller st; billerDetails := billerDetails st;
     formData := formData st; enquiryData := enquiryData st;
     selectedPaymentMode := selectedPaymentMode st;
     loadingBillers := loadingBillers st; pageNumber := pageNumber st; meta := x;
     loadingEnquiry := loadingEnquiry st; alert := alert st |}.

Definition set_loadingEnquiry (x : bool) (st : State) : State :=
  {| currentStep := currentStep st; billers := billers st; search := search st;
     selectedBiller := selectedBiller st; billerDetails := billerDetails st;
     formData := formData st; enquiryData := enquiryData st;
     selectedPaymentMode := selectedPaymentMode st;
     loadingBillers := loadingBillers st; pageNumber := pageNumber st; meta := meta st;
     loadingEnquiry := x; alert := alert st |}.

Definition set_alert (x : option Alert) (st : State) : State :=
  {| currentStep := currentStep st; billers := billers st; search := search st;
     selectedBiller := selectedBiller st; billerDetails := billerDetails st;
     formData := formData st; enquiryData := enquiryData st;
     selectedPaymentMode := selectedPaymentMode st;
     loadingBillers := loadingBillers st; pageNumber := pageNumber st; meta := meta st;
     loadingEnquiry := loadingEnquiry st; alert := x |}.

(** The billers effect once [fetchBillers(pageNumber, 9)] has settled;
    [abort] is the flag set by the effect's clean-up. *)
Definition billers_settled (abort : bool) (r : result (list Biller * BillerMeta)) (st : State)
  : State :=
  if abort then st
  else
    set_loadingBillers false
      match r with
      | Ok (records, m) => set_meta (Some m) (set_billers records st)
      | Throw e =>
          set_alert (Some (mkAlert error (message_or e "Failed to load FASTag providers"))) st
      end.

(** [selectBiller], up to the [await] and after it. *)
Definition selectBiller (b : Biller) (st : State) : State :=
  set_alert (Some (mkAlert info "Loading FASTag details form..."))
    (set_selectedBiller (Some b) st).

Definition selectBiller_settled (r : result BillerDetails) (st : State) : State :=
  match r with
  | Ok details => set_currentStep 2 (set_alert None (set_billerDetails (Some details) st))
  | Throw e => set_alert (Some (mkAlert error (message_or e "Failed to load biller details"))) st
  end.

(** [onChange] of a parameter input *)
Definition input_changed (p : InputParameter) (text : string) (st : State) : State :=
  set_formData (<[paramName p := text]> (formData st)) st.

(** [onSubmit], up to the [await]: the new state and the requests made.
    [RegExp_test] is the platform's regular expression engine. *)
Definition onSubmit (RegExp_test : string -> Field -> result bool) (st : State)
  : result (State * list Effect) :=
  match billerDetails st, selectedBiller st with
  | Some details, Some biller =>
      let* verdict := validate RegExp_test (inputParameters details) (formData st) in
      match verdict with
      | Some msg => Ok (set_alert (Some (mkAlert error msg)) st, [])
      | None =>
          Ok (set_loadingEnquiry true (set_currentStep 3 st),
              [PreEnquiryCall (billerId biller) (formData st)])
      end
  | _, _ => Ok (st, [])
  end.

(** [onSubmit] after [preEnquiryApi] has settled. *)
Definition onSubmit_settled (r : result EnquiryResponse) (st : State) : State :=
  set_loadingEnquiry false
    match r with
    | Ok resp => set_enquiryData (Some resp) st
    | Throw e =>
        set_currentStep 2
          (set_alert (Some (mkAlert error (message_or e "Failed to fetch recharge details"))) st)
    end.

Definition proceedToPayment (st : State) : State :=
  match selectedPaymentMode st with
  | None => set_alert (Some (mkAlert error "Please select a payment mode")) st
  | Some mode =>
      if nonempty mode then set_currentStep 4 st
      else set_alert (Some (mkAlert error "Please select a payment mode")) st
  end.

(** [onChange] of the search box and [onClick] of a payment mode *)
Definition search_changed (text : string) (st : State) : State := set_search text st.

Definition payment_mode_clicked (mode : string) (st : State) : State :=
  set_selectedPaymentMode (Some mode) st.

(** The "Previous" and "Next" buttons under the list *)
Definition previous_page (st : State) : State :=
  set_pageNumber (Z.max 1 (pageNumber st - 1)) st.

Definition next_page (st : State) : State :=
  set_pageNumber
    (match meta st with
     | None => pageNumber st + 1
     | Some m => Z.min (totalPages m) (pageNumber st + 1)
     end) st.

(** The four controls that go back: the arrow and the "Back" button of
    step 2, the arrow and the "Back" button of step 3. *)
Inductive BackControl : Type := Step2Arrow | Step2Back | Step3Arrow | Step3Back.

Definition click_back (control : BackControl) (st : State) : State :=
  match control with
  | Step2Arrow | Step2Back => set_currentStep 1 st
  | Step3Arrow | Step3Back => set_currentStep 2 st
  end.

End Wizard.

(* --------------------------------------------------------------------- *)
(** ** The home page with infinite scroll, [Home] *)
(* --------------------------------------------------------------------- *)

Module Home.
Import Client.

(** [type EnquiryResponse] of this page *)
Record EnquiryResponse : Type := mkEnquiry {
  enquiryReferenceId : value;
  amount : value;
  customerName : value;
  policyStatus : value;
  dueDate : value
}.

Record State : Type := mkState {
  search : string;
  billers : list Biller;
  meta : option BillerMeta;
  pageNumber : Z;
  loading : bool;
  initialLoading : bool;
  onlyAvailable : bool;
  sortAZ : bool;
  observerAttached : bool;
  selectedBiller : option Biller;
  billerDetails : option BillerDetails;
  drawerOpen : bool;
  formData : gmap string string;
  enquiry : option EnquiryResponse;
  fetchingDetails : bool;
  fetchingEnquiry : bool
}.

Definition initial : State :=
  {| search := ""; billers := []; meta := None; pageNumber := 1; loading := false;
     initialLoading := true; onlyAvailable := false; sortAZ := true;
     observerAttached := false; selectedBiller := None; billerDetails := None;
     drawerOpen := false; formData := ∅; enquiry := None; fetchingDetails := false;
     fetchingEnquiry := false |}.

Definition set_billers (x : list Biller) (st : State) : State :=
  {| search := search st; billers := x; meta := meta st; pageNumber := pageNumber st;
     loading := loading st; initialLoading := initialLoading st;
     onlyAvailable := onlyAvailable st; sortAZ := sortAZ st;
     observerAttached := observerAttached st; selectedBiller := selectedBiller st;
     billerDetails := billerDetails st; drawerOpen := drawerOpen st;
     formData := formData st; enquiry := enquiry st;
     fetchingDetails := fetchingDetails st; fetchingEnquiry := fetchingEnquiry st |}.

Definition set_meta (x : option BillerMeta) (st : State) : State :=
  {| search := search st; billers := billers st; meta := x;
     pageNumber := pageNumber st; loading := loading st;
     initialLoading := initialLoading st; onlyAvailable := onlyAvailable st;
     sortAZ := sortAZ st; observerAttached := observerAttached st;
     selectedBiller := selectedBiller st; billerDetails := billerDetails st;
     drawerOpen := drawerOpen st; formData := formData st; enquiry := enquiry st;
     fetchingDetails := fetchingDetails st; fetchingEnquiry := fetchingEnquiry st |}.

Definition set_pageNumber (x : Z) (st : State) : State :=
  {| search := search st; billers := billers st; meta := meta st; pageNumber := x;
     loading := loading st; initialLoading := initialLoading st;
     onlyAvailable := onlyAvailable st; sortAZ := sortAZ st;
     observerAttached := observerAttached st; selectedBiller := selectedBiller st;
     billerDetails := billerDetails st; drawerOpen := drawerOpen st;
     formData := formData st; enquiry := enquiry st;
     fetchingDetails := fetchingDetails st; fetchingEnquiry := fetchingEnquiry st |}.

Definition set_loading (x : bool) (st : State) : State :=
  {| search := search st; billers := billers st; meta := meta st;
     pageNumber := pageNumber st; loading := x; initialLoading := initialLoading st;
     onlyAvailable := onlyAvailable st; sortAZ := sortAZ st;
     observerAttached := observerAttached st; selectedBiller := selectedBiller st;
     billerDetails := billerDetails st; drawerOpen := drawerOpen st;
     formData := formData st; enquiry := enquiry st;
     fetchingDetails := fetchingDetails st; fetchingEnquiry := fetchingEnquiry st |}.

Definition set_initialLoading (x : bool) (st : State) : State :=
  {| search := search st; billers := billers st; meta := meta st;
     pageNumber := pageNumber st; loading := loading st; initialLoading := x;
     onlyAvailable := onlyAvailable st; sortAZ := sortAZ st;
     observerAttached := observerAttached st; selectedBiller := selectedBiller st;
     billerDetails := billerDetails st; drawerOpen := drawerOpen st;
     formData := formData st; enquiry := enquiry st;
     fetchingDetails := fetchingDetails st; fetchingEnquiry := fetchingEnquiry st |}.

Definition set_selectedBiller (x : option Biller) (st : State) : State :=
  {| search := search st; billers := billers st; meta := meta st;
     pageNumber := pageNumber st; loading := loading st;
     initialLoading := initialLoading st; onlyAvailable := onlyAvailable st;
     sortAZ := sortAZ st; observerAttached := observerAttached st; selectedBiller := x;
     billerDetails := billerDetails st; drawerOpen := drawerOpen st;
     formData := formData st; enquiry := enquiry st;
     fetchingDetails := fetchingDetails st; fetchingEnquiry := fetchingEnquiry st |}.

Definition set_billerDetails (x : option BillerDetails) (st : State) : State :=
  {| search := search st; billers := billers st; meta := meta st;
     pageNumber := pageNumber st; loading := loading st;
     initialLoading := initialLoading st; onlyAvailable := onlyAvailable st;
     sortAZ := sortAZ st; observerAttached := observerAttached st;
     selectedBiller := selectedBiller st; billerDetails := x;
     drawerOpen := drawerOpen st; formData := formData st; enquiry := enquiry st;
     fetchingDetails := fetchingDetails st; fetchingEnquiry := fetchingEnquiry st |}.

Definition set_drawerOpen (x : bool) (st : State) : State :=
  {| search := search st; billers := billers st; meta := meta st;
     pageNumber := pageNumber st; loading := loading st;
     initialLoading := initialLoading st; onlyAvailable := onlyAvailable st;
     sortAZ := sortAZ st; observerAttached := observerAttached st;
     selectedBiller := selectedBiller st; billerDetails := billerDetails st;
     drawerOpen := x; formData := formData st; enquiry := enquiry st;
     fetchingDetails := fetchingDetails st; fetchingEnquiry := fetchingEnquiry st |}.

Definition set_formData (x : gmap string string) (st : State) : State :=
  {| search := search st; billers := billers st; meta := meta st;
     pageNumber := pageNumber st; loading := loading st;
     initialLoading := initialLoading st; onlyAvailable := onlyAvailable st;
     sortAZ := sortAZ st; observerAttached := observerAttached st;
     selectedBiller := selectedBiller st; billerDetails := billerDetails st;
     drawerOpen := drawerOpen st; formData := x; enquiry := enquiry st;
     fetchingDetails := fetchingDetails st; fetchingEnquiry := fetchingEnquiry st |}.

Definition set_enquiry (x : option EnquiryResponse) (st : State) : State :=
  {| search := search st; billers := billers st; meta := meta st;
     pageNumber := pageNumber st; loading := loading st;
     initialLoading := initialLoading st; onlyAvailable := onlyAvailable st;
     sortAZ := sortAZ st; observerAttached := observerAttached st;
     selectedBiller := selectedBiller st; billerDetails := billerDetails st;
     drawerOpen := drawerOpen st; formData := formData st; enquiry := x;
     fetchingDetails := fetchingDetails st; fetchingEnquiry := fetchingEnquiry st |}.

Definition set_fetchingDetails (x : bool) (st : State) : State :=
  {| search := search st; billers := billers st; meta := meta st;
     pageNumber := pageNumber st; loading := loading st;
     initialLoading := initialLoading st; onlyAvailable := onlyAvailable st;
     sortAZ := sortAZ st; observerAttached := observerAttached st;
     selectedBiller := selectedBiller st; billerDetails := billerDetails st;
     drawerOpen := drawerOpen st; formData := formData st; enquiry := enquiry st;
     fetchingDetails := x; fetchingEnquiry := fetchingEnquiry st |}.

Definition set_fetchingEnquiry (x : bool) (st : State) : State :=
  {| search := search st; billers := billers st; meta := meta st;
     pageNumber := pageNumber st; loading := loading st;
     initialLoading := initialLoading st; onlyAvailable := onlyAvailable st;
     sortAZ := sortAZ st; observerAttached := observerAttached st;
     selectedBiller := selectedBiller st; billerDetails := billerDetails st;
     drawerOpen := drawerOpen st; formData := formData st; enquiry := enquiry st;
     fetchingDetails := fetchingDetails st; fetchingEnquiry := x |}.

(** [Set.prototype.has]: SameValueZero.  Objects and arrays are compared by
    reference, and every parsed record carries references of its own. *)
Definition same_value_zero (a b : value) : bool :=
  match a, b with
  | VUndef, VUndef | VNull, VNull => true
  | VBool x, VBool y => Bool.eqb x y
  | VNum x, VNum y => x =? y
  | VStr x, VStr y => String.eqb x y
  | _, _ => false
  end.

Definition has (seen : list value) (x : value) : bool := existsb (same_value_zero x) seen.

(** The updater passed to [setBillers]:
    [seen] is built from [prev] once, the loop pushes onto [merged]. *)
Definition merge_page (prev records : list Biller) : list Biller :=
  let seen := List.map billerId prev in
  fold_left (fun merged r => if negb (has seen (billerId r)) then merged ++ [r] else merged)
    records prev.

(** The billers effect once [fetchBillers(pageNumber, 24, DEFAULT_CATEGORY)]
    has settled. *)
Definition billers_settled (aborted : bool) (r : result (list Biller * BillerMeta)) (st : State)
  : State :=
  if aborted then st
  else
    set_initialLoading false
      (set_loading false
         match r with
         | Ok (records, m) => set_meta (Some m) (set_billers (merge_page (billers st) records) st)
         | Throw _ => st
         end).

(** [openBiller], up to the [await] and after it. *)
Definition openBiller (b : Biller) (st : State) : State :=
  set_fetchingDetails true
    (set_enquiry None
       (set_formData ∅
          (set_billerDetails None (set_drawerOpen true (set_selectedBiller (Some b) st))))).

Definition openBiller_settled (r : result BillerDetails) (st : State) : State :=
  set_fetchingDetails false
    match r with
    | Ok details => set_billerDetails (Some details) st
    | Throw _ => st
    end.

(** [onSubmit], up to the [await]. *)
Definition onSubmit (RegExp_test : string -> Field -> result bool) (st : State)
  : result (State * list Effect) :=
  match billerDetails st, selectedBiller st with
  | Some details, Some biller =>
      let* verdict := validate RegExp_test (inputParameters details) (formData st) in
      match verdict with
      | Some msg => Ok (st, [WindowAlert msg])
      | None =>
          Ok (set_fetchingEnquiry true st, [PreEnquiryCall (billerId biller) (formData st)])
      end
  | _, _ => Ok (st, [])
  end.

(** [onSubmit] after [preEnquiryApi] has settled. *)
Definition onSubmit_settled (r : result EnquiryResponse) (st : State) : State :=
  set_fetchingEnquiry false
    match r with
    | Ok resp => set_enquiry (Some resp) st
    | Throw _ => st
    end.

End Home.

(* ===================================================================== *)
(** * The rules of the specification, in its own words *)
(* ===================================================================== *)

(** ** Pre-enquiry: classification of a 2xx body *)

Module PreEnquirySpec.
Import PreEnquiryRoute.

Definition eq_ignore_case (a b : string) : Prop := toLowerCase a = toLowerCase b.

Definition contains_ignore_case (s w : string) : Prop :=
  exists pre mid post, s = pre +:+ mid +:+ post /\ eq_ignore_case mid w.

(** "field [a], or [b]": the first of the two that carries something. *)
Definition field_or (a b : value) : value := if truthy a then a else b.

Definition status_code_field (data : value) : value :=
  field_or (get "statuscode" data) (get "statuscode" (get "error" data)).

Definition status_field (data : value) : value :=
  field_or (get "status" data) (get "status" (get "error" data)).

(** The status code matches one of the error codes, or the status text
    contains one of the error words, letter case ignored. *)
Definition domain_error (data : value) : Prop :=
  (exists c, In c errorStatusCodes /\ eq_ignore_case (toStr (status_code_field data)) c)
  \/ (exists w, In w errorStatusWords /\ contains_ignore_case (toStr (status_field data)) w).

(** A request the pre-enquiry route forwards. *)
Definition valid_request (body : value) : Prop :=
  truthy (get "billerId" body) = true
  /\ truthy (get "inputParameters" body) = true
  /\ truthy (get "externalRef" body) = true.

End PreEnquirySpec.

(** ** Sample traffic for the routes *)

(** A body every route accepts. *)
Definition sample_request : value :=
  VObj [("billerId"%string, VStr "B1");
        ("inputParameters"%string, VObj [("vehicleNo"%string, VStr "KA01AB1234")]);
        ("externalRef"%string, VStr "SABPE_1")].

(** An upstream that always answers with the given status and JSON body. *)
Definition answering (status : Z) (data : value) : Upstream :=
  fun _ _ => Ok (mkReply status (Ok data)).

(** [v] is the number [n]. *)
Definition is_number (v : value) (n : Z) : bool :=
  match v with VNum m => m =? n | _ => false end.

(** An upstream that lists billers only when asked for page 1, 50 records
    a page, of category C10, and refuses every other request. *)
Definition first_page_only (data : value) : Upstream :=
  fun path req =>
    if String.eqb path "/bbps/billers"
       && is_number (get "pageNumber" (get "pagination" req)) 1
       && is_number (get "recordsPerPage" (get "pagination" req)) 50
       && strict_eq_str (get "categoryKey" (get "filters" req)) "C10"
    then Ok (mkReply 200 (Ok data))
    else Ok (mkReply 400 (Ok (VObj [("message"%string, VStr "bad request")]))).

(** The message of the [catch] block: [e.message] of an [Error], else a
    fixed text. *)
Definition exception_message (e : exn) : string :=
  match e with
  | ErrorExn m => m
  | OtherExn => "Unknown error"
  end.

(** What the billers route makes of the upstream's answer. *)
Definition billers_respond (answer : result UpstreamReply) : Response :=
  try_catch
    (let* res := answer in
     let* data := up_json res in
     if negb (ok res)
     then Ok (NextResponse_json (VObj [("error"%string, data)]) (up_status res))
     else Ok (NextResponse_json data 200)).

(** A member that is missing takes its default. *)
Definition or_default (v d : value) : value :=
  match v with
  | VUndef | VNull => d
  | _ => v
  end.

(** ** Priority chains *)

(** The first entry of a chain that carries something, else the fallback. *)
Fixpoint first_present (chain : list value) (fallback : value) : value :=
  match chain with
  | [] => fallback
  | v :: rest => if truthy v then v else first_present rest fallback
  end.

(** A field that is a string when it is there at all. *)
Definition string_if_present (v : value) : bool :=
  match v with
  | VUndef | VNull | VStr _ => true
  | _ => false
  end.

(** A member that is a string, or carries nothing. *)
Definition string_or_falsy (v : value) : bool := is_string v || negb (truthy v).

Definition nonempty_string (v : value) : Prop := exists s, v = VStr s /\ s <> ""%string.

(** ** Coverage *)

(** The rule as the specification words it: a field counts unless it is
    [undefined] or the "-" sentinel. *)
Definition stated_usable (v : value) : bool :=
  match v with
  | VUndef => false
  | VStr s => negb (String.eqb s "-")
  | _ => true
  end.

Definition stated_coverage (b : value) : value :=
  if stated_usable (get "coverageCity" b) then get "coverageCity" b
  else if stated_usable (get "coverageState" b) then get "coverageState" b
  else VStr "PAN India".

(** The rule of the code: a field counts when it is truthy and not the "-"
    sentinel. *)
Definition usable (v : value) : bool :=
  truthy v && negb (strict_eq_str v "-").

(** ** Validation of one parameter, rules (1), (2), (3) in order *)

Section ParameterRules.
Import Client.
Variable RegExp_test : string -> Field -> result bool.

(** The text the user has typed for a parameter, empty when nothing was. *)
Definition typed_text (formData : gmap string string) (p : InputParameter) : string :=
  default ""%string (formData !! paramName p).

(** The parameter is not named like a member every object inherits
    ([toString], [constructor], ...), or its field has been typed into. *)
Definition ordinary (formData : gmap string string) (p : InputParameter) : Prop :=
  is_inherited (paramName p) = false \/ is_Some (formData !! paramName p).

Definition check_parameter (formData : gmap string string) (p : InputParameter)
  : result (option string) :=
  let value := typed_text formData p in
  if String.eqb value "" then
    (* an empty value can only break rule (1) *)
    Ok (if mandatory p then Some ("Please enter " +:+ name p) else None)
  else
    let* fails_regex :=
      match regex p with
      | None | Some EmptyString => Ok false
      | Some pattern => let* matched := RegExp_test pattern (Text value) in Ok (negb matched)
      end in
    if fails_regex then Ok (Some ("Invalid " +:+ name p))
    else if Z.of_nat (String.length value) <? minLength p then
      Ok (Some (name p +:+ " must be at least " +:+ Number_toString (minLength p)
                +:+ " characters"))
    else Ok None.

(** What a parameter has gone through when the loop of [onSubmit] did not
    stop at it.  [text] is what was typed for it; a mandatory parameter has
    a text unless its field was never typed into and its name is that of an
    inherited member, which the loop takes for a value. *)
Definition passed (formData : gmap string string) (p : InputParameter) : Prop :=
  let text := typed_text formData p in
  (mandatory p = true ->
   text <> ""%string
   \/ (formData !! paramName p = None /\ is_inherited (paramName p) = true))
  /\ (text <> ""%string -> minLength p <= Z.of_nat (String.length text))
  /\ (text <> ""%string -> forall pattern,
        regex p = Some pattern -> pattern <> ""%string ->
        RegExp_test pattern (Text text) = Ok true).

End ParameterRules.

(** ** Amounts with at most two decimal places *)

Definition two_decimals (q : Q) : Prop := exists n : Z, (q == inject_Z n / 100)%Q.

(** Equality of numbers, finite values compared as rationals. *)
Definition number_eq (a b : Num.number) : Prop :=
  match a, b with
  | Num.Finite x, Num.Finite y => (x == y)%Q
  | Num.NaN, Num.NaN => True
  | Num.Infinity s, Num.Infinity t => s = t
  | _, _ => False
  end.

(** ** Biller lists *)

(** No two entries carry the same [billerId]. *)
Definition distinct_ids (l : list Client.Biller) : Prop :=
  NoDup (List.map Client.billerId l).

(** ** Sample data *)

Module Samples.
Import Client.

Definition acme : Biller :=
  {| billerId := VStr "B1"; billerName := VStr "Acme"; isAvailable := true;
     coverage := VStr "PAN India"; iconUrl := VUndef |}.

Definition vehicleNo : InputParameter :=
  {| name := "Vehicle Number"; paramName := "vehicleNo"; dataType := ALPHANUMERIC;
     minLength := 6; maxLength := 12; regex := Some "^[A-Z0-9]+$"%string;
     mandatory := true; desc := Some "Vehicle Number"%string |}.

Definition mobile : InputParameter :=
  {| name := "Mobile Number"; paramName := "mobile"; dataType := NUMERIC;
     minLength := 10; maxLength := 10; regex := None;
     mandatory := true; desc := None |}.

Definition acme_details : BillerDetails :=
  {| inputParameters := [vehicleNo; mobile]; paymentModes := ["UPI"%string];
     fetchRequirement := "SUPPORTED"; supportValidation := "SUPPORTED";
     paymentAmountExactness := EXACT |}.

(** The wizard after an issuer was chosen and its form arrived. *)
Definition details_shown : Wizard.State :=
  Wizard.selectBiller_settled (Ok acme_details) (Wizard.selectBiller acme Wizard.initial).

(** A regular expression engine that accepts every value. *)
Definition accept_all : string -> Field -> result bool := fun _ _ => Ok true.

(** A biller whose one parameter, mandatory, is named [toString]. *)
Definition tag : InputParameter :=
  {| name := "Tag"; paramName := "toString"; dataType := ALPHANUMERIC;
     minLength := 0; maxLength := 256; regex := None;
     mandatory := true; desc := None |}.

Definition tag_details : BillerDetails :=
  {| inputParameters := [tag]; paymentModes := ["UPI"%string];
     fetchRequirement := "SUPPORTED"; supportValidation := "SUPPORTED";
     paymentAmountExactness := EXACT |}.

(** Its form on the wizard page and in the drawer of the home page, nothing
    typed yet. *)
Definition tag_shown : Wizard.State :=
  Wizard.selectBiller_settled (Ok tag_details) (Wizard.selectBiller acme Wizard.initial).

Definition tag_opened : Home.State :=
  Home.openBiller_settled (Ok tag_details) (Home.openBiller acme Home.initial).

End Samples.

(** ** The message chain as the specification states it *)

(** "explicit error string → status string → nested error.status → message
    → generic fallback text" *)
Definition stated_chain (data : value) : value :=
  first_present
    [ (if is_string (get "error" data) then get "error" data else VUndef);
      get "status" data;
      get "status" (get "error" data);
      get "message" data ]
    (VStr "An error occurred").

(** The order the pre-enquiry route follows. *)
Definition route_chain (data : value) : value :=
  first_present
    [ get "status" data;
      get "status" (get "error" data);
      (if is_string (get "error" data) then get "error" data else VUndef);
      get "message" data ]
    (VStr "An error occurred").

(** ** Digit strings *)

(** The value of a digit string read from the left. *)
Definition value_of (ds : list ascii) (acc : Z) : Z :=
  fold_left (fun v c => 10 * v + Num.digit_val c) ds acc.

(** A string from which [toNumber] reads no number. *)
Definition unparsable (s : string) : Prop :=
  Num.parseFloat_chars (Num.strip_separators (list_ascii_of_string s)) = Num.NaN.

(* ===================================================================== *)
(** * Wizard page: derived values of the render *)
(* ===================================================================== *)

Module Display.
Import Client Num.

(** [normalizeNA] *)
Definition normalizeNA (value : JS.value) : JS.value :=
  if negb (truthy value) then value
  else
    let v := trim (toStr value) in
    if String.eqb v "" || String.eqb v "NA" || String.eqb v "N/A" || String.eqb v "-"
       || String.eqb v "01/01/1900"
    then VUndef
    else VStr v.

(** [statusText]:
    [(enquiryData?.policyStatus || enquiryData?.additionalDetails?.["status"] || "").toString()] *)
Definition statusText (enquiryData : option EnquiryResponse) : string :=
  match enquiryData with
  | None => ""
  | Some e =>
      toStr (JS.or (policyStatus e)
               (JS.or (match additionalDetails e !! "status"%string with
                       | Some s => VStr s
                       | None => VUndef
                       end)
                  (VStr "")))
  end.

Inductive Tone : Type := success | pending | error | info.

Definition successWords : list string :=
  ["success"; "active"; "ok"; "low balance"; "valid"]%string.

Definition pendingWords : list string := ["pending"; "processing"]%string.

Definition errorWords : list string :=
  ["block"; "inactive"; "invalid"; "error"; "fail"; "expired"]%string.

(** [statusTone] *)
Definition statusTone (statusText : string) : Tone :=
  if regexp_test_i successWords statusText then success
  else if regexp_test_i pendingWords statusText then pending
  else if regexp_test_i errorWords statusText then error
  else info.

(** [Number.parseFloat(String(raw ?? "").replace(/[,\s]/g, ""))] *)
Definition parse_raw (raw : option string) : number :=
  parseFloat_chars
    (strip_separators (list_ascii_of_string (match raw with Some s => s | None => ""%string end))).

Definition detail (enquiryData : option EnquiryResponse) (key : string) : option string :=
  match enquiryData with
  | None => None
  | Some e => additionalDetails e !! key
  end.

(** [progressPct] *)
Definition progressPct (enquiryData : option EnquiryResponse) : Q :=
  let availableBalance := parse_raw (detail enquiryData "Available Balance") in
  let rechargeLimit := parse_raw (detail enquiryData "Available Recharge Limit") in
  match availableBalance, rechargeLimit with
  | Finite balance, Finite limit =>
      if Qlt_le_dec 0 limit
      then Qmax 0 (Qmin 100 (balance / limit * 100))%Q
      else 0%Q
  | _, _ => 0%Q
  end.

(** [s.includes(q)] *)
Fixpoint str_includes (s q : string) : bool :=
  String.prefix q s
  || match s with
     | EmptyString => false
     | String _ s' => str_includes s' q
     end.

(** [b.billerName.toLowerCase()]: only a string has the method. *)
Definition lower_name (b : Biller) : result string :=
  match billerName b with
  | VStr s => Ok (toLowerCase s)
  | _ => Throw (ErrorExn "b.billerName.toLowerCase is not a function")
  end.

(** [billers.filter((b) => b.billerName.toLowerCase().includes(q))] *)
Fixpoint filter_by_name (q : string) (billers : list Biller) : result (list Biller) :=
  match billers with
  | [] => Ok []
  | b :: rest =>
      let* lowered := lower_name b in
      let* kept := filter_by_name q rest in
      Ok (if str_includes lowered q then b :: kept else kept)
  end.

(** [filteredBillers] *)
Definition filteredBillers (billers : list Biller) (search : string) : result (list Biller) :=
  filter_by_name (toLowerCase search) billers.

(** The payment modes offered at step 3:
    [billerDetails?.paymentModes?.length ? billerDetails.paymentModes : [...]] *)
Definition offered_modes (billerDetails : option BillerDetails) : list string :=
  match billerDetails with
  | Some d =>
      match paymentModes d with
      | [] => ["UPI"; "Card"; "Net Banking"; "Wallet"]%string
      | _ :: _ => paymentModes d
      end
  | None => ["UPI"; "Card"; "Net Banking"; "Wallet"]%string
  end.

End Display.

(* ===================================================================== *)
(** * [fetchBillerDetailsApi]: the payment modes *)
(* ===================================================================== *)

Module Details.

Definition defaultPaymentModes : list string :=
  ["UPI"; "Internet_Banking"; "Debit_Card"; "Credit_Card"; "Account_Transfer"; "NEFT";
   "Bharat_QR"]%string.

(** The [paymentModes] member of the result, once the function gets to it:
    [(details?.paymentModes || []).map((m) => m?.name || m).filter(Boolean)],
    replaced by the default list when empty. *)
Definition paymentModes_of (data : value) : result (list value) :=
  let details := JS.or (get "data" data) data in
  match JS.or (get "paymentModes" details) (VArr []) with
  | VArr items =>
      let modes := List.filter truthy (List.map (fun m => JS.or (get "name" m) m) items) in
      Ok (match modes with
          | [] => List.map VStr defaultPaymentModes
          | _ :: _ => modes
          end)
  | _ => Throw (ErrorExn "map is not a function")
  end.

End Details.

(* ===================================================================== *)
(** * The wizard as an event system *)
(* ===================================================================== *)

Module Flow.
Import Client Wizard.

(** The component together with the requests that have not settled yet. *)
Record World : Type := mkWorld {
  ui : State;
  billers_inflight : bool;
  details_inflight : nat;
  enquiry_inflight : nat
}.

(** After mounting, the billers effect has set the spinner and asked for
    page 1. *)
Definition start : World :=
  {| ui := set_loadingBillers true initial; billers_inflight := true;
     details_inflight := 0; enquiry_inflight := 0 |}.

(** What the render shows, read off the JSX. *)
Definition list_shown (st : State) : bool :=
  (currentStep st =? 1) && negb (loadingBillers st).

Definition step2_shown (st : State) : bool :=
  (currentStep st =? 2)
  && match billerDetails st, selectedBiller st with
     | Some _, Some _ => true
     | _, _ => false
     end.

Definition enquiry_shown (st : State) : bool :=
  (currentStep st =? 3) && negb (loadingEnquiry st)
  && match enquiryData st with Some _ => true | None => false end.

(** [disabled] of the "Previous" and "Next" buttons *)
Definition previous_disabled (st : State) : bool :=
  match meta st with
  | None => true
  | Some _ => pageNumber st <=? 1
  end.

Definition next_disabled (st : State) : bool :=
  match meta st with
  | None => true
  | Some m => pageNumber st >=? (if totalPages m =? 0 then 1 else totalPages m)
  end.

Inductive Event : Type :=
| SearchTyped (text : string)
| IssuerClicked (card : nat)
| DetailsArrived (r : result BillerDetails)
| FieldTyped (field : nat) (text : string)
| FormSubmitted
| EnquiryArrived (r : result EnquiryResponse)
| BackClicked (control : BackControl)
| ModeClicked (button : nat)
| ProceedClicked
| PreviousClicked
| NextClicked
| BillersArrived (r : result (list Biller * BillerMeta))
| StaleBillersArrived (r : result (list Biller * BillerMeta)).

Section WithEngine.
Variable RegExp_test : string -> Field -> result bool.

(** A change of [pageNumber] re-runs the billers effect: the previous
    request is aborted, the spinner is set and the new page is asked for. *)
Definition turn_page (st' : State) (w : World) : World :=
  {| ui := set_loadingBillers true st'; billers_inflight := true;
     details_inflight := details_inflight w; enquiry_inflight := enquiry_inflight w |}.

Definition with_ui (st' : State) (w : World) : World :=
  {| ui := st'; billers_inflight := billers_inflight w;
     details_inflight := details_inflight w; enquiry_inflight := enquiry_inflight w |}.

(** One event; [None] when the control is not on the page, is disabled, or
    nothing of that kind is in flight. *)
Definition fire (e : Event) (w : World) : option World :=
  let st := ui w in
  match e with
  | SearchTyped text =>
      if currentStep st =? 1 then Some (with_ui (search_changed text st) w) else None
  | IssuerClicked card =>
      if list_shown st then
        match Display.filteredBillers (billers st) (search st) with
        | Ok shown =>
            match shown !! card with
            | Some b =>
                if isAvailable b then
                  Some {| ui := selectBiller b st; billers_inflight := billers_inflight w;
                          details_inflight := S (details_inflight w);
                          enquiry_inflight := enquiry_inflight w |}
                else None
            | None => None
            end
        | Throw _ => None
        end
      else None
  | DetailsArrived r =>
      match details_inflight w with
      | S n =>
          Some {| ui := selectBiller_settled r st; billers_inflight := billers_inflight w;
                  details_inflight := n; enquiry_inflight := enquiry_inflight w |}
      | O => None
      end
  | FieldTyped field text =>
      if step2_shown st then
        match billerDetails st with
        | Some d =>
            match inputParameters d !! field with
            | Some p => Some (with_ui (input_changed p text st) w)
            | None => None
            end
        | None => None
        end
      else None
  | FormSubmitted =>
      if step2_shown st then
        match onSubmit RegExp_test st with
        | Ok (st', requests) =>
            Some {| ui := st'; billers_inflight := billers_inflight w;
                    details_inflight := details_inflight w;
                    enquiry_inflight := (enquiry_inflight w + length requests)%nat |}
        | Throw _ => Some w
        end
      else None
  | EnquiryArrived r =>
      match enquiry_inflight w with
      | S n =>
          Some {| ui := onSubmit_settled r st; billers_inflight := billers_inflight w;
                  details_inflight := details_inflight w; enquiry_inflight := n |}
      | O => None
      end
  | BackClicked control =>
      let shown :=
        match control with
        | Step2Arrow | Step2Back => step2_shown st
        | Step3Arrow => currentStep st =? 3
        | Step3Back => enquiry_shown st
        end in
      if shown then Some (with_ui (click_back control st) w) else None
  | ModeClicked button =>
      if enquiry_shown st then
        match Display.offered_modes (billerDetails st) !! button with
        | Some mode => Some (with_ui (payment_mode_clicked mode st) w)
        | None => None
        end
      else None
  | ProceedClicked =>
      if enquiry_shown st then Some (with_ui (proceedToPayment st) w) else None
  | PreviousClicked =>
      if list_shown st && negb (previous_disabled st)
      then Some (turn_page (previous_page st) w) else None
  | NextClicked =>
      if list_shown st && negb (next_disabled st)
      then Some (turn_page (next_page st) w) else None
  | BillersArrived r =>
      if billers_inflight w then
        Some {| ui := billers_settled false r st; billers_inflight := false;
                details_inflight := details_inflight w;
                enquiry_inflight := enquiry_inflight w |}
      else None
  | StaleBillersArrived r => Some (with_ui (billers_settled true r st) w)
  end.

(** The worlds the page can get into. *)
Inductive reachable : World -> Prop :=
| reach_start : reachable start
| reach_fire w e w' : reachable w -> fire e w = Some w' -> reachable w'.

(** Run a list of events, skipping none. *)
Fixpoint run (events : list Event) (w : World) : option World :=
  match events with
  | [] => Some w
  | e :: rest =>
      match fire e w with
      | Some w' => run rest w'
      | None => None
      end
  end.

End WithEngine.

(** What holds of every reachable world. *)
Record Consistent (w : World) : Prop := mkConsistent {
  step_range : 1 <= currentStep (ui w) <= 4;
  page_positive : 1 <= pageNumber (ui w);
  form_has_details :
    2 <= currentStep (ui w) -> billerDetails (ui w) <> None /\ selectedBiller (ui w) <> None;
  details_pending_has_biller :
    (0 < details_inflight w)%nat -> selectedBiller (ui w) <> None;
  enquiry_pending_has_details :
    (0 < enquiry_inflight w)%nat ->
    billerDetails (ui w) <> None /\ selectedBiller (ui w) <> None;
  verify_has_data :
    currentStep (ui w) = 3 -> loadingEnquiry (ui w) = true \/ enquiryData (ui w) <> None;
  payment_has_data :
    currentStep (ui w) = 4 ->
    enquiryData (ui w) <> None
    /\ exists mode, selectedPaymentMode (ui w) = Some mode /\ mode <> ""%string;
  enquiry_spinner : loadingEnquiry (ui w) = true -> (0 < enquiry_inflight w)%nat;
  billers_spinner : loadingBillers (ui w) = billers_inflight w
}.

End Flow.

(* ===================================================================== *)
(** * The client in front of the routes *)
(* ===================================================================== *)

(** [res.ok] as the client sees it on a route's answer. *)
Definition response_ok (r : Response) : bool :=
  (200 <=? resp_status r) && (resp_status r <=? 299).

(** [preEnquiryApi] from the point where the route has answered:
    [const data = await res.json()] and the rest of the function. *)
Definition preEnquiryApi_receive (externalRef : string) (r : Response)
  : result Client.EnquiryResponse :=
  Client.preEnquiryApi_settle externalRef (response_ok r) (resp_body r).

(** [fetchBillers] from the point where the route has answered; the client
    does not look at [res.ok]. *)
Definition fetchBillers_receive (r : Response) : result (list Client.Biller) :=
  Client.fetchBillers_records (resp_body r).

(** The three detail lists [preEnquiryApi] flattens are arrays when they
    are there at all. *)
Definition is_array (v : value) : bool :=
  match v with VArr _ => true | _ => false end.

Definition detail_lists_are_arrays (data : value) : Prop :=
  let e := JS.or (get "data" data) data in
  is_array (JS.or (get "CustomerParamsDetails" e)
              (JS.or (get "customerParamsDetails" e) (VArr []))) = true
  /\ is_array (JS.or (get "AdditionalDetails" e)
                 (JS.or (get "additionalDetails" e) (VArr []))) = true
  /\ is_array (JS.or (get "BillDetails" e) (JS.or (get "billDetails" e) (VArr []))) = true.

(** The payloads on which [String(...)] of the model is the engine's: no
    object has a member of its own named [toString] (on a parsed object that
    has one, [String] throws a TypeError), and every number is an integer
    that a double holds exactly and prints in full. *)
Fixpoint printable (v : value) : bool :=
  match v with
  | VNum n => (- 2 ^ 53 <=? n) && (n <=? 2 ^ 53)
  | VArr items => forallb printable items
  | VObj fields =>
      forallb (fun field => negb (String.eqb (fst field) "toString") && printable (snd field))
        fields
  | _ => true
  end.


(** [trim] on the characters of a string. *)
Definition trim_chars (l : list ascii) : list ascii :=
  List.rev (Num.skip_spaces (List.rev (Num.skip_spaces l))).

(** ** A sample session *)

Module FlowSamples.
Import Client Flow.

Definition sample_enquiry : EnquiryResponse :=
  {| enquiryReferenceId := VStr "SABPE_1"; amount := Num.Finite (125050 # 100);
     customerName := VStr "Ravi"; policyStatus := VStr "Active"; dueDate := VUndef;
     billNumber := VUndef; billPeriod := VUndef; billDate := VUndef; billDueDate := VUndef;
     customerParams := ∅; additionalDetails := ∅; billDetails := ∅ |}.

(** The list arrives, the first issuer is chosen, both fields are filled,
    the form is submitted, the enquiry arrives, a mode is picked and the
    user proceeds. *)
Definition happy_path : list Event :=
  [ BillersArrived (Ok ([Samples.acme], mkMeta 1 1 1 1 1 1));
    IssuerClicked 0;
    DetailsArrived (Ok Samples.acme_details);
    FieldTyped 0 "KA01AB1234";
    FieldTyped 1 "9876543210";
    FormSubmitted;
    EnquiryArrived (Ok sample_enquiry);
    ModeClicked 0;
    ProceedClicked ].

(** The same session, left while the enquiry is still on its way. *)
Definition waiting_path : list Event :=
  [ BillersArrived (Ok ([Samples.acme], mkMeta 1 1 1 1 1 1));
    IssuerClicked 0;
    DetailsArrived (Ok Samples.acme_details);
    FieldTyped 0 "KA01AB1234";
    FieldTyped 1 "9876543210";
    FormSubmitted ].

(** Up to the arrival of the biller details. *)
Definition chosen_path : list Event := firstn 3 waiting_path.

(** Up to the arrival of the enquiry. *)
Definition answered_path : list Event :=
  waiting_path ++ [EnquiryArrived (Ok sample_enquiry)].

End FlowSamples.
(* ===================================================================== *)
(** * Facts about strings and coercions *)
(* ===================================================================== *)

(** Case analysis on the 256 characters. *)
Ltac ascii_cases c := destruct c as [[] [] [] [] [] [] [] []].

Section StringFacts.

Lemma lower_upper_ascii c : lower_ascii (upper_ascii c) = lower_ascii c.
Proof. ascii_cases c; reflexivity. Qed.

Lemma upper_lower_ascii c : upper_ascii (lower_ascii c) = upper_ascii c.
Proof. ascii_cases c; reflexivity. Qed.

Lemma toLowerCase_toUpperCase s : toLowerCase (toUpperCase s) = toLowerCase s.
Proof. induction s as [|c s IH]; simpl; [reflexivity|]. now rewrite lower_upper_ascii, IH. Qed.

Lemma toUpperCase_toLowerCase s : toUpperCase (toLowerCase s) = toUpperCase s.
Proof. induction s as [|c s IH]; simpl; [reflexivity|]. now rewrite upper_lower_ascii, IH. Qed.

Lemma upper_eq_lower_eq a b :
  toUpperCase a = toUpperCase b <-> toLowerCase a = toLowerCase b.
Proof.
  split; intros H.
  - rewrite <- (toLowerCase_toUpperCase a), <- (toLowerCase_toUpperCase b). now rewrite H.
  - rewrite <- (toUpperCase_toLowerCase a), <- (toUpperCase_toLowerCase b). now rewrite H.
Qed.

Lemma toUpperCase_app a b : toUpperCase (a +:+ b) = toUpperCase a +:+ toUpperCase b.
Proof. induction a as [|c a IH]; simpl; [reflexivity|]. now rewrite IH. Qed.

Lemma includes_spec arr s : includes arr s = true <-> In s arr.
Proof.
  unfold includes. rewrite existsb_exists. split.
  - intros (c & Hin & Heq). apply String.eqb_eq in Heq. now subst.
  - intros Hin. exists s. split; [assumption|]. apply String.eqb_refl.
Qed.

(** [match_here] recognises a prefix equal to the word up to letter case. *)
Lemma match_here_spec word s :
  match_here word s = true <->
  exists mid post, s = mid +:+ post /\ toUpperCase mid = toUpperCase word.
Proof.
  revert s. induction word as [|w word IH]; intros s; simpl.
  - split; [intros _|reflexivity]. now exists EmptyString, s.
  - destruct s as [|c s].
    + split; [discriminate|]. intros (mid & post & Hs & Hm).
      destruct mid; simpl in *; discriminate.
    + rewrite andb_true_iff, IH. split.
      * intros (Hc & mid & post & -> & Hm). apply Ascii.eqb_eq in Hc.
        exists (String c mid), post. simpl. split; [reflexivity|]. now rewrite Hm, Hc.
      * intros (mid & post & Hs & Hm). destruct mid as [|m mid]; simpl in *; [discriminate|].
        injection Hs as -> ->. injection Hm as Hc Hm. split.
        -- apply Ascii.eqb_eq. now rewrite Hc.
        -- now exists mid, post.
Qed.

(** [regexp_test_i] finds one of the words anywhere in the string. *)
Lemma regexp_test_i_spec alternatives s :
  regexp_test_i alternatives s = true <->
  exists w pre mid post,
    In w alternatives /\ s = pre +:+ mid +:+ post /\ toUpperCase mid = toUpperCase w.
Proof.
  induction s as [|c s IH]; simpl; rewrite orb_true_iff, existsb_exists.
  - split.
    + intros [(w & Hin & Hm)|]; [|discriminate].
      apply match_here_spec in Hm as (mid & post & Hs & Hm).
      now exists w, EmptyString, mid, post.
    + intros (w & pre & mid & post & Hin & Hs & Hm). left. exists w. split; [assumption|].
      apply match_here_spec. destruct pre; simpl in Hs; [|discriminate]. now exists mid, post.
  - rewrite IH. split.
    + intros [(w & Hin & Hm)|(w & pre & mid & post & Hin & -> & Hm)].
      * apply match_here_spec in Hm as (mid & post & Hs & Hm).
        now exists w, EmptyString, mid, post.
      * now exists w, (String c pre), mid, post.
    + intros (w & pre & mid & post & Hin & Hs & Hm). destruct pre as [|p pre]; simpl in Hs.
      * left. exists w. split; [assumption|]. apply match_here_spec. now exists mid, post.
      * injection Hs as -> ->. right. now exists w, pre, mid, post.
Qed.

End StringFacts.

(* ===================================================================== *)
(** * Pre-enquiry route: classification of a 2xx upstream body *)
(* ===================================================================== *)

Module PreEnquiryFacts.
Import PreEnquiryRoute PreEnquirySpec.

Lemma code_match_spec s :
  includes errorStatusCodes (toUpperCase s) = true <->
  exists c, In c errorStatusCodes /\ eq_ignore_case s c.
Proof.
  rewrite includes_spec. unfold eq_ignore_case. split.
  - intros Hin. exists (toUpperCase s). split; [assumption|].
    symmetry. apply toLowerCase_toUpperCase.
  - intros (c & Hin & Heq). apply upper_eq_lower_eq in Heq. rewrite Heq.
    unfold errorStatusCodes in *. simpl in Hin.
    repeat (destruct Hin as [<-|Hin]; [simpl; tauto|]). contradiction.
Qed.

Lemma word_match_spec s :
  regexp_test_i errorStatusWords s = true <->
  exists w, In w errorStatusWords /\ contains_ignore_case s w.
Proof.
  rewrite regexp_test_i_spec. unfold contains_ignore_case, eq_ignore_case. split.
  - intros (w & pre & mid & post & Hin & Hs & Hm). exists w. split; [assumption|].
    exists pre, mid, post. split; [assumption|]. now apply upper_eq_lower_eq.
  - intros (w & Hin & pre & mid & post & Hs & Hm). exists w, pre, mid, post.
    repeat split; try assumption. now apply upper_eq_lower_eq.
Qed.

(** A falsy value never prints as an error code or an error word, so the
    [statuscode && ...] and [status && ...] guards change nothing. *)
Lemma falsy_no_match v :
  truthy v = false ->
  includes errorStatusCodes (toUpperCase (toStr v)) = false
  /\ regexp_test_i errorStatusWords (toStr v) = false.
Proof.
  destruct v as [| |b|n|s|l|f]; simpl; intros H; try discriminate; try (split; reflexivity).
  - subst b. split; reflexivity.
  - apply negb_false_iff, Z.eqb_eq in H. subst n. split; reflexivity.
  - apply negb_false_iff, String.eqb_eq in H. subst s. split; reflexivity.
Qed.

Lemma get_falsy k data : truthy data = false -> get k data = VUndef.
Proof. destruct data; simpl; try reflexivity; discriminate. Qed.

Lemma isErrorResponse_bool data :
  truthy (isErrorResponse data)
  = includes errorStatusCodes (toUpperCase (toStr (status_code_field data)))
    || regexp_test_i errorStatusWords (toStr (status_field data)).
Proof.
  unfold isErrorResponse. destruct (truthy data) eqn:Hd; cbn [negb].
  - change (JS.or (get "statuscode" data) (get "statuscode" (get "error" data)))
      with (status_code_field data).
    change (JS.or (get "status" data) (get "status" (get "error" data)))
      with (status_field data).
    generalize (falsy_no_match (status_code_field data)).
    generalize (falsy_no_match (status_field data)).
    generalize (status_code_field data) as sc. generalize (status_field data) as st.
    intros st sc Hst Hsc. unfold JS.and, JS.or.
    destruct (truthy sc) eqn:Esc; [|destruct (Hsc eq_refl) as [-> _]];
      (destruct (truthy st) eqn:Est; [|destruct (Hst eq_refl) as [_ ->]]);
      cbn [truthy orb].
    + destruct (includes errorStatusCodes (toUpperCase (toStr sc))); reflexivity.
    + destruct (includes errorStatusCodes (toUpperCase (toStr sc))); cbn [truthy orb];
        [reflexivity|assumption].
    + rewrite Esc. reflexivity.
    + rewrite Esc. assumption.
  - unfold status_code_field, status_field, field_or.
    rewrite !(get_falsy _ data Hd). reflexivity.
Qed.

(** The route classifies a body as a domain error exactly when the rule of
    the specification says so. *)
Lemma isErrorResponse_domain_error data :
  truthy (isErrorResponse data) = true <-> domain_error data.
Proof.
  rewrite isErrorResponse_bool, orb_true_iff, code_match_spec, word_match_spec.
  reflexivity.
Qed.

(** The extracted message is never falsy, so the [|| "Invalid request"] and
    [|| "Request failed"] fallbacks of the handler are never used. *)
Lemma extractErrorStatus_truthy data : truthy (extractErrorStatus data) = true.
Proof.
  unfold extractErrorStatus, JS.or.
  repeat match goal with |- context [if truthy ?v then _ else _] =>
    let H := fresh in destruct (truthy v) eqn:H; try assumption end.
  reflexivity.
Qed.

Lemma valid_request_object body : valid_request body -> JS.or body (VObj []) = body.
Proof. intros (H & _). destruct body; simpl in *; try discriminate. reflexivity. Qed.

(** What the handler answers to a 2xx upstream reply carrying [data]. *)
Lemma POST_on_2xx body (fetch : Upstream) data :
  valid_request body ->
  (forall path req, exists res,
      fetch path req = Ok res /\ ok res = true /\ up_json res = Ok data) ->
  POST (Ok body) fetch
  = if truthy (isErrorResponse data)
    then NextResponse_json
           (VObj [("error"%string, extractErrorStatus data); ("details"%string, data)]) 400
    else NextResponse_json data 200.
Proof.
  intros Hv Hf. unfold POST, POST_body. simpl.
  rewrite (valid_request_object body Hv). destruct Hv as (-> & -> & ->). simpl.
  match goal with |- context [fetch ?p ?r] => destruct (Hf p r) as (res & -> & Hok & Hj) end.
  simpl. rewrite Hj. simpl. rewrite Hok. simpl.
  destruct (truthy (isErrorResponse data)); simpl; [|reflexivity].
  unfold JS.or at 1. now rewrite extractErrorStatus_truthy.
Qed.

End PreEnquiryFacts.

(* ===================================================================== *)
(** * Error translation of the three routes *)
(* ===================================================================== *)

Module RouteFacts.

Lemma on_exception_shape e :
  on_exception e
  = NextResponse_json (VObj [("error"%string, VStr (exception_message e))]) 500.
Proof. destruct e; reflexivity. Qed.

(** Billers: a non-2xx reply is wrapped as [{error: body}]. *)
Lemma billers_non_2xx rq (fetch : Upstream) res data :
  fetch "/bbps/billers"%string
    (BillersRoute.upstream_request
       (BillersRoute.pageNumber_of (BillersRoute.read_body rq))
       (BillersRoute.recordsPerPage_of (BillersRoute.read_body rq))
       (BillersRoute.categoryKey_of (BillersRoute.read_body rq))) = Ok res ->
  ok res = false -> up_json res = Ok data ->
  BillersRoute.POST rq fetch = NextResponse_json (VObj [("error"%string, data)]) (up_status res).
Proof.
  intros Hf Hok Hj. unfold BillersRoute.POST, BillersRoute.POST_body.
  rewrite Hf. cbn [bind]. rewrite Hj. cbn [bind]. rewrite Hok. reflexivity.
Qed.

(** Biller details: the same wrapping. *)
Lemma details_non_2xx body (fetch : Upstream) res data :
  truthy (get "billerId" body) = true ->
  fetch "/bbps/biller-details"%string (VObj [("billerId"%string, get "billerId" body)]) = Ok res ->
  ok res = false -> up_json res = Ok data ->
  BillerDetailsRoute.POST (Ok body) fetch
  = NextResponse_json (VObj [("error"%string, data)]) (up_status res).
Proof.
  intros Hb Hf Hok Hj. unfold BillerDetailsRoute.POST, BillerDetailsRoute.POST_body.
  cbn [bind]. rewrite Hb. cbn [negb]. rewrite Hf. cbn [bind]. rewrite Hj. cbn [bind].
  rewrite Hok. reflexivity.
Qed.

(** Pre-enquiry: the reply is not wrapped whole; the handler extracts a
    message and files the upstream body under [details]. *)
Lemma pre_enquiry_non_2xx body (fetch : Upstream) res data :
  PreEnquirySpec.valid_request body ->
  fetch "/bbps/pre-enquiry"%string
    (VObj [("billerId"%string, get "billerId" body);
           ("inputParameters"%string, get "inputParameters" body);
           ("externalRef"%string, get "externalRef" body);
           ("transactionAmount"%string, nullish (get "transactionAmount" body) (VNum 0))])
  = Ok res ->
  ok res = false -> up_json res = Ok data ->
  PreEnquiryRoute.POST (Ok body) fetch
  = NextResponse_json
      (VObj [("error"%string, PreEnquiryRoute.extractErrorStatus data);
             ("details"%string, data)])
      (up_status res).
Proof.
  intros Hv Hf Hok Hj. unfold PreEnquiryRoute.POST, PreEnquiryRoute.POST_body.
  cbn [bind]. rewrite (PreEnquiryFacts.valid_request_object body Hv).
  destruct Hv as (Hb & Hi & He). rewrite Hb, Hi, He. cbn [negb orb].
  rewrite Hf. cbn [bind]. rewrite Hj. cbn [bind]. rewrite Hok. cbn [negb try_catch].
  unfold JS.or at 1. now rewrite PreEnquiryFacts.extractErrorStatus_truthy.
Qed.

(** Where exceptions come from: the request body does not parse (not for the
    billers route, which swallows that), [fetch] fails, or the upstream body
    does not parse. *)
Lemma billers_fetch_throws rq (fetch : Upstream) e :
  (forall path req, fetch path req = Throw e) ->
  BillersRoute.POST_body rq fetch = Throw e.
Proof. intros Hf. unfold BillersRoute.POST_body. now rewrite Hf. Qed.

Lemma billers_json_throws rq (fetch : Upstream) status e :
  (forall path req, fetch path req = Ok (mkReply status (Throw e))) ->
  BillersRoute.POST_body rq fetch = Throw e.
Proof. intros Hf. unfold BillersRoute.POST_body. now rewrite Hf. Qed.

Lemma details_request_throws (fetch : Upstream) e :
  BillerDetailsRoute.POST_body (Throw e) fetch = Throw e.
Proof. reflexivity. Qed.

Lemma pre_enquiry_request_throws (fetch : Upstream) e :
  PreEnquiryRoute.POST_body (Throw e) fetch = Throw e.
Proof. reflexivity. Qed.

End RouteFacts.


(* ===================================================================== *)
(** * Biller directory: normalisation and page accumulation *)
(* ===================================================================== *)

Section Directory.
Import Client.

Lemma strict_eq_str_spec v lit : strict_eq_str v lit = true <-> v = VStr lit.
Proof.
  destruct v; simpl; try (split; [discriminate|intros H; discriminate H]).
  rewrite String.eqb_eq. split; [intros ->; reflexivity|intros H; now injection H].
Qed.

Lemma normalize_object fields :
  normalize (VObj fields)
  = Ok {| billerId := JS.or (get "billerId" (VObj fields)) (JS.or (get "id" (VObj fields)) (VStr ""));
          billerName :=
            JS.or (get "billerName" (VObj fields)) (JS.or (get "name" (VObj fields)) (VStr ""));
          isAvailable := isAvailable_of (VObj fields);
          coverage := coverage_of (VObj fields);
          iconUrl := get "iconUrl" (VObj fields) |}.
Proof. reflexivity. Qed.

Lemma coverage_of_usable b :
  coverage_of b
  = if usable (get "coverageCity" b) then get "coverageCity" b
    else if usable (get "coverageState" b) then get "coverageState" b
    else VStr "PAN India".
Proof.
  unfold coverage_of, usable, JS.and.
  destruct (truthy (get "coverageCity" b)) eqn:Hc; cbn [truthy andb]; [|rewrite Hc];
    (destruct (truthy (get "coverageState" b)) eqn:Hs; cbn [truthy andb]; [|rewrite Hs]);
    reflexivity.
Qed.

(** C4, as stated, fails on an empty city: the specification's rule would
    keep the empty string, the code falls through to the state. *)
Lemma coverage_empty_city_counterexample :
  let b := VObj [("coverageCity"%string, VStr ""); ("coverageState"%string, VStr "Goa")] in
  exists r, normalize b = Ok r
            /\ coverage r = VStr "Goa"
            /\ stated_coverage b = VStr ""
            /\ coverage r <> stated_coverage b.
Proof.
  eexists. split; [reflexivity|]. repeat split. discriminate.
Qed.

(** C4 (amended): the normalised coverage of an upstream record is its city
    when the city is truthy and not "-", else its state when the state is
    truthy and not "-", else the literal "PAN India". *)
Theorem coverage_fallback fields :
  let b := VObj fields in
  exists r, normalize b = Ok r
            /\ coverage r
               = if usable (get "coverageCity" b) then get "coverageCity" b
                 else if usable (get "coverageState" b) then get "coverageState" b
                 else VStr "PAN India".
Proof.
  intros b. exists (mkBiller
    (JS.or (get "billerId" b) (JS.or (get "id" b) (VStr "")))
    (JS.or (get "billerName" b) (JS.or (get "name" b) (VStr "")))
    (isAvailable_of b) (coverage_of b) (get "iconUrl" b)).
  split; [reflexivity|]. cbn [coverage]. apply coverage_of_usable.
Qed.

(** C5: the normalised [isAvailable] of an upstream record is true exactly
    when the record carries the boolean [isAvailable: true], or carries no
    boolean [isAvailable] and its [billerStatus] is "ACTIVE". *)
Theorem isAvailable_iff fields :
  let b := VObj fields in
  exists r, normalize b = Ok r
            /\ (isAvailable r = true
                <-> get "isAvailable" b = VBool true
                    \/ (is_boolean (get "isAvailable" b) = false
                        /\ get "billerStatus" b = VStr "ACTIVE")).
Proof.
  intros b. exists (mkBiller
    (JS.or (get "billerId" b) (JS.or (get "id" b) (VStr "")))
    (JS.or (get "billerName" b) (JS.or (get "name" b) (VStr "")))
    (isAvailable_of b) (coverage_of b) (get "iconUrl" b)).
  split; [reflexivity|]. cbn [isAvailable].
  unfold isAvailable_of. rewrite <- strict_eq_str_spec.
  destruct (get "isAvailable" b) as [| |flag| | | |]; cbn [is_boolean];
    try (split; [intros H; right; split; [reflexivity|exact H]
                |intros [H|[_ H]]; [discriminate H|exact H]]).
  split.
  - intros ->. left. reflexivity.
  - intros [H|[H _]]; [now injection H|discriminate H].
Qed.

(** ** Accumulation of pages on the home page *)

Lemma merge_page_fold seen (records acc : list Biller) :
  fold_left (fun merged r => if negb (Home.has seen (billerId r)) then merged ++ [r] else merged)
    records acc
  = acc ++ List.filter (fun r => negb (Home.has seen (billerId r))) records.
Proof.
  revert acc. induction records as [|r records IH]; intros acc; simpl.
  - now rewrite app_nil_r.
  - rewrite IH. destruct (negb (Home.has seen (billerId r))); simpl; [|reflexivity].
    now rewrite <- app_assoc.
Qed.

(** The update keeps the old list as a prefix and appends the records whose
    id was not in the old list. *)
Lemma merge_page_append prev records :
  Home.merge_page prev records
  = prev ++ List.filter (fun r => negb (Home.has (List.map billerId prev) (billerId r))) records.
Proof. apply merge_page_fold. Qed.

Lemma merge_page_keeps_positions prev records i b :
  prev !! i = Some b -> Home.merge_page prev records !! i = Some b.
Proof. intros H. rewrite merge_page_append. now apply lookup_app_l_Some. Qed.

Lemma has_string_spec seen id :
  Home.has seen (VStr id) = true <-> In (VStr id) seen.
Proof.
  unfold Home.has. rewrite existsb_exists. split.
  - intros (v & Hin & Hv). destruct v; cbn in Hv; try discriminate.
    apply String.eqb_eq in Hv. now subst.
  - intros Hin. exists (VStr id). split; [assumption|]. cbn. apply String.eqb_refl.
Qed.

(** When the ids of the incoming page are strings and pairwise distinct,
    the update keeps the ids of the list pairwise distinct. *)
Lemma merge_page_distinct prev records :
  distinct_ids prev ->
  distinct_ids records ->
  Forall (fun r => is_string (billerId r) = true) records ->
  distinct_ids (Home.merge_page prev records).
Proof.
  unfold distinct_ids. intros Hp Hr Hs. rewrite merge_page_append, List.map_app.
  set (seen := List.map billerId prev) in *.
  assert (Hkept : forall r, In r (List.filter (fun r => negb (Home.has seen (billerId r))) records)
                            -> ~ In (billerId r) seen).
  { intros r Hin. apply List.filter_In in Hin as [Hin Hnot].
    rewrite List.Forall_forall in Hs. specialize (Hs r Hin).
    destruct (billerId r) as [| | | |id| |] eqn:E; try discriminate Hs.
    intros Hseen. apply has_string_spec in Hseen. rewrite Hseen in Hnot. discriminate. }
  apply NoDup_app. split; [exact Hp|]. split.
  - intros id Hin Hin'. apply list_elem_of_In in Hin, Hin'.
    apply List.in_map_iff in Hin' as (r & <- & Hr'). now apply (Hkept r).
  - clear Hkept. induction records as [|r records IH]; [constructor|].
    inversion Hr as [|? ? Hnotin Hr']; subst. inversion Hs as [|? ? _ Hs']; subst.
    cbn [List.filter]. destruct (negb (Home.has seen (billerId r))); [|now apply IH].
    cbn [List.map]. constructor; [|now apply IH].
    intros Hin. apply Hnotin. apply list_elem_of_In in Hin. apply list_elem_of_In.
    apply List.in_map_iff in Hin as (r' & Heq & Hr'in).
    apply List.filter_In in Hr'in as [Hr'in _].
    apply List.in_map_iff. now exists r'.
Qed.

(** On the wizard page a loaded page replaces the list. *)
Lemma wizard_page_replaces records m st :
  Wizard.billers (Wizard.billers_settled false (Ok (records, m)) st) = records.
Proof. reflexivity. Qed.

Lemma home_page_accumulates records m st :
  Home.billers (Home.billers_settled false (Ok (records, m)) st)
  = Home.merge_page (Home.billers st) records.
Proof. reflexivity. Qed.

(** C8: the home page deduplicates against the previous list only.  A page
    that repeats an id ("B1" twice, fetched into the empty initial list)
    leaves two entries with the same [billerId]. *)
Theorem merge_page_duplicate_within_page :
  let st := Home.billers_settled false
              (Ok ([Samples.acme; Samples.acme], mkMeta 1 1 2 2 1 2)) Home.initial in
  Home.billers st = [Samples.acme; Samples.acme]
  /\ ~ distinct_ids (Home.billers st).
Proof.
  split; [reflexivity|]. unfold distinct_ids. cbn. intros H.
  apply NoDup_cons_1_1 in H. apply H. left.
Qed.

End Directory.

(* ===================================================================== *)
(** * Claims about the proxy routes and the error message *)
(* ===================================================================== *)

Section RouteClaims.
Import PreEnquirySpec.

(** ** The message chain *)

Lemma first_present_truthy chain fallback :
  truthy fallback = true -> truthy (first_present chain fallback) = true.
Proof.
  intros Hf. induction chain as [|v chain IH]; simpl; [assumption|].
  destruct (truthy v) eqn:E; assumption.
Qed.

Lemma truthy_string_nonempty v :
  string_if_present v = true -> truthy v = true -> nonempty_string v.
Proof.
  destruct v; simpl; try discriminate. intros _ H. eexists. split; [reflexivity|].
  intros ->. discriminate H.
Qed.

Lemma first_present_string chain fallback :
  Forall (fun v => string_if_present v = true) chain ->
  nonempty_string fallback ->
  nonempty_string (first_present chain fallback).
Proof.
  intros Hc Hf. induction Hc as [|v chain Hv Hc IH]; simpl; [assumption|].
  destruct (truthy v) eqn:E; [|assumption]. now apply truthy_string_nonempty.
Qed.

Lemma route_extract_is_chain data :
  PreEnquiryRoute.extractErrorStatus data = route_chain data.
Proof.
  unfold PreEnquiryRoute.extractErrorStatus, route_chain, first_present, JS.or.
  destruct (truthy (get "status" data)); [reflexivity|].
  destruct (truthy (get "status" (get "error" data))); [reflexivity|].
  destruct (is_string (get "error" data)); reflexivity.
Qed.

Lemma client_extract_is_chain data :
  string_or_falsy (get "error" data) = true ->
  Client.extractErrorStatus data = stated_chain data.
Proof.
  intros He. unfold Client.extractErrorStatus, stated_chain, first_present, JS.or.
  destruct (get "error" data) as [| |[]|n|s| |]; try discriminate He; cbn; try reflexivity.
  - unfold string_or_falsy in He. cbn in He. apply negb_true_iff in He.
    cbn. rewrite He. reflexivity.
  - destruct (negb (String.eqb s "")); [reflexivity|].
    destruct (truthy (get "status" data)); reflexivity.
Qed.

Lemma route_extract_nonempty_string data :
  string_if_present (get "status" data) = true ->
  string_if_present (get "status" (get "error" data)) = true ->
  string_if_present (get "message" data) = true ->
  nonempty_string (PreEnquiryRoute.extractErrorStatus data).
Proof.
  intros Hs Hes Hm. rewrite route_extract_is_chain. unfold route_chain.
  apply first_present_string; [|eexists; split; [reflexivity|discriminate]].
  repeat constructor; try assumption.
  destruct (get "error" data); reflexivity.
Qed.

Lemma client_extract_nonempty_string data :
  string_if_present (get "error" data) = true ->
  string_if_present (get "status" data) = true ->
  string_if_present (get "message" data) = true ->
  nonempty_string (Client.extractErrorStatus data).
Proof.
  intros He Hs Hm. rewrite (client_extract_is_chain data); unfold stated_chain.
  2: { destruct (get "error" data); try discriminate He; reflexivity. }
  apply first_present_string; [|eexists; split; [reflexivity|discriminate]].
  repeat constructor; try assumption.
  - destruct (is_string (get "error" data)); [assumption|reflexivity].
  - destruct (get "error" data); try discriminate He; reflexivity.
Qed.

(** ** Classification of a 2xx body *)

(** The scenario of the specification: a 2xx body [{statuscode: "NA"}] is
    answered with HTTP 400 and the generic message. *)
Lemma pre_enquiry_statuscode_NA :
  PreEnquiryRoute.POST (Ok sample_request)
    (answering 200 (VObj [("statuscode"%string, VStr "NA")]))
  = NextResponse_json
      (VObj [("error"%string, VStr "An error occurred");
             ("details"%string, VObj [("statuscode"%string, VStr "NA")])])
      400.
Proof. reflexivity. Qed.

(** A body that is no domain error is passed through with status 200. *)
Lemma pre_enquiry_pass_through body (fetch : Upstream) data :
  valid_request body ->
  (forall path req, exists res,
      fetch path req = Ok res /\ ok res = true /\ up_json res = Ok data) ->
  ~ domain_error data ->
  PreEnquiryRoute.POST (Ok body) fetch = NextResponse_json data 200.
Proof.
  intros Hv Hf Hn. rewrite (PreEnquiryFacts.POST_on_2xx body fetch data Hv Hf).
  destruct (truthy (PreEnquiryRoute.isErrorResponse data)) eqn:E; [|reflexivity].
  apply PreEnquiryFacts.isErrorResponse_domain_error in E. contradiction.
Qed.

(** A domain error is answered with HTTP 400, the extracted message under
    [error] and the upstream body under [details]. *)
Lemma pre_enquiry_domain_error body (fetch : Upstream) data :
  valid_request body ->
  (forall path req, exists res,
      fetch path req = Ok res /\ ok res = true /\ up_json res = Ok data) ->
  domain_error data ->
  PreEnquiryRoute.POST (Ok body) fetch
  = NextResponse_json
      (VObj [("error"%string, PreEnquiryRoute.extractErrorStatus data);
             ("details"%string, data)]) 400.
Proof.
  intros Hv Hf Hd. rewrite (PreEnquiryFacts.POST_on_2xx body fetch data Hv Hf).
  apply PreEnquiryFacts.isErrorResponse_domain_error in Hd. now rewrite Hd.
Qed.

(** When the members read by [extractErrorStatus] are strings (or absent),
    the [error] member of the 400 answer is a non-empty string. *)
Lemma pre_enquiry_domain_error_string body (fetch : Upstream) data :
  valid_request body ->
  (forall path req, exists res,
      fetch path req = Ok res /\ ok res = true /\ up_json res = Ok data) ->
  domain_error data ->
  string_if_present (get "status" data) = true ->
  string_if_present (get "status" (get "error" data)) = true ->
  string_if_present (get "message" data) = true ->
  exists msg,
    msg <> ""%string
    /\ PreEnquiryRoute.POST (Ok body) fetch
       = NextResponse_json (VObj [("error"%string, VStr msg); ("details"%string, data)]) 400.
Proof.
  intros Hv Hf Hd Hs Hes Hm.
  destruct (route_extract_nonempty_string data Hs Hes Hm) as (msg & Hmsg & Hne).
  exists msg. split; [assumption|].
  rewrite (pre_enquiry_domain_error body fetch data Hv Hf Hd). now rewrite Hmsg.
Qed.

(** C1: the classification follows the rule and a domain error is answered
    with HTTP 400, but the [error] member is whatever [extractErrorStatus]
    picks, without coercion.  For the 2xx body
    [{statuscode: "ERR", status: true, message: "Invalid vehicle number"}]
    the route answers 400 with [error: true], a boolean and not a string. *)
Theorem pre_enquiry_error_member_not_string :
  let data := VObj [("statuscode"%string, VStr "ERR");
                    ("status"%string, VBool true);
                    ("message"%string, VStr "Invalid vehicle number")] in
  domain_error data
  /\ PreEnquiryRoute.POST (Ok sample_request) (answering 200 data)
     = NextResponse_json (VObj [("error"%string, VBool true); ("details"%string, data)]) 400
  /\ is_string (VBool true) = false.
Proof.
  intros data. split; [|split; reflexivity].
  apply PreEnquiryFacts.isErrorResponse_domain_error. reflexivity.
Qed.

(** ** The message chain: the two orders *)

(** In the client an [error] member that is an object is returned as it is:
    the nested [error.status] is never reached. *)
Lemma client_extract_error_object :
  let data := VObj [("error"%string, VObj [("status"%string, VStr "Vehicle not found")])] in
  Client.extractErrorStatus data = VObj [("status"%string, VStr "Vehicle not found")]
  /\ stated_chain data = VStr "Vehicle not found".
Proof. split; reflexivity. Qed.

(** C2, as stated, fails on the route's [extractErrorStatus]: with both an
    [error] string and a [status] string the route reports the status, the
    stated chain the error string. *)
Lemma route_chain_order_counterexample :
  let data := VObj [("error"%string, VStr "E"); ("status"%string, VStr "S")] in
  PreEnquiryRoute.extractErrorStatus data = VStr "S"
  /\ stated_chain data = VStr "E"
  /\ PreEnquiryRoute.extractErrorStatus data <> stated_chain data.
Proof. repeat split. discriminate. Qed.

(** C2 (amended): in the client, when the [error] member is a string or
    carries nothing, the message follows the stated chain (error string,
    status, nested error.status, message, generic text); in the pre-enquiry
    route the order is status, nested error.status, error string, message,
    generic text; either message is a non-empty string when the members it
    reads are strings or absent. *)
Theorem extractErrorStatus_chains data :
  (string_or_falsy (get "error" data) = true ->
   Client.extractErrorStatus data = stated_chain data)
  /\ PreEnquiryRoute.extractErrorStatus data = route_chain data
  /\ (string_if_present (get "error" data) = true ->
      string_if_present (get "status" data) = true ->
      string_if_present (get "message" data) = true ->
      nonempty_string (Client.extractErrorStatus data))
  /\ (string_if_present (get "status" data) = true ->
      string_if_present (get "status" (get "error" data)) = true ->
      string_if_present (get "message" data) = true ->
      nonempty_string (PreEnquiryRoute.extractErrorStatus data)).
Proof.
  split; [apply client_extract_is_chain|]. split; [apply route_extract_is_chain|].
  split; [apply client_extract_nonempty_string|apply route_extract_nonempty_string].
Qed.

(** A body with a status and a message, both strings. *)
Lemma extractErrorStatus_chains_witness :
  let data := VObj [("status"%string, VStr "Invalid vehicle number");
                    ("message"%string, VStr "failed")] in
  Client.extractErrorStatus data = stated_chain data
  /\ nonempty_string (Client.extractErrorStatus data)
  /\ nonempty_string (PreEnquiryRoute.extractErrorStatus data).
Proof.
  intros data. destruct (extractErrorStatus_chains data) as (Hc & _ & Hcs & Hrs).
  split; [apply Hc; reflexivity|].
  split; [apply Hcs; reflexivity|apply Hrs; reflexivity].
Defined.

(** ** Error translation *)

(** C6, as stated, fails on the pre-enquiry route: a non-2xx upstream body
    is not wrapped whole under [error]. *)
Lemma pre_enquiry_rewrap_counterexample :
  let data := VObj [("message"%string, VStr "Bad gateway")] in
  PreEnquiryRoute.POST (Ok sample_request) (answering 502 data)
  = NextResponse_json
      (VObj [("error"%string, VStr "Bad gateway"); ("details"%string, data)]) 502
  /\ PreEnquiryRoute.POST (Ok sample_request) (answering 502 data)
     <> NextResponse_json (VObj [("error"%string, data)]) 502.
Proof. split; [reflexivity|discriminate]. Qed.

(** C6 (amended): on a non-2xx upstream reply the billers and biller-details
    routes answer [{error: <upstream body>}], the pre-enquiry route answers
    [{error: <extracted message>, details: <upstream body>}], all three with
    the upstream status; every exception is answered with HTTP 500 and
    [{error: <message>}]. *)
Theorem routes_translate_errors (rq : result value) (body : value) (fetch : Upstream)
    (res : UpstreamReply) (data : value) :
  valid_request body ->
  (forall path req, fetch path req = Ok res) ->
  ok res = false ->
  up_json res = Ok data ->
  BillersRoute.POST rq fetch
  = NextResponse_json (VObj [("error"%string, data)]) (up_status res)
  /\ BillerDetailsRoute.POST (Ok body) fetch
     = NextResponse_json (VObj [("error"%string, data)]) (up_status res)
  /\ PreEnquiryRoute.POST (Ok body) fetch
     = NextResponse_json
         (VObj [("error"%string, PreEnquiryRoute.extractErrorStatus data);
                ("details"%string, data)]) (up_status res)
  /\ (forall rq' fetch' e,
        (BillersRoute.POST_body rq' fetch' = Throw e ->
         BillersRoute.POST rq' fetch'
         = NextResponse_json (VObj [("error"%string, VStr (exception_message e))]) 500)
        /\ (BillerDetailsRoute.POST_body rq' fetch' = Throw e ->
            BillerDetailsRoute.POST rq' fetch'
            = NextResponse_json (VObj [("error"%string, VStr (exception_message e))]) 500)
        /\ (PreEnquiryRoute.POST_body rq' fetch' = Throw e ->
            PreEnquiryRoute.POST rq' fetch'
            = NextResponse_json (VObj [("error"%string, VStr (exception_message e))]) 500)).
Proof.
  intros Hv Hf Hok Hj. repeat split.
  - apply RouteFacts.billers_non_2xx; auto.
  - apply RouteFacts.details_non_2xx; auto. apply Hv.
  - apply RouteFacts.pre_enquiry_non_2xx; auto.
  - intros H. unfold BillersRoute.POST. rewrite H. apply RouteFacts.on_exception_shape.
  - intros H. unfold BillerDetailsRoute.POST. rewrite H. apply RouteFacts.on_exception_shape.
  - intros H. unfold PreEnquiryRoute.POST. rewrite H. apply RouteFacts.on_exception_shape.
Qed.

(** An upstream that answers 502 with a JSON body, and a request whose
    body does not parse. *)
Lemma routes_translate_errors_witness :
  let data := VObj [("message"%string, VStr "Bad gateway")] in
  BillersRoute.POST (Throw OtherExn) (answering 502 data)
  = NextResponse_json (VObj [("error"%string, data)]) 502
  /\ BillerDetailsRoute.POST (Ok sample_request) (answering 502 data)
     = NextResponse_json (VObj [("error"%string, data)]) 502
  /\ PreEnquiryRoute.POST (Ok sample_request) (answering 502 data)
     = NextResponse_json
         (VObj [("error"%string, VStr "Bad gateway"); ("details"%string, data)]) 502
  /\ PreEnquiryRoute.POST (Throw (ErrorExn "Unexpected token")) (answering 502 data)
     = NextResponse_json (VObj [("error"%string, VStr "Unexpected token")]) 500.
Proof.
  intros data.
  destruct (routes_translate_errors (Throw OtherExn) sample_request (answering 502 data)
              (mkReply 502 (Ok data)) data) as (Hb & Hd & Hp & Hexn).
  - repeat split.
  - reflexivity.
  - reflexivity.
  - reflexivity.
  - split; [exact Hb|]. split; [exact Hd|]. split; [exact Hp|].
    destruct (Hexn (Throw (ErrorExn "Unexpected token")) (answering 502 data)
                (ErrorExn "Unexpected token")) as (_ & _ & He).
    apply He. reflexivity.
Defined.

(** ** Defaults of the billers route *)

(** C10: a request body that is absent or does not parse is not answered
    with an error of its own.  It is treated as [{}]: the route posts
    [{pagination: {pageNumber: 1, recordsPerPage: 50}, filters: {categoryKey:
    "C10"}}] to [/bbps/billers] and answers with what the upstream replies
    to that request, so a 2xx reply comes back with status 200.  On a parsed
    body the same request is posted with each of the three members replaced
    by what the body gives, the default standing wherever the body gives
    none, independently of the other two. *)
Theorem billers_defaults (e : exn) (fetch : Upstream) :
  let request (pageNumber recordsPerPage categoryKey : value) :=
    VObj [("pagination"%string,
           VObj [("pageNumber"%string, pageNumber);
                 ("recordsPerPage"%string, recordsPerPage)]);
          ("filters"%string, VObj [("categoryKey"%string, categoryKey)])] in
  let defaults := request (VNum 1) (VNum 50) (VStr "C10") in
  BillersRoute.POST (Throw e) fetch = BillersRoute.POST (Ok (VObj [])) fetch
  /\ BillersRoute.POST (Throw e) fetch
     = billers_respond (fetch "/bbps/billers"%string defaults)
  /\ (forall res data,
        fetch "/bbps/billers"%string defaults = Ok res ->
        ok res = true -> up_json res = Ok data ->
        BillersRoute.POST (Throw e) fetch = NextResponse_json data 200)
  /\ (forall body,
        BillersRoute.POST (Ok body) fetch
        = billers_respond
            (fetch "/bbps/billers"%string
               (request
                  (or_default (get "pageNumber" (get "pagination" body)) (VNum 1))
                  (or_default (get "recordsPerPage" (get "pagination" body)) (VNum 50))
                  (or_default (get "categoryKey" (get "filters" body)) (VStr "C10"))))).
Proof.
  intros request defaults.
  split; [reflexivity|]. split; [reflexivity|]. split; [|reflexivity].
  intros res data Hf Hok Hj. unfold BillersRoute.POST, BillersRoute.POST_body.
  cbn [BillersRoute.read_body].
  change (BillersRoute.upstream_request (BillersRoute.pageNumber_of (VObj []))
            (BillersRoute.recordsPerPage_of (VObj [])) (BillersRoute.categoryKey_of (VObj [])))
    with defaults.
  rewrite Hf. cbn [bind]. rewrite Hj. cbn [bind]. rewrite Hok. reflexivity.
Qed.

(** An empty request body, and an upstream that lists billers only when
    asked for page 1, 50 a page, of category C10: the list comes back. *)
Lemma billers_defaults_witness :
  BillersRoute.POST (Throw (ErrorExn "Unexpected end of JSON input"))
    (first_page_only (VObj [("data"%string, VArr [])]))
  = NextResponse_json (VObj [("data"%string, VArr [])]) 200.
Proof.
  destruct (billers_defaults (ErrorExn "Unexpected end of JSON input")
              (first_page_only (VObj [("data"%string, VArr [])]))) as (_ & _ & H & _).
  apply (H (mkReply 200 (Ok (VObj [("data"%string, VArr [])])))); reflexivity.
Defined.

End RouteClaims.

(* ===================================================================== *)
(** * Claims about the forms and the wizard *)
(* ===================================================================== *)

Section FormClaims.
Import Client.
Variable RegExp_test : string -> Field -> result bool.

(** For an ordinary parameter the handlers read the typed text. *)
Lemma field_value_ordinary formData p :
  ordinary formData p -> field_value formData p = Text (typed_text formData p).
Proof.
  unfold ordinary, field_value, typed_text. intros [Hname|[s Hs]].
  - rewrite Hname. now destruct (formData !! paramName p).
  - now rewrite Hs.
Qed.

(** One turn of the loop of [onSubmit] applies rules (1), (2), (3) to an
    ordinary parameter and goes on only when none of them rejects. *)
Lemma validate_step p rest formData :
  ordinary formData p ->
  validate RegExp_test (p :: rest) formData
  = let* verdict := check_parameter RegExp_test formData p in
    match verdict with
    | Some msg => Ok (Some msg)
    | None => validate RegExp_test rest formData
    end.
Proof.
  intros Hp. cbn [validate]. rewrite (field_value_ordinary _ _ Hp).
  unfold check_parameter, regex_rejects, shorter_than, filled, field_length, nonempty.
  destruct (String.eqb (typed_text formData p) "") eqn:Hv; cbn [negb andb bind].
  - destruct (mandatory p); reflexivity.
  - rewrite andb_false_r. destruct (regex p) as [[|c pattern]|]; cbn [String.eqb negb bind].
    + destruct (_ <? _); reflexivity.
    + destruct (RegExp_test (String c pattern) _) as [matched|e]; cbn [bind]; [|reflexivity].
      destruct (negb matched); [reflexivity|].
      destruct (_ <? _); reflexivity.
    + destruct (_ <? _); reflexivity.
Qed.

Lemma validate_first_failure before p after formData msg :
  Forall (ordinary formData) before -> ordinary formData p ->
  Forall (fun q => check_parameter RegExp_test formData q = Ok None) before ->
  check_parameter RegExp_test formData p = Ok (Some msg) ->
  validate RegExp_test (before ++ p :: after) formData = Ok (Some msg).
Proof.
  intros Ho Hop Hb Hp. induction Hb as [|q before Hq Hb IH]; cbn [app].
  - rewrite (validate_step _ _ _ Hop), Hp. reflexivity.
  - apply Forall_cons in Ho as [Hoq Ho].
    rewrite (validate_step _ _ _ Hoq), Hq. exact (IH Ho).
Qed.

Lemma validate_all_pass params formData :
  Forall (ordinary formData) params ->
  Forall (fun q => check_parameter RegExp_test formData q = Ok None) params ->
  validate RegExp_test params formData = Ok None.
Proof.
  intros Ho H. induction H as [|q params Hq H IH]; [reflexivity|].
  apply Forall_cons in Ho as [Hoq Ho].
  rewrite (validate_step _ _ _ Hoq), Hq. exact (IH Ho).
Qed.

Lemma validate_first_throw before p after formData e :
  Forall (ordinary formData) before -> ordinary formData p ->
  Forall (fun q => check_parameter RegExp_test formData q = Ok None) before ->
  check_parameter RegExp_test formData p = Throw e ->
  validate RegExp_test (before ++ p :: after) formData = Throw e.
Proof.
  intros Ho Hop Hb Hp. induction Hb as [|q before Hq Hb IH]; cbn [app].
  - rewrite (validate_step _ _ _ Hop), Hp. reflexivity.
  - apply Forall_cons in Ho as [Hoq Ho].
    rewrite (validate_step _ _ _ Hoq), Hq. exact (IH Ho).
Qed.

(** When every parameter passes, the wizard moves to step 3 and makes the
    pre-enquiry call. *)
Lemma wizard_submit_passes st details biller :
  Wizard.billerDetails st = Some details ->
  Wizard.selectedBiller st = Some biller ->
  Forall (ordinary (Wizard.formData st)) (inputParameters details) ->
  Forall (fun q => check_parameter RegExp_test (Wizard.formData st) q = Ok None)
    (inputParameters details) ->
  Wizard.onSubmit RegExp_test st
  = Ok (Wizard.set_loadingEnquiry true (Wizard.set_currentStep 3 st),
        [PreEnquiryCall (billerId biller) (Wizard.formData st)]).
Proof.
  intros Hd Hb Ho Hall. unfold Wizard.onSubmit. rewrite Hd, Hb.
  now rewrite (validate_all_pass _ _ Ho Hall).
Qed.

(** A pattern that does not compile makes [onSubmit] throw before any
    state is written or any call made. *)
Lemma wizard_submit_throws st details biller before p after e :
  Wizard.billerDetails st = Some details ->
  Wizard.selectedBiller st = Some biller ->
  inputParameters details = before ++ p :: after ->
  Forall (ordinary (Wizard.formData st)) before -> ordinary (Wizard.formData st) p ->
  Forall (fun q => check_parameter RegExp_test (Wizard.formData st) q = Ok None) before ->
  check_parameter RegExp_test (Wizard.formData st) p = Throw e ->
  Wizard.onSubmit RegExp_test st = Throw e.
Proof.
  intros Hd Hb Hl Ho Hop Hpass Hp. unfold Wizard.onSubmit. rewrite Hd, Hb, Hl.
  now rewrite (validate_first_throw _ _ _ _ _ Ho Hop Hpass Hp).
Qed.

(** Fail-fast validation, for parameters that are not named like an
    inherited member (or whose field has been typed into): the parameters
    are checked in declared order, each by rules (1) mandatory and empty,
    (2) non-empty and failing the regex, (3) non-empty and shorter than
    [minLength], in this order.  The first parameter that fails ends it,
    whatever the later parameters are: the wizard shows its message alone
    as an error alert, makes no request and changes nothing else, the step
    included; the home page shows the same message, makes no request and
    changes nothing. *)
Theorem validation_fail_fast
    (wst : Wizard.State) (hst : Home.State) details biller before p after msg :
  Wizard.billerDetails wst = Some details ->
  Wizard.selectedBiller wst = Some biller ->
  Home.billerDetails hst = Some details ->
  Home.selectedBiller hst = Some biller ->
  Home.formData hst = Wizard.formData wst ->
  inputParameters details = before ++ p :: after ->
  Forall (ordinary (Wizard.formData wst)) before ->
  ordinary (Wizard.formData wst) p ->
  Forall (fun q => check_parameter RegExp_test (Wizard.formData wst) q = Ok None) before ->
  check_parameter RegExp_test (Wizard.formData wst) p = Ok (Some msg) ->
  (exists wst',
      Wizard.onSubmit RegExp_test wst = Ok (wst', [])
      /\ Wizard.alert wst' = Some (Wizard.mkAlert Wizard.error msg)
      /\ Wizard.currentStep wst' = Wizard.currentStep wst
      /\ Wizard.loadingEnquiry wst' = Wizard.loadingEnquiry wst
      /\ Wizard.enquiryData wst' = Wizard.enquiryData wst
      /\ Wizard.formData wst' = Wizard.formData wst
      /\ Wizard.billerDetails wst' = Wizard.billerDetails wst
      /\ Wizard.selectedBiller wst' = Wizard.selectedBiller wst
      /\ Wizard.selectedPaymentMode wst' = Wizard.selectedPaymentMode wst
      /\ Wizard.billers wst' = Wizard.billers wst
      /\ Wizard.search wst' = Wizard.search wst
      /\ Wizard.pageNumber wst' = Wizard.pageNumber wst
      /\ Wizard.meta wst' = Wizard.meta wst
      /\ Wizard.loadingBillers wst' = Wizard.loadingBillers wst)
  /\ Home.onSubmit RegExp_test hst = Ok (hst, [WindowAlert msg]).
Proof.
  intros Hwd Hwb Hhd Hhb Hfd Hl Ho Hop Hpass Hp. split.
  - exists (Wizard.set_alert (Some (Wizard.mkAlert Wizard.error msg)) wst). split.
    + unfold Wizard.onSubmit. rewrite Hwd, Hwb, Hl.
      now rewrite (validate_first_failure _ _ _ _ _ Ho Hop Hpass Hp).
    + repeat split.
  - unfold Home.onSubmit. rewrite Hhd, Hhb, Hfd, Hl.
    now rewrite (validate_first_failure _ _ _ _ _ Ho Hop Hpass Hp).
Qed.

End FormClaims.

Section WizardClaims.
Import Client.

(** Two invalid parameters: the vehicle number is empty and the mobile
    number is too short; only the first message is reported. *)
Lemma validation_fail_fast_witness :
  let wst := Wizard.input_changed Samples.mobile "98765" Samples.details_shown in
  let hst := Home.set_formData (Wizard.formData wst)
               (Home.set_billerDetails (Some Samples.acme_details)
                  (Home.set_selectedBiller (Some Samples.acme) Home.initial)) in
  (exists wst',
      Wizard.onSubmit Samples.accept_all wst = Ok (wst', [])
      /\ Wizard.alert wst'
         = Some (Wizard.mkAlert Wizard.error "Please enter Vehicle Number")
      /\ Wizard.currentStep wst' = 2)
  /\ Home.onSubmit Samples.accept_all hst = Ok (hst, [WindowAlert "Please enter Vehicle Number"]).
Proof.
  intros wst hst.
  destruct (validation_fail_fast Samples.accept_all wst hst Samples.acme_details
              Samples.acme [] Samples.vehicleNo [Samples.mobile]
              "Please enter Vehicle Number") as ((wst' & Hw & Ha & Hs & _) & Hh);
    try reflexivity.
  - constructor.
  - left. reflexivity.
  - constructor.
  - split; [|exact Hh]. exists wst'. split; [exact Hw|]. split; [exact Ha|].
    rewrite Hs. reflexivity.
Defined.

(** C3 fails on the code for a parameter named like a member that every
    object inherits.  The form is a plain object, so for the mandatory
    parameter [toString], with nothing typed, [formData[p.paramName]] is the
    inherited function, not the empty string: rule (1) asks for "Please
    enter Tag", but both pages let the empty form pass and post the
    pre-enquiry request, the wizard moving on to step 3 with no alert. *)
Theorem submit_mandatory_inherited_name (RegExp_test : string -> Field -> result bool) :
  Wizard.formData Samples.tag_shown = ∅
  /\ Home.formData Samples.tag_opened = ∅
  /\ mandatory Samples.tag = true
  /\ check_parameter RegExp_test ∅ Samples.tag = Ok (Some "Please enter Tag"%string)
  /\ (exists st',
        Wizard.onSubmit RegExp_test Samples.tag_shown
        = Ok (st', [PreEnquiryCall (VStr "B1") ∅])
        /\ Wizard.currentStep st' = 3
        /\ Wizard.loadingEnquiry st' = true
        /\ Wizard.alert st' = None)
  /\ (exists st',
        Home.onSubmit RegExp_test Samples.tag_opened
        = Ok (st', [PreEnquiryCall (VStr "B1") ∅])).
Proof.
  repeat split.
  - eexists. repeat split.
  - eexists. reflexivity.
Qed.

(** C9, as stated, fails: going back to the first step leaves the selected
    biller in place. *)
Lemma back_keeps_selected_biller_counterexample :
  Wizard.currentStep (Wizard.click_back Wizard.Step2Back Samples.details_shown) = 1
  /\ Wizard.selectedBiller (Wizard.click_back Wizard.Step2Back Samples.details_shown)
     = Some Samples.acme
  /\ Wizard.selectedBiller (Wizard.click_back Wizard.Step2Back Samples.details_shown)
     <> None.
Proof. repeat split. discriminate. Qed.

(** C9 (amended): a "Back" control changes the current step and nothing
    else: biller details, enquiry response, form data and also the selected
    biller stay as they were. *)
Theorem back_changes_only_step (control : Wizard.BackControl) (st : Wizard.State) :
  let st' := Wizard.click_back control st in
  Wizard.currentStep st'
  = match control with
    | Wizard.Step2Arrow | Wizard.Step2Back => 1
    | Wizard.Step3Arrow | Wizard.Step3Back => 2
    end
  /\ Wizard.billerDetails st' = Wizard.billerDetails st
  /\ Wizard.enquiryData st' = Wizard.enquiryData st
  /\ Wizard.selectedBiller st' = Wizard.selectedBiller st
  /\ Wizard.formData st' = Wizard.formData st
  /\ Wizard.billers st' = Wizard.billers st
  /\ Wizard.meta st' = Wizard.meta st
  /\ Wizard.selectedPaymentMode st' = Wizard.selectedPaymentMode st
  /\ Wizard.search st' = Wizard.search st
  /\ Wizard.pageNumber st' = Wizard.pageNumber st
  /\ Wizard.alert st' = Wizard.alert st
  /\ Wizard.loadingBillers st' = Wizard.loadingBillers st
  /\ Wizard.loadingEnquiry st' = Wizard.loadingEnquiry st.
Proof. destruct control; repeat split. Qed.

End WizardClaims.

(* ===================================================================== *)
(** * Amounts: formatting and parsing *)
(* ===================================================================== *)

Section Amounts.
Import Num Client.

(** ** Digits *)

Lemma digit_cases d : 0 <= d < 10 ->
  d = 0 \/ d = 1 \/ d = 2 \/ d = 3 \/ d = 4 \/ d = 5 \/ d = 6 \/ d = 7 \/ d = 8 \/ d = 9.
Proof. lia. Qed.

(** Settle a goal about a digit [d] by trying its ten values. *)
Ltac each_digit d H :=
  destruct (digit_cases d H) as [->|[->|[->|[->|[->|[->|[->|[->|[->| ->]]]]]]]]];
  reflexivity.

Lemma digit_val_char d : 0 <= d < 10 -> digit_val (digit_char d) = d.
Proof. intros H. each_digit d H. Qed.

Lemma is_digit_char d : 0 <= d < 10 -> is_digit (digit_char d) = true.
Proof. intros H. each_digit d H. Qed.

Lemma digits_fuel_spec fuel : forall n acc,
  0 <= n < 2 ^ Z.of_nat fuel ->
  exists ds,
    digits_fuel (S fuel) n acc = ds ++ acc
    /\ ds <> []
    /\ Forall (fun c => is_digit c = true) ds
    /\ forall v, value_of ds v = v * 10 ^ Z.of_nat (length ds) + n.
Proof.
  induction fuel as [|fuel IH]; intros n acc Hn; cbn [digits_fuel];
    assert (Hm : 0 <= n mod 10 < 10) by (apply Z.mod_pos_bound; lia);
    destruct (n <? 10) eqn:Hlt.
  1, 3: apply Z.ltb_lt in Hlt; exists [digit_char (n mod 10)]; repeat split;
    [discriminate
    |constructor; [now apply is_digit_char|constructor]
    |intros v; cbn [value_of fold_left length]; rewrite digit_val_char by assumption;
     rewrite Z.mod_small by lia; change (10 ^ Z.of_nat 1) with 10; lia].
  - apply Z.ltb_ge in Hlt. change (2 ^ Z.of_nat 0) with 1 in Hn. lia.
  - apply Z.ltb_ge in Hlt.
    destruct (IH (n / 10) (digit_char (n mod 10) :: acc)) as (ds & Hds & Hne & Hall & Hval).
    { split; [apply Z.div_pos; lia|].
      apply Z.div_lt_upper_bound; [lia|].
      rewrite Nat2Z.inj_succ, Z.pow_succ_r in Hn by lia. lia. }
    exists (ds ++ [digit_char (n mod 10)]). repeat split.
    + cbn [digits_fuel] in Hds. rewrite Hds, <- app_assoc. reflexivity.
    + destruct ds; discriminate.
    + apply Forall_app. split; [assumption|].
      constructor; [now apply is_digit_char|constructor].
    + intros v. unfold value_of in *. rewrite fold_left_app. cbn [fold_left].
      rewrite Hval, digit_val_char by assumption.
      rewrite length_app, Nat2Z.inj_add. cbn [length].
      change (Z.of_nat 1) with 1. rewrite Z.pow_add_r by lia.
      change (10 ^ 1) with 10. pose proof (Z.div_mod n 10). lia.
Qed.

Lemma digits_spec n :
  0 <= n ->
  digits n <> []
  /\ Forall (fun c => is_digit c = true) (digits n)
  /\ value_of (digits n) 0 = n.
Proof.
  intros Hn. unfold digits.
  destruct (digits_fuel_spec (S (Z.to_nat (Z.log2 n))) n []) as (ds & Hds & Hne & Hall & Hval).
  - split; [assumption|]. rewrite Nat2Z.inj_succ, Z2Nat.id by apply Z.log2_nonneg.
    destruct (Z.eq_dec n 0) as [->|Hnz]; [reflexivity|].
    pose proof (Z.log2_spec n ltac:(lia)) as [_ Hub]. exact Hub.
  - rewrite Hds, app_nil_r. repeat split; try assumption. rewrite Hval. lia.
Qed.

(** ** Reading digits back *)

Lemma read_digits_all ds : forall rest acc count,
  Forall (fun c => is_digit c = true) ds ->
  match rest with [] => True | c :: _ => is_digit c = false end ->
  read_digits (ds ++ rest) acc count = (value_of ds acc, (count + length ds)%nat, rest).
Proof.
  induction ds as [|d ds IH]; intros rest acc count Hall Hrest.
  - cbn [app value_of fold_left length]. rewrite Nat.add_0_r.
    destruct rest as [|c rest]; [reflexivity|]. cbn [read_digits]. now rewrite Hrest.
  - inversion Hall as [|? ? Hd Hds]; subst. cbn [app read_digits]. rewrite Hd.
    rewrite IH by assumption. cbn [length value_of fold_left].
    now rewrite Nat.add_succ_r.
Qed.

Lemma digit_not_space c : is_digit c = true -> is_space c = false.
Proof. ascii_cases c; cbn; intros H; try reflexivity; discriminate H. Qed.

Lemma digit_not_comma c : is_digit c = true -> Ascii.eqb c "," = false.
Proof. ascii_cases c; cbn; intros H; try reflexivity; discriminate H. Qed.

Lemma digit_not_sign c s : is_digit c = true -> read_sign (c :: s) = (false, c :: s).
Proof. ascii_cases c; cbn; intros H; try reflexivity; discriminate H. Qed.

Lemma digit_not_Infinity c s :
  is_digit c = true -> starts_with (list_ascii_of_string "Infinity") (c :: s) = false.
Proof. ascii_cases c; cbn; intros H; try reflexivity; discriminate H. Qed.

(** ** Separators *)

Lemma strip_cons c l :
  strip_separators (c :: l)
  = (if negb (Ascii.eqb c "," || is_space c) then [c] else []) ++ strip_separators l.
Proof. unfold strip_separators. cbn [List.filter]. now destruct (negb _). Qed.

Lemma strip_app a b :
  strip_separators (a ++ b) = strip_separators a ++ strip_separators b.
Proof. apply List.filter_app. Qed.

Lemma strip_digit c l :
  is_digit c = true -> strip_separators (c :: l) = c :: strip_separators l.
Proof.
  intros H. rewrite strip_cons, (digit_not_comma c H), (digit_not_space c H). reflexivity.
Qed.

Lemma strip_digits ds :
  Forall (fun c => is_digit c = true) ds -> strip_separators ds = ds.
Proof.
  induction 1 as [|c ds Hc _ IH]; [reflexivity|]. now rewrite strip_digit, IH.
Qed.

Lemma strip_group_pairs_bounded n : forall l,
  (length l <= n)%nat -> strip_separators (group_pairs l) = strip_separators l.
Proof.
  induction n as [|n IH]; intros l Hl.
  - destruct l; [reflexivity|cbn in Hl; lia].
  - destruct l as [|a [|b [|c rest]]]; try reflexivity.
    change (group_pairs (a :: b :: c :: rest))
      with (a :: b :: ","%char :: group_pairs (c :: rest)).
    rewrite !(strip_cons a), !(strip_cons b), (strip_cons ","%char).
    change (negb (Ascii.eqb "," "," || is_space ",")) with false. cbn [app].
    rewrite (IH (c :: rest)); [reflexivity|]. cbn [length] in *. lia.
Qed.

Lemma strip_group_en_IN ds : strip_separators (group_en_IN ds) = strip_separators ds.
Proof.
  unfold group_en_IN. destruct (List.rev ds) as [|a [|b [|c [|d rest]]]] eqn:E; try reflexivity.
  unfold strip_separators at 1. rewrite List.filter_rev. fold (strip_separators (a :: b :: c :: ","%char :: group_pairs (d :: rest))).
  rewrite (strip_cons a), (strip_cons b), (strip_cons c), (strip_cons ","%char).
  change (negb (Ascii.eqb "," "," || is_space ",")) with false. cbn [app].
  rewrite (strip_group_pairs_bounded (length (d :: rest)) (d :: rest)) by reflexivity.
  rewrite <- (strip_cons c), <- (strip_cons b), <- (strip_cons a), <- E.
  unfold strip_separators. now rewrite <- List.filter_rev, rev_involutive.
Qed.

(** ** Formatting an amount with two decimals *)

Lemma round_hundredths q n :
  (0 <= q)%Q -> (q == inject_Z n / 100)%Q ->
  Qfloor (Qabs q * inject_Z 100 + (1 # 2))%Q = n.
Proof.
  intros Hq Hn.
  assert (E : (Qabs q * inject_Z 100 + (1 # 2) == inject_Z n + (1 # 2))%Q).
  { rewrite (Qabs_pos q Hq), Hn. field. }
  rewrite E. unfold Qfloor, Qplus, inject_Z. cbn [Qnum Qden].
  change (Z.pos (1 * 2)) with 2. rewrite Z.mul_1_r.
  symmetry. apply (Z.div_unique _ 2 n 1); lia.
Qed.

Lemma hundredths_nonneg q n : (0 <= q)%Q -> (q == inject_Z n / 100)%Q -> 0 <= n.
Proof.
  intros Hq Hn. rewrite Hn in Hq. unfold Qle, Qdiv, Qmult, Qinv, inject_Z in Hq.
  cbn in Hq. lia.
Qed.

Lemma format_two_decimals q n :
  (0 <= q)%Q -> (q == inject_Z n / 100)%Q ->
  format_en_IN default_opts q
  = string_of_list_ascii
      (group_en_IN (digits (n / 100))
       ++ "."%char :: [digit_char ((n mod 100) / 10 mod 10); digit_char ((n mod 100) mod 10)]).
Proof.
  intros Hq Hn. unfold format_en_IN. cbn [resolve_digits default_opts minimumFractionDigits
    maximumFractionDigits]. change (10 ^ Z.of_nat 2) with 100.
  rewrite (round_hundredths q n Hq Hn).
  destruct (Qlt_le_dec q 0) as [Hneg|_].
  - exfalso. apply (Qlt_not_le _ _ Hneg Hq).
  - cbn [Nat.sub drop_zeros fixed_digits app]. rewrite rev_involutive. reflexivity.
Qed.

(** ** Parsing it back *)

Lemma parse_two_decimals a d1 d2 :
  0 <= a -> 0 <= d1 < 10 -> 0 <= d2 < 10 ->
  parseFloat_chars (digits a ++ "."%char :: [digit_char d1; digit_char d2])
  = Finite ((inject_Z (a * 10 ^ Z.of_nat 2 + (10 * (10 * 0 + d1) + d2))
             / inject_Z (10 ^ Z.of_nat 2)) * Qpower (inject_Z 10) 0)%Q.
Proof.
  intros Ha Hd1 Hd2. destruct (digits_spec a Ha) as (Hne & Hall & Hval).
  unfold parseFloat_chars.
  destruct (digits a) as [|c ds] eqn:E; [contradiction|].
  assert (Hc : is_digit c = true) by now inversion Hall.
  cbn [app skip_spaces]. rewrite (digit_not_space c Hc), (digit_not_sign c _ Hc).
  rewrite (digit_not_Infinity c _ Hc).
  change (c :: ds ++ "."%char :: [digit_char d1; digit_char d2])
    with ((c :: ds) ++ "."%char :: [digit_char d1; digit_char d2]).
  rewrite (read_digits_all (c :: ds)) by (assumption || reflexivity).
  rewrite Hval. cbn [read_digits]. rewrite !is_digit_char, !digit_val_char by assumption.
  cbn [Nat.add length read_exponent]. reflexivity.
Qed.

Lemma toNumber_formatted q n :
  (0 <= q)%Q -> (q == inject_Z n / 100)%Q ->
  toNumber (VStr (formatINR (ANumber (Finite q)) default_opts))
  = Finite ((inject_Z (n / 100 * 10 ^ Z.of_nat 2
                       + (10 * (10 * 0 + (n mod 100) / 10 mod 10) + (n mod 100) mod 10))
             / inject_Z (10 ^ Z.of_nat 2)) * Qpower (inject_Z 10) 0)%Q.
Proof.
  intros Hq Hn. pose proof (hundredths_nonneg q n Hq Hn) as Hpos.
  unfold formatINR. rewrite (format_two_decimals q n Hq Hn).
  unfold toNumber. cbn [nullish toStr]. rewrite list_ascii_of_string_of_list_ascii.
  assert (Ha : 0 <= n / 100) by (apply Z.div_pos; lia).
  assert (Hd1 : 0 <= (n mod 100) / 10 mod 10 < 10) by (apply Z.mod_pos_bound; lia).
  assert (Hd2 : 0 <= (n mod 100) mod 10 < 10) by (apply Z.mod_pos_bound; lia).
  destruct (digits_spec (n / 100) Ha) as (_ & Hall & _).
  rewrite strip_app, strip_group_en_IN, (strip_digits _ Hall).
  rewrite (strip_cons "."%char). change (negb (Ascii.eqb "." "," || is_space ".")) with true.
  rewrite !strip_digit by (now apply is_digit_char). cbn [app].
  change (strip_separators []) with (@nil ascii).
  rewrite (parse_two_decimals _ _ _ Ha Hd1 Hd2). reflexivity.
Qed.

(** C7: formatting a non-negative amount with at most two decimal places
    and parsing the result (thousands separators and white space removed
    first) gives the amount back; a string from which no number can be read
    parses to 0. *)
Theorem amount_round_trip (q : Q) (s : string) :
  (0 <= q)%Q -> two_decimals q -> unparsable s ->
  number_eq (toNumber (VStr (formatINR (ANumber (Finite q)) default_opts))) (Finite q)
  /\ toNumber (VStr s) = Finite 0.
Proof.
  intros Hq [n Hn] Hs. split.
  - rewrite (toNumber_formatted q n Hq Hn). cbn [number_eq]. rewrite Hn.
    change (10 ^ Z.of_nat 2) with 100. change (Qpower (inject_Z 10) 0) with 1%Q.
    replace (n / 100 * 100 + (10 * (10 * 0 + (n mod 100) / 10 mod 10) + (n mod 100) mod 10))
      with n.
    + change (inject_Z 100) with 100%Q. field.
    + pose proof (Z.div_mod n 100). pose proof (Z.div_mod (n mod 100) 10).
      pose proof (Z.mod_pos_bound n 100).
      rewrite (Z.mod_small ((n mod 100) / 10) 10).
      * lia.
      * split; [apply Z.div_pos; lia|apply Z.div_lt_upper_bound; lia].
  - unfold unparsable in Hs. unfold toNumber. cbn [nullish toStr]. now rewrite Hs.
Qed.

(** Rs 12,34,567.89 goes through, "N/A" parses to 0. *)
Lemma amount_round_trip_witness :
  formatINR (ANumber (Finite (123456789 # 100))) default_opts = "12,34,567.89"%string
  /\ number_eq (toNumber (VStr "12,34,567.89")) (Finite (123456789 # 100))
  /\ toNumber (VStr "N/A") = Finite 0.
Proof.
  split; [reflexivity|].
  destruct (amount_round_trip (123456789 # 100) "N/A") as [Hr Hz].
  - discriminate.
  - exists 123456789. reflexivity.
  - reflexivity.
  - split; [exact Hr|exact Hz].
Defined.

End Amounts.

(* ===================================================================== *)
(** * Further properties of the routes *)
(* ===================================================================== *)

Section RouteProperties.
Import PreEnquirySpec.

Lemma get_or_empty k body : get k (JS.or body (VObj [])) = get k body.
Proof. unfold JS.or. destruct (truthy body) eqn:E; [reflexivity|]. now rewrite (PreEnquiryFacts.get_falsy k body E). Qed.

(** The pre-enquiry and biller-details routes answer a request that lacks a
    required member with their fixed 400, whatever the upstream would do:
    the answer does not depend on [fetch]. *)
Theorem routes_reject_missing_members (body : value) (fetch : Upstream) :
  (~ valid_request body ->
   PreEnquiryRoute.POST (Ok body) fetch
   = NextResponse_json
       (VObj [("error"%string, VStr "billerId, inputParameters, externalRef are required")])
       400)
  /\ (truthy (get "billerId" body) = false ->
      BillerDetailsRoute.POST (Ok body) fetch
      = NextResponse_json (VObj [("error"%string, VStr "billerId is required")]) 400).
Proof.
  split.
  - intros Hn. unfold PreEnquiryRoute.POST, PreEnquiryRoute.POST_body. cbn [bind].
    rewrite !get_or_empty. unfold valid_request in Hn.
    destruct (truthy (get "billerId" body)), (truthy (get "inputParameters" body)),
      (truthy (get "externalRef" body)); try reflexivity.
    exfalso. apply Hn. repeat split.
  - intros Hb. unfold BillerDetailsRoute.POST, BillerDetailsRoute.POST_body. cbn [bind].
    now rewrite Hb.
Qed.

(** A request without [externalRef], against an upstream that would throw. *)
Lemma routes_reject_missing_members_witness :
  let body := VObj [("billerId"%string, VStr "B1");
                    ("inputParameters"%string, VObj [])] in
  let down : Upstream := fun _ _ => Throw (ErrorExn "ECONNREFUSED") in
  PreEnquiryRoute.POST (Ok body) down
  = NextResponse_json
      (VObj [("error"%string, VStr "billerId, inputParameters, externalRef are required")])
      400
  /\ BillerDetailsRoute.POST (Ok (VObj [])) down
     = NextResponse_json (VObj [("error"%string, VStr "billerId is required")]) 400.
Proof.
  intros body down. split.
  - apply (routes_reject_missing_members body down). intros (_ & _ & H). discriminate H.
  - apply (routes_reject_missing_members (VObj []) down). reflexivity.
Defined.

(** Where the status of an answer comes from.  It is the route's own 400
    or 500, or it comes from the reply to the one call the route made
    upstream: 200, with the body of that reply, when the reply was 2xx and
    its body parsed, and the status of the reply when it was not 2xx.  The
    billers route has no 400 of its own.  (A 2xx reply can still end in the
    500, when its body does not parse, or in the 400 of the pre-enquiry
    route, when it carries a domain error.) *)
Theorem routes_status_codes (rq : result value) (fetch : Upstream) :
  let from_reply (reply : result UpstreamReply) (r : Response) : Prop :=
    exists res,
      reply = Ok res
      /\ ((ok res = true /\ resp_status r = 200 /\ up_json res = Ok (resp_body r))
          \/ (ok res = false /\ resp_status r = up_status res)) in
  (let r := BillersRoute.POST rq fetch in
   let body := match rq with Ok body => body | Throw _ => VObj [] end in
   resp_status r = 500
   \/ from_reply
        (fetch "/bbps/billers"%string
           (VObj [("pagination"%string,
                   VObj [("pageNumber"%string,
                          or_default (get "pageNumber" (get "pagination" body)) (VNum 1));
                         ("recordsPerPage"%string,
                          or_default (get "recordsPerPage" (get "pagination" body)) (VNum 50))]);
                  ("filters"%string,
                   VObj [("categoryKey"%string,
                          or_default (get "categoryKey" (get "filters" body)) (VStr "C10"))])]))
        r)
  /\ (let r := BillerDetailsRoute.POST rq fetch in
      resp_status r = 400 \/ resp_status r = 500
      \/ exists body,
           rq = Ok body
           /\ from_reply
                (fetch "/bbps/biller-details"%string
                   (VObj [("billerId"%string, get "billerId" body)]))
                r)
  /\ (let r := PreEnquiryRoute.POST rq fetch in
      resp_status r = 400 \/ resp_status r = 500
      \/ exists body,
           rq = Ok body
           /\ from_reply
                (fetch "/bbps/pre-enquiry"%string
                   (VObj [("billerId"%string, get "billerId" body);
                          ("inputParameters"%string, get "inputParameters" body);
                          ("externalRef"%string, get "externalRef" body);
                          ("transactionAmount"%string,
                           or_default (get "transactionAmount" body) (VNum 0))]))
                r).
Proof.
  intros from_reply. subst from_reply. cbv zeta. repeat split.
  - unfold BillersRoute.POST, BillersRoute.POST_body, BillersRoute.upstream_request,
      BillersRoute.pageNumber_of, BillersRoute.recordsPerPage_of,
      BillersRoute.categoryKey_of, BillersRoute.read_body.
    change nullish with or_default.
    match goal with |- context [fetch ?p ?r] => destruct (fetch p r) as [res|e] eqn:Hf end;
      cbn [bind try_catch]; [|destruct e; auto].
    destruct (up_json res) as [data|e] eqn:Hj; cbn [bind try_catch]; [|destruct e; auto].
    right. exists res. split; [reflexivity|].
    destruct (ok res) eqn:Hok; cbn; auto.
  - unfold BillerDetailsRoute.POST, BillerDetailsRoute.POST_body.
    destruct rq as [body|e]; cbn [bind try_catch]; [|destruct e; auto].
    destruct (truthy (get "billerId" body)); cbn [negb try_catch]; [|cbn; auto].
    match goal with |- context [fetch ?p ?r] => destruct (fetch p r) as [res|e] eqn:Hf end;
      cbn [bind try_catch]; [|destruct e; auto].
    destruct (up_json res) as [data|e] eqn:Hj; cbn [bind try_catch]; [|destruct e; auto].
    right. right. exists body. split; [reflexivity|]. exists res. split; [exact Hf|].
    destruct (ok res) eqn:Hok; cbn; auto.
  - unfold PreEnquiryRoute.POST, PreEnquiryRoute.POST_body.
    destruct rq as [body|e]; cbn [bind try_catch]; [|destruct e; auto].
    rewrite !get_or_empty. change nullish with or_default.
    destruct (negb _ || negb _ || negb _); cbn [try_catch]; [cbn; auto|].
    match goal with |- context [fetch ?p ?r] => destruct (fetch p r) as [res|e] eqn:Hf end;
      cbn [bind try_catch]; [|destruct e; auto].
    destruct (up_json res) as [data|e] eqn:Hj; cbn [bind try_catch]; [|destruct e; auto].
    destruct (ok res) eqn:Hok; cbn [negb].
    + destruct (truthy (PreEnquiryRoute.isErrorResponse data)); cbn [try_catch]; [cbn; auto|].
      right. right. exists body. split; [reflexivity|]. exists res. split; [exact Hf|].
      left. cbn. auto.
    + right. right. exists body. split; [reflexivity|]. exists res. split; [exact Hf|].
      right. cbn. auto.
Qed.

(** What a 200 from the pre-enquiry route tells: the body is the upstream's
    2xx body, untouched, and it is no domain error. *)
Lemma pre_enquiry_200_inversion (rq : result value) (fetch : Upstream) :
  resp_status (PreEnquiryRoute.POST rq fetch) = 200 ->
  truthy (PreEnquiryRoute.isErrorResponse (resp_body (PreEnquiryRoute.POST rq fetch))) = false
  /\ exists path req res,
       fetch path req = Ok res /\ ok res = true
       /\ up_json res = Ok (resp_body (PreEnquiryRoute.POST rq fetch)).
Proof.
  unfold PreEnquiryRoute.POST, PreEnquiryRoute.POST_body.
  destruct rq as [body|e]; cbn [bind try_catch]; [|destruct e; discriminate].
  destruct (negb _ || negb _ || negb _); cbn [try_catch]; [discriminate|].
  match goal with |- context [fetch ?p ?r] => destruct (fetch p r) as [res|e] eqn:Hf end;
    cbn [bind try_catch]; [|destruct e; discriminate].
  destruct (up_json res) as [data|e] eqn:Hj; cbn [bind try_catch]; [|destruct e; discriminate].
  destruct (ok res) eqn:Hok; cbn [negb].
  - destruct (truthy (PreEnquiryRoute.isErrorResponse data)) eqn:Hd; cbn; [discriminate|].
    intros _. split; [assumption|]. eexists _, _, res. repeat split; eassumption || reflexivity.
  - cbn. intros Hs. unfold ok in Hok. rewrite Hs in Hok. discriminate.
Qed.

(** ** The client behind the routes *)

(** The check [preEnquiryApi] repeats on a 2xx answer is the route's
    [isErrorResponse]. *)
Lemma client_check_is_route_check data :
  let statuscode := JS.or (get "statuscode" data) (get "statuscode" (get "error" data)) in
  let status := JS.or (get "status" data) (get "status" (get "error" data)) in
  truthy
    (JS.or
       (JS.and statuscode
          (VBool (includes PreEnquiryRoute.errorStatusCodes (toUpperCase (toStr statuscode)))))
       (JS.and status
          (VBool (regexp_test_i PreEnquiryRoute.errorStatusWords (toStr status)))))
  = truthy (PreEnquiryRoute.isErrorResponse data).
Proof.
  intros statuscode status. unfold PreEnquiryRoute.isErrorResponse.
  destruct (truthy data) eqn:Hd; cbn [negb]; [reflexivity|].
  subst statuscode status. rewrite !(PreEnquiryFacts.get_falsy _ data Hd). reflexivity.
Qed.

Lemma mapListToRecord_array v :
  is_array v = true -> exists rec, Client.mapListToRecord v = Ok rec.
Proof.
  destruct v; try discriminate. intros _. unfold Client.mapListToRecord. cbn. eauto.
Qed.

(** A 200 from the pre-enquiry route resolves in the client: the client's
    own domain check never fires behind the route's.  This for the bodies
    the client can flatten and print: the detail lists are arrays when they
    are there, and the body is [printable] (where it is not, [String(...)]
    throws in [toNumber] or [mapListToRecord]). *)
Theorem client_resolves_on_route_200 (externalRef : string) (rq : result value)
    (fetch : Upstream) :
  resp_status (PreEnquiryRoute.POST rq fetch) = 200 ->
  printable (resp_body (PreEnquiryRoute.POST rq fetch)) = true ->
  detail_lists_are_arrays (resp_body (PreEnquiryRoute.POST rq fetch)) ->
  exists r, preEnquiryApi_receive externalRef (PreEnquiryRoute.POST rq fetch) = Ok r.
Proof.
  intros Hs _ Hl. destruct (pre_enquiry_200_inversion rq fetch Hs) as [Hclean _].
  unfold preEnquiryApi_receive, response_ok. rewrite Hs. cbn [Z.leb Z.compare andb].
  set (data := resp_body (PreEnquiryRoute.POST rq fetch)) in *.
  unfold Client.preEnquiryApi_settle. cbn [negb].
  rewrite (client_check_is_route_check data), Hclean.
  destruct Hl as (H1 & H2 & H3).
  destruct (mapListToRecord_array _ H1) as [r1 ->].
  destruct (mapListToRecord_array _ H2) as [r2 ->].
  destruct (mapListToRecord_array _ H3) as [r3 ->].
  cbn [bind]. eexists. reflexivity.
Qed.

(** An upstream that answers 201 with a bill of "1,250.50". *)
Lemma client_resolves_on_route_200_witness :
  exists r,
    preEnquiryApi_receive "SABPE_1"
      (PreEnquiryRoute.POST (Ok sample_request)
         (answering 201 (VObj [("BillAmount"%string, VStr "1,250.50")]))) = Ok r.
Proof.
  apply (client_resolves_on_route_200 "SABPE_1" (Ok sample_request)
           (answering 201 (VObj [("BillAmount"%string, VStr "1,250.50")]))).
  - reflexivity.
  - reflexivity.
  - repeat split.
Defined.

(** End to end: when the upstream hides a business error in a 2xx body
    that is [printable], the client's [preEnquiryApi] rejects with an Error
    whose message is the message the route extracted, rendered as a
    string.  (On a body that is not printable [String(...)] throws, in the
    route or in [new Error(msg)].) *)
Theorem client_reports_route_message (externalRef : string) (body : value)
    (fetch : Upstream) (data : value) :
  valid_request body ->
  (forall path req, exists res,
      fetch path req = Ok res /\ ok res = true /\ up_json res = Ok data) ->
  printable data = true ->
  domain_error data ->
  preEnquiryApi_receive externalRef (PreEnquiryRoute.POST (Ok body) fetch)
  = Throw (ErrorExn (toStr (PreEnquiryRoute.extractErrorStatus data))).
Proof.
  intros Hv Hf _ Hd. rewrite (pre_enquiry_domain_error body fetch data Hv Hf Hd).
  unfold preEnquiryApi_receive, response_ok, Client.preEnquiryApi_settle.
  cbn [resp_status resp_body Z.leb Z.compare andb negb].
  unfold Client.throw_Error. do 2 f_equal.
  unfold Client.extractErrorStatus. cbn [get lookup_field String.eqb Ascii.eqb Bool.eqb].
  unfold JS.or. now rewrite !PreEnquiryFacts.extractErrorStatus_truthy.
Qed.

Lemma client_reports_route_message_witness :
  preEnquiryApi_receive "SABPE_1"
    (PreEnquiryRoute.POST (Ok sample_request)
       (answering 200 (VObj [("statuscode"%string, VStr "IAN");
                             ("status"%string, VStr "Invalid Account Number")])))
  = Throw (ErrorExn "Invalid Account Number").
Proof.
  apply (client_reports_route_message "SABPE_1" sample_request
           (answering 200 (VObj [("statuscode"%string, VStr "IAN");
                                 ("status"%string, VStr "Invalid Account Number")]))
           (VObj [("statuscode"%string, VStr "IAN");
                  ("status"%string, VStr "Invalid Account Number")])).
  - repeat split.
  - intros path req. eexists. repeat split.
  - reflexivity.
  - apply PreEnquiryFacts.isErrorResponse_domain_error. reflexivity.
Defined.

(** The client of the billers route does not look at the status: every
    answer other than a 200 (an upstream failure, an exception) gives an
    empty list of billers, not an error. *)
Theorem billers_failure_is_empty_list (rq : result value) (fetch : Upstream) :
  resp_status (BillersRoute.POST rq fetch) <> 200 ->
  fetchBillers_receive (BillersRoute.POST rq fetch) = Ok [].
Proof.
  unfold fetchBillers_receive, BillersRoute.POST, BillersRoute.POST_body.
  match goal with |- context [fetch ?p ?r] => destruct (fetch p r) as [res|e] end;
    cbn [bind try_catch]; [|destruct e; reflexivity].
  destruct (up_json res) as [data|e]; cbn [bind try_catch]; [|destruct e; reflexivity].
  destruct (ok res); cbn [negb try_catch resp_status resp_body]; [congruence|reflexivity].
Qed.

Lemma billers_failure_is_empty_list_witness :
  fetchBillers_receive
    (BillersRoute.POST (Ok (VObj []))
       (answering 503 (VObj [("message"%string, VStr "Service Unavailable")])))
  = Ok [].
Proof.
  apply (billers_failure_is_empty_list (Ok (VObj []))
           (answering 503 (VObj [("message"%string, VStr "Service Unavailable")]))).
  discriminate.
Defined.

End RouteProperties.

(* ===================================================================== *)
(** * Further properties of the string helpers *)
(* ===================================================================== *)

Section StringProperties.
Import Client Num PreEnquirySpec.

Lemma string_app_assoc (a b c : string) : (a +:+ b) +:+ c = a +:+ (b +:+ c).
Proof.
  induction a as [|x a IH]; [reflexivity|].
  change (String x ((a +:+ b) +:+ c) = String x (a +:+ (b +:+ c))). now rewrite IH.
Qed.

Lemma toLowerCase_app a b : toLowerCase (a +:+ b) = toLowerCase a +:+ toLowerCase b.
Proof.
  induction a as [|c a IH]; [reflexivity|].
  change (String (lower_ascii c) (toLowerCase (a +:+ b))
          = String (lower_ascii c) (toLowerCase a +:+ toLowerCase b)).
  now rewrite IH.
Qed.

(** A lowered string splits where its lowering splits. *)
Lemma toLowerCase_split a : forall s b,
  toLowerCase s = a +:+ b ->
  exists s1 s2, s = s1 +:+ s2 /\ toLowerCase s1 = a /\ toLowerCase s2 = b.
Proof.
  induction a as [|x a IH]; intros s b H.
  - exists EmptyString, s. repeat split. exact H.
  - destruct s as [|c s]; [discriminate H|].
    change (String (lower_ascii c) (toLowerCase s) = String x (a +:+ b)) in H.
    injection H as Hc Hs.
    destruct (IH s b Hs) as (s1 & s2 & -> & H1 & H2).
    exists (String c s1), s2. repeat split; [|exact H2].
    change (String (lower_ascii c) (toLowerCase s1) = String x a). now rewrite Hc, H1.
Qed.

(** A text that contains a word also contains every piece of the word. *)
Lemma contains_piece text (before piece after : string) :
  contains_ignore_case text (before +:+ piece +:+ after) ->
  contains_ignore_case text piece.
Proof.
  intros (pre & mid & post & -> & Hmid). unfold eq_ignore_case in Hmid.
  rewrite !toLowerCase_app in Hmid.
  destruct (toLowerCase_split _ _ _ Hmid) as (m1 & m23 & -> & H1 & H23).
  destruct (toLowerCase_split _ _ _ H23) as (m2 & m3 & -> & H2 & H3).
  exists (pre +:+ m1), m2, (m3 +:+ post). split; [|exact H2].
  now rewrite !string_app_assoc.
Qed.

Lemma regexp_test_i_contains words text w :
  In w words -> contains_ignore_case text w -> regexp_test_i words text = true.
Proof.
  intros Hin (pre & mid & post & Ht & Hm). apply regexp_test_i_spec.
  exists w, pre, mid, post. repeat split; try assumption. now apply upper_eq_lower_eq.
Qed.

(** [statusTone] tries the success words first, and "active" and "valid"
    are among them: a status that contains "inactive" or "invalid" is shown
    in the success tone, so these two error words never decide. *)
Theorem statusTone_inactive_is_success (text : string) :
  contains_ignore_case text "inactive" \/ contains_ignore_case text "invalid" ->
  Display.statusTone text = Display.success.
Proof.
  intros H. unfold Display.statusTone.
  assert (Hs : regexp_test_i Display.successWords text = true).
  { destruct H as [H|H].
    - apply (regexp_test_i_contains _ _ "active"); [cbn; tauto|].
      apply (contains_piece text "in" "active" ""). exact H.
    - apply (regexp_test_i_contains _ _ "valid"); [cbn; tauto|].
      apply (contains_piece text "in" "valid" ""). exact H. }
  now rewrite Hs.
Qed.

Lemma statusTone_inactive_is_success_witness :
  Display.statusTone "Tag Inactive" = Display.success
  /\ Display.statusTone "INVALID VEHICLE" = Display.success.
Proof.
  split.
  - apply statusTone_inactive_is_success. left. exists "Tag ", "Inactive", "". split; reflexivity.
  - apply statusTone_inactive_is_success. right. exists "", "INVALID", " VEHICLE". split; reflexivity.
Defined.

(** ** [trim] *)

Lemma skip_spaces_head l :
  match skip_spaces l with
  | [] => True
  | c :: _ => is_space c = false
  end.
Proof.
  induction l as [|c l IH]; cbn; [exact I|].
  destruct (is_space c) eqn:E; [exact IH|exact E].
Qed.

Lemma skip_spaces_fixed l :
  match l with [] => True | c :: _ => is_space c = false end -> skip_spaces l = l.
Proof. destruct l as [|c l]; cbn; [reflexivity|]. now intros ->. Qed.

Lemma skip_spaces_idempotent l : skip_spaces (skip_spaces l) = skip_spaces l.
Proof. apply skip_spaces_fixed, skip_spaces_head. Qed.

Lemma skip_spaces_snoc l c :
  is_space c = false -> skip_spaces (l ++ [c]) = skip_spaces l ++ [c].
Proof.
  intros Hc. induction l as [|x l IH]; cbn; [now rewrite Hc|].
  destruct (is_space x); [exact IH|reflexivity].
Qed.

Lemma trim_chars_idempotent l : trim_chars (trim_chars l) = trim_chars l.
Proof.
  unfold trim_chars. pose proof (skip_spaces_head l) as Hh.
  destruct (skip_spaces l) as [|c x] eqn:E; [reflexivity|].
  cbn [List.rev]. rewrite (skip_spaces_snoc _ c Hh), rev_app_distr. cbn [List.rev app].
  cbn [skip_spaces]. rewrite Hh. cbn [List.rev].
  rewrite rev_involutive, (skip_spaces_snoc _ c Hh), skip_spaces_idempotent.
  now rewrite rev_app_distr.
Qed.

Lemma trim_is_trim_chars s :
  trim s = string_of_list_ascii (trim_chars (list_ascii_of_string s)).
Proof. reflexivity. Qed.

Lemma trim_idempotent s : trim (trim s) = trim s.
Proof.
  rewrite !trim_is_trim_chars, list_ascii_of_string_of_list_ascii.
  now rewrite trim_chars_idempotent.
Qed.

(** ** [normalizeNA] *)

(** [normalizeNA] settles in one pass, and what it returns is never one of
    the placeholders "NA", "N/A", "-", "01/01/1900", nor a string with white
    space around it. *)
Theorem normalizeNA_idempotent (v : value) :
  Display.normalizeNA (Display.normalizeNA v) = Display.normalizeNA v
  /\ (forall s, Display.normalizeNA v = VStr s ->
        s <> "NA"%string /\ s <> "N/A"%string /\ s <> "-"%string
        /\ s <> "01/01/1900"%string /\ trim s = s).
Proof.
  unfold Display.normalizeNA at 2 3 4. destruct (truthy v) eqn:Hv; cbn [negb].
  - set (t := trim (toStr v)).
    destruct (String.eqb t "") eqn:E0; cbn [orb];
      [split; [reflexivity|discriminate]|].
    destruct (String.eqb t "NA") eqn:E1; cbn [orb];
      [split; [reflexivity|discriminate]|].
    destruct (String.eqb t "N/A") eqn:E2; cbn [orb];
      [split; [reflexivity|discriminate]|].
    destruct (String.eqb t "-") eqn:E3; cbn [orb];
      [split; [reflexivity|discriminate]|].
    destruct (String.eqb t "01/01/1900") eqn:E4; cbn [orb];
      [split; [reflexivity|discriminate]|].
    assert (Ht : trim t = t) by apply trim_idempotent.
    split.
    + unfold Display.normalizeNA. cbn [truthy toStr]. rewrite E0. cbn [negb].
      now rewrite Ht, E0, E1, E2, E3, E4.
    + intros s Hs. injection Hs as <-.
      apply String.eqb_neq in E1, E2, E3, E4. auto.
  - split.
    + unfold Display.normalizeNA. now rewrite Hv.
    + intros s ->. cbn in Hv. apply negb_false_iff, String.eqb_eq in Hv. subst s.
      repeat split; discriminate.
Qed.

(** A date with blanks around it is kept, trimmed. *)
Lemma normalizeNA_idempotent_witness :
  Display.normalizeNA (VStr " 12/05/2024 ") = VStr "12/05/2024"
  /\ trim "12/05/2024" = "12/05/2024"%string
  /\ Display.normalizeNA (VStr " N/A ") = VUndef.
Proof.
  split; [reflexivity|]. split; [|reflexivity].
  destruct (normalizeNA_idempotent (VStr " 12/05/2024 ")) as [_ H].
  apply (H "12/05/2024"%string). reflexivity.
Defined.

(** ** [mapListToRecord] *)

Lemma fold_left_invariant {A B} (P : A -> Prop) (f : A -> B -> A) l a :
  (forall a b, P a -> P (f a b)) -> P a -> P (fold_left f l a).
Proof. intros Hf. revert a. induction l as [|b l IH]; cbn; auto. Qed.

(** The record [mapListToRecord] builds has no empty key, and its keys and
    values carry no white space around them. *)
Theorem mapListToRecord_keys_clean (list : value) (rec : gmap string string) :
  mapListToRecord list = Ok rec ->
  rec !! ""%string = None
  /\ forall k v, rec !! k = Some v -> trim k = k /\ trim v = v.
Proof.
  unfold mapListToRecord. destruct (JS.or list (VArr [])) as [| | | | |items|]; try discriminate.
  intros H. injection H as <-.
  apply (fold_left_invariant
           (fun rec : gmap string string =>
              rec !! ""%string = None
              /\ forall k v, rec !! k = Some v -> trim k = k /\ trim v = v)).
  - intros acc it [Hempty Hclean].
    destruct (negb (truthy it)); [now split|].
    set (k := trim (toStr (JS.or (get "Name" it) (JS.or (get "name" it) (VStr ""))))).
    set (v := trim (toStr (JS.or (get "Value" it) (JS.or (get "value" it) (VStr ""))))).
    destruct (String.eqb k "") eqn:Ek; cbn [negb]; [now split|].
    destruct (String.eqb k "__proto__"); [now split|].
    apply String.eqb_neq in Ek. split.
    + rewrite lookup_insert_ne by exact Ek. exact Hempty.
    + intros k' v'. destruct (decide (k = k')) as [<-|Hne].
      * rewrite lookup_insert_eq. intros H. injection H as <-.
        split; apply trim_idempotent.
      * rewrite lookup_insert_ne by exact Hne. apply Hclean.
  - split; [apply lookup_empty|]. intros k v. rewrite lookup_empty. discriminate.
Qed.

Lemma mapListToRecord_keys_clean_witness :
  let list := VArr [VObj [("Name"%string, VStr " Tag Status "); ("Value"%string, VStr " Active ")];
                    VNull;
                    VObj [("Name"%string, VStr "   "); ("Value"%string, VStr "dropped")]] in
  exists rec, mapListToRecord list = Ok rec
              /\ rec !! ""%string = None
              /\ rec !! "Tag Status"%string = Some "Active"%string.
Proof.
  intros list. eexists. split; [reflexivity|]. split.
  - apply (mapListToRecord_keys_clean list). reflexivity.
  - reflexivity.
Defined.

End StringProperties.

(* ===================================================================== *)
(** * Further properties of the amounts *)
(* ===================================================================== *)

Section AmountProperties.
Import Client Num.

(** [parseFloat] on a run of digits followed by something that is neither
    a digit, a dot nor an exponent mark: the digits are read, the rest is
    ignored. *)
Lemma parse_digits_then ds rest :
  ds <> [] ->
  Forall (fun c => is_digit c = true) ds ->
  match rest with
  | [] => True
  | c :: _ => is_digit c = false /\ c <> "."%char /\ c <> "e"%char /\ c <> "E"%char
  end ->
  parseFloat_chars (ds ++ rest)
  = Finite ((inject_Z (value_of ds 0 * 10 ^ Z.of_nat 0 + 0) / inject_Z (10 ^ Z.of_nat 0))
            * Qpower (inject_Z 10) 0)%Q.
Proof.
  intros Hne Hall Hrest. unfold parseFloat_chars.
  destruct ds as [|c ds]; [contradiction|].
  assert (Hc : is_digit c = true) by now inversion Hall.
  cbn [app skip_spaces]. rewrite (digit_not_space c Hc), (digit_not_sign c _ Hc).
  rewrite (digit_not_Infinity c _ Hc).
  change (c :: ds ++ rest) with ((c :: ds) ++ rest).
  rewrite (read_digits_all (c :: ds) rest 0 0%nat Hall).
  2: { destruct rest; [exact I|apply Hrest]. }
  destruct rest as [|r rest].
  - cbn [Nat.add length read_exponent]. reflexivity.
  - destruct Hrest as (_ & Hdot & He & HE).
    assert (Hr : match r with "."%char => false | _ => true end = true).
    { ascii_cases r; try reflexivity. contradiction Hdot. reflexivity. }
    assert (Hexp : read_exponent (r :: rest) = 0).
    { unfold read_exponent.
      destruct (Ascii.eqb r "e") eqn:E1; [apply Ascii.eqb_eq in E1; contradiction|].
      destruct (Ascii.eqb r "E") eqn:E2; [apply Ascii.eqb_eq in E2; contradiction|].
      reflexivity. }
    ascii_cases r; try (contradiction Hdot; reflexivity);
      cbn [Nat.add length] in *; rewrite Hexp; reflexivity.
Qed.

Lemma parse_minus c l :
  is_digit c = true ->
  parseFloat_chars ("-"%char :: c :: l)
  = match parseFloat_chars (c :: l) with
    | Finite q => Finite (- q)%Q
    | other => other
    end.
Proof.
  intros Hc. unfold parseFloat_chars.
  change (skip_spaces ("-"%char :: c :: l)) with ("-"%char :: c :: l).
  cbn [skip_spaces read_sign]. rewrite (digit_not_space c Hc), (digit_not_sign c _ Hc).
  rewrite (digit_not_Infinity c _ Hc).
  destruct (read_digits (c :: l) 0 0%nat) as [[ip ni] s3].
  destruct (match s3 with "."%char :: s3' => read_digits s3' 0 0%nat | _ => (0, 0%nat, s3) end)
    as [[fp nf] s4].
  destruct (ni + nf)%nat; reflexivity.
Qed.

Lemma chars_of_Number_toString n :
  list_ascii_of_string (Number_toString n)
  = if n <? 0 then "-"%char :: digits (- n) else digits n.
Proof.
  unfold Number_toString. destruct (n <? 0); cbn [list_ascii_of_string];
    now rewrite list_ascii_of_string_of_list_ascii.
Qed.

Lemma integer_value n : (inject_Z (n * 10 ^ Z.of_nat 0 + 0) / inject_Z (10 ^ Z.of_nat 0)
                         * Qpower (inject_Z 10) 0 == inject_Z n)%Q.
Proof.
  change (10 ^ Z.of_nat 0) with 1. change (Qpower (inject_Z 10) 0) with 1%Q.
  replace (n * 1 + 0) with n by lia. change (inject_Z 1) with 1%Q. field.
Qed.

(** An integer that a double holds exactly (up to 2^53 either way) comes
    out of [toNumber] as itself: its decimal rendering is parsed back, sign
    included. *)
Theorem toNumber_integer (n : Z) :
  - 2 ^ 53 <= n <= 2 ^ 53 ->
  number_eq (toNumber (VNum n)) (Finite (inject_Z n)).
Proof.
  intros _. unfold toNumber. cbn [nullish toStr]. rewrite chars_of_Number_toString.
  destruct (n <? 0) eqn:Hneg.
  - apply Z.ltb_lt in Hneg. destruct (digits_spec (- n) ltac:(lia)) as (Hne & Hall & Hval).
    rewrite strip_cons. change (negb (Ascii.eqb "-" "," || is_space "-")) with true.
    rewrite (strip_digits _ Hall). cbn [app].
    destruct (digits (- n)) as [|c ds] eqn:E; [contradiction|].
    assert (Hc : is_digit c = true) by now inversion Hall.
    rewrite (parse_minus c ds Hc), <- (app_nil_r (c :: ds)).
    rewrite (parse_digits_then (c :: ds) []) by (assumption || exact I).
    cbn [isFinite number_eq]. rewrite Hval, integer_value.
    rewrite <- inject_Z_opp. now rewrite Z.opp_involutive.
  - apply Z.ltb_ge in Hneg. destruct (digits_spec n Hneg) as (Hne & Hall & Hval).
    rewrite (strip_digits _ Hall), <- (app_nil_r (digits n)).
    rewrite (parse_digits_then (digits n) []) by (assumption || exact I).
    cbn [isFinite number_eq]. rewrite Hval. apply integer_value.
Qed.

Lemma toNumber_integer_witness :
  number_eq (toNumber (VNum (-42))) (Finite (inject_Z (-42))).
Proof. apply (toNumber_integer (-42)). lia. Defined.

(** [formatINR] hands a string to [parseFloat] as it is, and [parseFloat]
    stops at the first comma: of a grouped amount only the digits before the
    first separator are formatted. *)
Theorem formatINR_stops_at_comma (a : Z) (rest : list ascii) (opts : NumberFormatOptions) :
  0 <= a ->
  formatINR (AString (string_of_list_ascii (digits a ++ ","%char :: rest))) opts
  = formatINR (AString (string_of_list_ascii (digits a))) opts.
Proof.
  intros Ha. destruct (digits_spec a Ha) as (Hne & Hall & Hval).
  unfold formatINR, parseFloat.
  destruct (digits a) as [|c ds] eqn:E; [contradiction|].
  cbn [app string_of_list_ascii String.eqb].
  change (String c (string_of_list_ascii (ds ++ ","%char :: rest)))
    with (string_of_list_ascii ((c :: ds) ++ ","%char :: rest)).
  change (String c (string_of_list_ascii ds)) with (string_of_list_ascii (c :: ds)).
  rewrite !list_ascii_of_string_of_list_ascii.
  rewrite (parse_digits_then (c :: ds) (","%char :: rest)) by
    (assumption || (repeat split; discriminate)).
  rewrite <- (app_nil_r (c :: ds)) at 2.
  rewrite (parse_digits_then (c :: ds) []) by (assumption || exact I).
  reflexivity.
Qed.

(** "1,234" is shown as 1.00, while [toNumber] reads 1234 from it. *)
Lemma formatINR_stops_at_comma_witness :
  formatINR (AString "1,234") default_opts = "1.00"%string
  /\ formatINR (AString "1,234") default_opts = formatINR (AString "1") default_opts
  /\ number_eq (toNumber (VStr "1,234")) (Finite 1234).
Proof.
  split; [reflexivity|]. split; [|reflexivity].
  apply (formatINR_stops_at_comma 1 (list_ascii_of_string "234") default_opts). lia.
Defined.

(** The share of the recharge limit shown by the progress bar always lies
    between 0 and 100, whatever the two detail strings hold. *)
Theorem progressPct_bounds (enquiryData : option EnquiryResponse) :
  (0 <= Display.progressPct enquiryData <= 100)%Q.
Proof.
  unfold Display.progressPct.
  destruct (Display.parse_raw _) as [balance| |]; try (split; discriminate).
  destruct (Display.parse_raw _) as [limit| |]; try (split; discriminate).
  destruct (Qlt_le_dec 0 limit); [|split; discriminate].
  split.
  - apply Q.le_max_l.
  - apply Q.max_lub; [discriminate|apply Q.le_min_l].
Qed.

End AmountProperties.

(* ===================================================================== *)
(** * Further properties of the biller directory *)
(* ===================================================================== *)

Section DirectoryProperties.
Import Client PreEnquirySpec.

(** ** [fetchBillers] *)





(** ** [fetchBillerDetailsApi]: payment modes *)

(** Whatever the upstream sends as [paymentModes], the list handed to the
    page is never empty and holds no empty entry: falsy entries are dropped
    and an empty result is replaced by the seven default modes. *)
Theorem paymentModes_never_empty (data : value) (modes : list value) :
  Details.paymentModes_of data = Ok modes ->
  modes <> [] /\ Forall (fun m => truthy m = true) modes.
Proof.
  unfold Details.paymentModes_of.
  destruct (JS.or (get "paymentModes" _) (VArr [])) as [| | | | |items|]; try discriminate.
  intros H. injection H as <-.
  set (kept := List.filter truthy _).
  assert (Hkept : Forall (fun m => truthy m = true) kept).
  { apply List.Forall_forall. intros m Hm. now apply List.filter_In in Hm. }
  destruct kept as [|m kept']; [|split; [discriminate|exact Hkept]].
  split; [discriminate|]. repeat constructor.
Qed.

Lemma paymentModes_never_empty_witness :
  Details.paymentModes_of
    (VObj [("data"%string,
            VObj [("paymentModes"%string,
                   VArr [VObj [("name"%string, VStr "UPI")]; VNull; VStr ""; VStr "NEFT"])])])
  = Ok [VStr "UPI"; VStr "NEFT"]
  /\ [VStr "UPI"; VStr "NEFT"] <> [].
Proof.
  split; [reflexivity|].
  eapply (paymentModes_never_empty
            (VObj [("data"%string,
                    VObj [("paymentModes"%string,
                           VArr [VObj [("name"%string, VStr "UPI")]; VNull; VStr "";
                                 VStr "NEFT"])])])).
  reflexivity.
Defined.

(** ** Search on the wizard page *)

Lemma prefix_spec q : forall s,
  String.prefix q s = true <-> exists post, s = q +:+ post.
Proof.
  induction q as [|c q IH]; intros s.
  - destruct s; cbn; split; eauto.
  - destruct s as [|d s]; cbn [String.prefix].
    + split; [discriminate|]. intros (post & H). discriminate H.
    + destruct (Ascii.ascii_dec c d) as [<-|Hne].
      * rewrite IH. split.
        -- intros (post & ->). now exists post.
        -- intros (post & H). injection H as ->. now exists post.
      * split; [discriminate|]. intros (post & H). injection H as <- _. contradiction.
Qed.

Lemma str_includes_spec q s :
  Display.str_includes s q = true <-> exists pre post, s = pre +:+ q +:+ post.
Proof.
  induction s as [|c s IH]; cbn [Display.str_includes]; rewrite orb_true_iff, prefix_spec.
  - split.
    + intros [(post & H)|H]; [|discriminate]. now exists EmptyString, post.
    + intros (pre & post & H). left. destruct pre; [now exists post|discriminate H].
  - rewrite IH. split.
    + intros [(post & H)|(pre & post & ->)].
      * now exists EmptyString, post.
      * now exists (String c pre), post.
    + intros (pre & post & H). destruct pre as [|p pre].
      * left. now exists post.
      * injection H as -> ->. right. now exists pre, post.
Qed.

Lemma includes_lowered nm q :
  Display.str_includes (toLowerCase nm) (toLowerCase q) = true
  <-> contains_ignore_case nm q.
Proof.
  rewrite str_includes_spec. unfold contains_ignore_case, eq_ignore_case. split.
  - intros (pre & post & H).
    destruct (toLowerCase_split _ _ _ H) as (n1 & n23 & -> & H1 & H23).
    destruct (toLowerCase_split _ _ _ H23) as (n2 & n3 & -> & H2 & H3).
    now exists n1, n2, n3.
  - intros (pre & mid & post & -> & Hm).
    exists (toLowerCase pre), (toLowerCase post). now rewrite !toLowerCase_app, Hm.
Qed.

(** The cards shown at step 1 are the billers whose name contains the
    search text, letter case ignored, in their order; rendering fails only
    when a name is not a string. *)
Theorem filteredBillers_spec (billers : list Biller) (search : string) :
  match Display.filteredBillers billers search with
  | Ok shown =>
      sublist shown billers
      /\ forall b, b ∈ shown
                   <-> b ∈ billers
                       /\ exists nm, billerName b = VStr nm
                                     /\ contains_ignore_case nm search
  | Throw _ => Exists (fun b => is_string (billerName b) = false) billers
  end.
Proof.
  unfold Display.filteredBillers.
  induction billers as [|b billers IH]; cbn [Display.filter_by_name].
  - split; [constructor|]. intros b. split; [intros H; inversion H|].
    intros [H _]. inversion H.
  - unfold Display.lower_name at 1.
    destruct (billerName b) as [| | | |nm| |] eqn:Hname; cbn [bind];
      try (apply Exists_cons_hd; now rewrite Hname).
    destruct (Display.filter_by_name (toLowerCase search) billers) as [kept|e]; cbn [bind];
      [|now apply Exists_cons_tl].
    destruct IH as [Hsub Hmem].
    destruct (Display.str_includes (toLowerCase nm) (toLowerCase search)) eqn:Hinc.
    + split; [now constructor|]. intros x. rewrite !elem_of_cons, Hmem. split.
      * intros [->|[Hx Hn]]; [|tauto]. split; [now left|].
        exists nm. split; [assumption|]. now apply includes_lowered.
      * intros [[->|Hx] Hn]; [now left|tauto].
    + split; [now constructor|]. intros x. rewrite elem_of_cons, Hmem. split.
      * intros [Hx Hn]. tauto.
      * intros [[->|Hx] Hn]; [|tauto]. exfalso.
        destruct Hn as (nm' & Hn' & Hc). rewrite Hname in Hn'. injection Hn' as <-.
        apply includes_lowered in Hc. rewrite Hc in Hinc. discriminate.
Qed.

(** ** Pages on the home page *)

Lemma filter_none {A} (f : A -> bool) l :
  (forall x, In x l -> f x = false) -> List.filter f l = [].
Proof.
  induction l as [|x l IH]; intros H; [reflexivity|]. cbn [List.filter].
  rewrite (H x) by now left. apply IH. intros y Hy. apply H. now right.
Qed.

(** Fetching the same page a second time adds nothing, as long as the ids
    of the page are strings (an effect that runs twice does not double the
    list). *)
Theorem merge_page_refetch (prev records : list Biller) :
  Forall (fun r => is_string (billerId r) = true) records ->
  Home.merge_page (Home.merge_page prev records) records = Home.merge_page prev records.
Proof.
  intros Hs. rewrite (merge_page_append (Home.merge_page prev records) records).
  rewrite filter_none; [apply app_nil_r|].
  intros r Hr. apply negb_false_iff.
  rewrite List.Forall_forall in Hs. specialize (Hs r Hr).
  destruct (billerId r) as [| | | |id| |] eqn:Hid; try discriminate Hs.
  apply has_string_spec. rewrite merge_page_append, List.map_app. apply List.in_or_app.
  destruct (Home.has (List.map billerId prev) (VStr id)) eqn:Hseen.
  - left. now apply has_string_spec.
  - right. rewrite <- Hid. apply List.in_map, List.filter_In. split; [assumption|].
    now rewrite Hid, Hseen.
Qed.

Lemma merge_page_refetch_witness :
  Home.merge_page (Home.merge_page [] [Samples.acme]) [Samples.acme] = [Samples.acme].
Proof.
  apply (merge_page_refetch [] [Samples.acme]). repeat constructor.
Defined.

(** A page of distinct ids merged into a list of distinct ids. *)
Lemma merge_page_distinct_witness :
  let other := mkBiller (VStr "B2") (VStr "Bolt") true (VStr "Goa") VUndef in
  distinct_ids (Home.merge_page [Samples.acme] [Samples.acme; other]).
Proof.
  intros other. apply (merge_page_distinct [Samples.acme] [Samples.acme; other]).
  - unfold distinct_ids. cbn. apply NoDup_singleton.
  - unfold distinct_ids. cbn. apply NoDup_cons. split.
    + intros H. apply list_elem_of_In in H. destruct H as [H|[]]. discriminate H.
    + apply NoDup_singleton.
  - repeat constructor.
Defined.

End DirectoryProperties.
(* ===================================================================== *)
(** * More about the validation of the form *)
(* ===================================================================== *)

Section FormProperties.
Import Client.
Variable RegExp_test : string -> Field -> result bool.

Lemma nonempty_true s : nonempty s = true <-> s <> ""%string.
Proof.
  unfold nonempty. destruct (String.eqb_spec s ""); cbn [negb]; split; intros H;
    congruence.
Qed.

Lemma validate_passes_inv params formData :
  validate RegExp_test params formData = Ok None ->
  List.Forall (passed RegExp_test formData) params.
Proof.
  induction params as [|p rest IH]; intros H; [constructor|].
  cbn [validate] in H. cbv zeta in H.
  unfold field_value in H.
  destruct (formData !! paramName p) as [text|] eqn:Hget; cbn [default from_option id].
  - (* the field has been typed into *)
    cbn [filled] in H. unfold regex_rejects, shorter_than in H. cbn [filled field_length] in H.
    destruct (nonempty text) eqn:Hv; cbn [negb andb] in H.
    + rewrite andb_false_r in H. apply nonempty_true in Hv.
      destruct (regex p) as [pattern|] eqn:Hre.
      * destruct (nonempty pattern) eqn:Hp.
        -- destruct (RegExp_test pattern (Text text)) as [matched|e] eqn:Ht;
             cbn [bind] in H; [|discriminate H].
           destruct matched; cbn [negb] in H; [|discriminate H].
           destruct (Z.ltb_spec (Z.of_nat (String.length text)) (minLength p)) as [Hlt|Hge];
             [discriminate H|].
           constructor; [|exact (IH H)].
           unfold passed, typed_text; rewrite Hget; cbn [default from_option id]; cbv zeta. repeat split; intros; try (left; assumption); try lia. congruence.
        -- cbn [bind] in H.
           destruct (Z.ltb_spec (Z.of_nat (String.length text)) (minLength p)) as [Hlt|Hge];
             [discriminate H|].
           constructor; [|exact (IH H)].
           unfold passed, typed_text; rewrite Hget; cbn [default from_option id]; cbv zeta. repeat split; intros; try (left; assumption); try lia.
           exfalso.
           match goal with
           | Hq : regex p = Some ?x, Hx : ?x <> ""%string |- _ =>
               rewrite Hre in Hq; injection Hq as <-; apply nonempty_true in Hx
           end.
           congruence.
      * cbn [bind] in H.
        destruct (Z.ltb_spec (Z.of_nat (String.length text)) (minLength p)) as [Hlt|Hge];
          [discriminate H|].
        constructor; [|exact (IH H)].
        unfold passed, typed_text; rewrite Hget; cbn [default from_option id]; cbv zeta. repeat split; intros; try (left; assumption); try lia. congruence.
    + assert (Hempty : text = ""%string).
      { unfold nonempty in Hv. destruct (String.eqb_spec text "");
          [assumption|discriminate Hv]. }
      rewrite andb_true_r in H. destruct (mandatory p) eqn:Hm; [discriminate H|].
      cbn [bind andb] in H.
      constructor; [|exact (IH H)].
      unfold passed, typed_text; rewrite Hget; cbn [default from_option id]; cbv zeta. repeat split; intros; congruence.
  - (* nothing typed: the inherited member, or the empty string *)
    destruct (is_inherited (paramName p)) eqn:Hin.
    + assert (Hrest : validate RegExp_test rest formData = Ok None).
      { cbn [filled negb] in H. rewrite andb_false_r in H.
        destruct (regex_rejects RegExp_test p (Inherited (paramName p))) as [[|]|e];
          cbn [bind] in H; try discriminate H.
        cbn [andb] in H.
        destruct (shorter_than (Inherited (paramName p)) (minLength p));
          [discriminate H|exact H]. }
      constructor; [|exact (IH Hrest)].
      unfold passed, typed_text; rewrite Hget; cbn [default from_option id]; cbv zeta. repeat split; intros; try congruence. right. split; [reflexivity|exact Hin].
    + cbn [filled] in H. change (nonempty "") with false in H. cbn [negb] in H.
      rewrite andb_true_r in H. destruct (mandatory p) eqn:Hm; [discriminate H|].
      unfold regex_rejects in H. cbn [filled] in H. change (nonempty "") with false in H.
      cbn [bind andb] in H.
      constructor; [|exact (IH H)].
      unfold passed, typed_text; rewrite Hget; cbn [default from_option id]; cbv zeta. repeat split; intros; congruence.
Qed.

(** The wizard asks for an enquiry only for a form that went through the
    three rules: when [onSubmit] makes a request it is the one pre-enquiry
    call, for the selected biller and the form as typed, and of every
    parameter of the biller: what is typed for it is at least [minLength]
    long and matched by its pattern, if it has one; and a mandatory one is
    filled in, unless it is named like an inherited member ([toString],
    [constructor], ...) and its field was never typed into. *)
Theorem wizard_requests_only_valid_forms (st st' : Wizard.State) (requests : list Effect) :
  Wizard.onSubmit RegExp_test st = Ok (st', requests) ->
  requests <> [] ->
  exists details biller,
    Wizard.billerDetails st = Some details
    /\ Wizard.selectedBiller st = Some biller
    /\ requests = [PreEnquiryCall (billerId biller) (Wizard.formData st)]
    /\ List.Forall (fun p =>
         let text := default ""%string (Wizard.formData st !! paramName p) in
         (mandatory p = true ->
          text <> ""%string
          \/ (Wizard.formData st !! paramName p = None
              /\ is_inherited (paramName p) = true))
         /\ (text <> ""%string -> minLength p <= Z.of_nat (String.length text))
         /\ (text <> ""%string -> forall pattern,
               regex p = Some pattern -> pattern <> ""%string ->
               RegExp_test pattern (Text text) = Ok true)) (inputParameters details).
Proof.
  unfold Wizard.onSubmit. intros H Hreq.
  destruct (Wizard.billerDetails st) as [details|];
    [|injection H as _ <-; now destruct Hreq].
  destruct (Wizard.selectedBiller st) as [biller|];
    [|injection H as _ <-; now destruct Hreq].
  destruct (validate RegExp_test (inputParameters details) (Wizard.formData st))
    as [[msg|]|e] eqn:Hval; cbn [bind] in H.
  - injection H as _ <-. now destruct Hreq.
  - injection H as _ <-. exists details, biller. repeat split.
    exact (validate_passes_inv _ _ Hval).
  - discriminate H.
Qed.

(** The same on the home page. *)
Theorem home_requests_only_valid_forms (st st' : Home.State) (effects : list Effect) :
  Home.onSubmit RegExp_test st = Ok (st', effects) ->
  (exists biller form, In (PreEnquiryCall biller form) effects) ->
  exists details biller,
    Home.billerDetails st = Some details
    /\ Home.selectedBiller st = Some biller
    /\ effects = [PreEnquiryCall (billerId biller) (Home.formData st)]
    /\ List.Forall (fun p =>
         let text := default ""%string (Home.formData st !! paramName p) in
         (mandatory p = true ->
          text <> ""%string
          \/ (Home.formData st !! paramName p = None
              /\ is_inherited (paramName p) = true))
         /\ (text <> ""%string -> minLength p <= Z.of_nat (String.length text))
         /\ (text <> ""%string -> forall pattern,
               regex p = Some pattern -> pattern <> ""%string ->
               RegExp_test pattern (Text text) = Ok true)) (inputParameters details).
Proof.
  unfold Home.onSubmit. intros H (b & form & Hin).
  destruct (Home.billerDetails st) as [details|];
    [|injection H as _ <-; now destruct Hin].
  destruct (Home.selectedBiller st) as [biller|];
    [|injection H as _ <-; now destruct Hin].
  destruct (validate RegExp_test (inputParameters details) (Home.formData st))
    as [[msg|]|e] eqn:Hval; cbn [bind] in H.
  - injection H as _ <-. destruct Hin as [Hin|[]]. discriminate Hin.
  - injection H as _ <-. exists details, biller. repeat split.
    exact (validate_passes_inv _ _ Hval).
  - discriminate H.
Qed.

(** Fields left empty are checked for rule (1) only.  When no parameter of
    the biller has text in the form, and none that was never typed into is
    named like an inherited member, the loop stops at the first mandatory
    parameter, and passes when there is none; the pattern and the minimum
    length are not looked at, whatever the engine would do with them. *)
Theorem validate_empty_fields (params : list InputParameter) (formData : gmap string string) :
  (forall p, In p params ->
     (formData !! paramName p = Some ""%string)
     \/ (formData !! paramName p = None /\ is_inherited (paramName p) = false)) ->
  validate RegExp_test params formData
  = Ok (option_map (fun p => "Please enter " +:+ name p) (List.find mandatory params)).
Proof.
  induction params as [|p rest IH]; intros Hempty; [reflexivity|].
  cbn [validate List.find]. cbv zeta.
  assert (Hv : field_value formData p = Text "").
  { unfold field_value.
    destruct (Hempty p (or_introl eq_refl)) as [->|[-> ->]]; reflexivity. }
  rewrite Hv. cbn [filled]. change (nonempty "") with false. cbn [negb andb].
  rewrite andb_true_r.
  destruct (mandatory p); [reflexivity|].
  unfold regex_rejects. cbn [filled]. change (nonempty "") with false. cbn [bind andb].
  apply IH. intros q Hq. apply Hempty. now right.
Qed.

(** The validation reads [name], [paramName], [regex], [mandatory] and
    [minLength] of a parameter and nothing else: its [maxLength],
    [dataType] and [desc] do not change the verdict. *)
Theorem validate_ignores_maxLength (params params' : list InputParameter)
    (formData : gmap string string) :
  Forall2 (fun p q =>
    name p = name q /\ paramName p = paramName q /\ regex p = regex q
    /\ mandatory p = mandatory q /\ minLength p = minLength q) params params' ->
  validate RegExp_test params formData = validate RegExp_test params' formData.
Proof.
  induction 1 as [|p q params params' (Hn & Hpn & Hre & Hm & Hmin) _ IH]; [reflexivity|].
  cbn [validate]. unfold regex_rejects, field_value.
  now rewrite Hn, Hpn, Hre, Hm, Hmin, IH.
Qed.

End FormProperties.

Section FormWitnesses.
Import Client.

Lemma wizard_requests_only_valid_forms_witness :
  let st := Wizard.input_changed Samples.mobile "9876543210"
              (Wizard.input_changed Samples.vehicleNo "KA01AB1234" Samples.details_shown) in
  exists st' requests,
    Wizard.onSubmit Samples.accept_all st = Ok (st', requests)
    /\ requests = [PreEnquiryCall (billerId Samples.acme) (Wizard.formData st)].
Proof.
  intros st.
  destruct (Wizard.onSubmit Samples.accept_all st) as [[st' requests]|e] eqn:Hrun;
    [|vm_compute in Hrun; discriminate Hrun].
  exists st', requests. split; [reflexivity|].
  assert (Hreq : requests <> [])
    by (vm_compute in Hrun; injection Hrun as _ <-; discriminate).
  destruct (wizard_requests_only_valid_forms Samples.accept_all st st' requests Hrun Hreq)
    as (details & biller & Hd & Hb & -> & _).
  vm_compute in Hb. injection Hb as <-. reflexivity.
Defined.

Lemma home_requests_only_valid_forms_witness :
  let st := Home.set_formData
              (<["mobile"%string := "9876543210"%string]>
                 (<["vehicleNo"%string := "KA01AB1234"%string]> ∅))
              (Home.set_billerDetails (Some Samples.acme_details)
                 (Home.set_selectedBiller (Some Samples.acme) Home.initial)) in
  exists st' effects,
    Home.onSubmit Samples.accept_all st = Ok (st', effects)
    /\ effects = [PreEnquiryCall (billerId Samples.acme) (Home.formData st)].
Proof.
  intros st.
  destruct (Home.onSubmit Samples.accept_all st) as [[st' effects]|e] eqn:Hrun;
    [|vm_compute in Hrun; discriminate Hrun].
  exists st', effects. split; [reflexivity|].
  assert (Hreq : exists biller form, In (PreEnquiryCall biller form) effects)
    by (vm_compute in Hrun; injection Hrun as _ <-; eexists _, _; left; reflexivity).
  destruct (home_requests_only_valid_forms Samples.accept_all st st' effects Hrun Hreq)
    as (details & biller & Hd & Hb & -> & _).
  vm_compute in Hb. injection Hb as <-. reflexivity.
Defined.

(** Nothing typed into the form of the sample biller. *)
Lemma validate_empty_fields_witness :
  validate Samples.accept_all (inputParameters Samples.acme_details) ∅
  = Ok (Some "Please enter Vehicle Number"%string).
Proof.
  apply (validate_empty_fields Samples.accept_all (inputParameters Samples.acme_details) ∅).
  intros p Hp. right. split; [apply lookup_empty|].
  destruct Hp as [<-|[<-|[]]]; reflexivity.
Defined.

(** The sample form with [maxLength] set to 0. *)
Lemma validate_ignores_maxLength_witness :
  let short p := {| name := name p; paramName := paramName p; dataType := dataType p;
                    minLength := minLength p; maxLength := 0; regex := regex p;
                    mandatory := mandatory p; desc := None |} in
  let formData : gmap string string := <["vehicleNo"%string := "KA01AB1234"%string]> ∅ in
  validate Samples.accept_all [Samples.vehicleNo; Samples.mobile] formData
  = validate Samples.accept_all [short Samples.vehicleNo; short Samples.mobile] formData.
Proof.
  intros short formData. apply (validate_ignores_maxLength Samples.accept_all).
  repeat constructor.
Defined.

End FormWitnesses.

(* ===================================================================== *)
(** * The wizard as an event system: what every reachable state satisfies *)
(* ===================================================================== *)

Section FlowProperties.
Import Client Wizard Flow.
Variable RegExp_test : string -> Field -> result bool.

Lemma step2_shown_inv st :
  step2_shown st = true ->
  currentStep st = 2 /\ billerDetails st <> None /\ selectedBiller st <> None.
Proof.
  unfold step2_shown. intros H. apply andb_true_iff in H as [Hs H].
  apply Z.eqb_eq in Hs. destruct (billerDetails st), (selectedBiller st); try discriminate.
  repeat split; congruence.
Qed.

Lemma enquiry_shown_inv st :
  enquiry_shown st = true ->
  currentStep st = 3 /\ loadingEnquiry st = false /\ enquiryData st <> None.
Proof.
  unfold enquiry_shown. intros H. apply andb_true_iff in H as [H He].
  apply andb_true_iff in H as [Hs Hl]. apply Z.eqb_eq in Hs. apply negb_true_iff in Hl.
  destruct (enquiryData st); [|discriminate]. repeat split; congruence.
Qed.

(** What [onSubmit] can do to the page when it returns. *)
Lemma onSubmit_cases st st' requests :
  onSubmit RegExp_test st = Ok (st', requests) ->
  (st' = st /\ requests = [])
  \/ (exists msg, st' = set_alert (Some (mkAlert Wizard.error msg)) st /\ requests = [])
  \/ (st' = set_loadingEnquiry true (set_currentStep 3 st) /\ length requests = 1%nat
      /\ billerDetails st <> None /\ selectedBiller st <> None).
Proof.
  unfold onSubmit. destruct (billerDetails st) as [d|] eqn:Hd;
    [destruct (selectedBiller st) as [b|] eqn:Hb|].
  - destruct (validate RegExp_test (inputParameters d) (formData st)) as [[msg|]|e];
      cbn [bind]; intros H; try discriminate; injection H as <- <-.
    + right. left. eauto.
    + right. right. repeat split; congruence.
  - intros H. injection H as <- <-. now left.
  - intros H. injection H as <- <-. now left.
Qed.

(** Clear away the setters: every cell of a state built by setters is read
    by computation. *)
Ltac read_state :=
  cbn [ui billers_inflight details_inflight enquiry_inflight with_ui turn_page
       currentStep billers search selectedBiller billerDetails formData enquiryData
       selectedPaymentMode loadingBillers pageNumber meta loadingEnquiry alert
       set_currentStep set_billers set_search set_selectedBiller set_billerDetails
       set_formData set_enquiryData set_selectedPaymentMode set_loadingBillers
       set_pageNumber set_meta set_loadingEnquiry set_alert
       search_changed payment_mode_clicked previous_page next_page input_changed
       selectBiller click_back] in *.

Ltac use_guards :=
  repeat match goal with
         | H : ?A -> _ |- _ =>
             match type of A with Prop => idtac end;
             let HA := fresh in
             assert (HA : A) by (lia || congruence);
             specialize (H HA); clear HA
         end.

Ltac close_field :=
  read_state; intros; use_guards;
  repeat match goal with
         | H : _ /\ _ |- _ => destruct H
         | |- _ /\ _ => split
         end;
  try solve [ assumption | lia | congruence | discriminate | reflexivity
            | tauto | eauto | left; reflexivity | exfalso; lia ].

Lemma start_consistent : Consistent start.
Proof. constructor; cbn; close_field. Qed.

Lemma fire_consistent e w w' :
  Consistent w -> fire RegExp_test e w = Some w' -> Consistent w'.
Proof.
  intros [Hrange Hpage Hform Hdp Hep Hverify Hpay Hspin Hbspin] Hfire.
  destruct w as [st bi di ei]. read_state.
  destruct e; cbn [fire ui] in Hfire.
  - (* SearchTyped *)
    destruct (currentStep st =? 1); [|discriminate]. injection Hfire as <-.
    constructor; close_field.
  - (* IssuerClicked *)
    destruct (list_shown st); [|discriminate].
    destruct (Display.filteredBillers _ _) as [shown|]; [|discriminate].
    destruct (shown !! card) as [b|]; [|discriminate].
    destruct (isAvailable b); [|discriminate]. injection Hfire as <-.
    constructor; close_field.
  - (* DetailsArrived *)
    destruct di as [|di]; [discriminate|]. injection Hfire as <-.
    assert (Hb : selectedBiller st <> None) by (apply Hdp; lia).
    destruct r as [details|err]; cbn [selectBiller_settled]; constructor; close_field.
  - (* FieldTyped *)
    destruct (step2_shown st); [|discriminate].
    destruct (billerDetails st) as [d|] eqn:Hd; [|discriminate].
    destruct (inputParameters d !! field); [|discriminate]. injection Hfire as <-.
    constructor; close_field.
  - (* FormSubmitted *)
    destruct (step2_shown st) eqn:Hshown; [|discriminate].
    apply step2_shown_inv in Hshown as (Hs & Hd & Hb).
    destruct (onSubmit RegExp_test st) as [[st' requests]|err] eqn:Hsub.
    + injection Hfire as <-.
      destruct (onSubmit_cases _ _ _ Hsub)
        as [[-> ->]|[(msg & -> & ->)|(-> & Hlen & _ & _)]];
        try rewrite Hlen; cbn [length]; rewrite ?Nat.add_0_r;
        constructor; close_field.
      + injection Hfire as <-. constructor; close_field.
  - (* EnquiryArrived *)
    destruct ei as [|ei]; [discriminate|]. injection Hfire as <-.
    assert (Hdb : billerDetails st <> None /\ selectedBiller st <> None) by (apply Hep; lia).
    destruct r as [resp|err]; cbn [onSubmit_settled]; constructor; close_field.
  - (* BackClicked *)
    destruct control; lazy beta iota zeta in Hfire.
    1, 2: destruct (step2_shown st) eqn:Hshown; [|discriminate];
          apply step2_shown_inv in Hshown as (Hs & Hd & Hb); injection Hfire as <-;
          constructor; close_field.
    + destruct (currentStep st =? 3) eqn:Hs; [|discriminate]. apply Z.eqb_eq in Hs.
      injection Hfire as <-. constructor; close_field. 
    + destruct (enquiry_shown st) eqn:Hshown; [|discriminate].
      apply enquiry_shown_inv in Hshown as (Hs & Hl & He). injection Hfire as <-.
      constructor; close_field.
  - (* ModeClicked *)
    destruct (enquiry_shown st) eqn:Hshown; [|discriminate].
    apply enquiry_shown_inv in Hshown as (Hs & Hl & He).
    destruct (Display.offered_modes _ !! button); [|discriminate]. injection Hfire as <-.
    constructor; close_field.
  - (* ProceedClicked *)
    destruct (enquiry_shown st) eqn:Hshown; [|discriminate].
    apply enquiry_shown_inv in Hshown as (Hs & Hl & He). injection Hfire as <-.
    unfold proceedToPayment. destruct (selectedPaymentMode st) as [mode|] eqn:Hmode.
    + unfold nonempty. destruct (String.eqb mode "") eqn:Hm; cbn [negb];
        constructor; close_field.
      exists mode. split; [assumption|now apply String.eqb_neq].
    + constructor; close_field.
  - (* PreviousClicked *)
    destruct (list_shown st && negb (previous_disabled st)); [|discriminate].
    injection Hfire as <-. constructor; close_field.
  - (* NextClicked *)
    destruct (list_shown st && negb (next_disabled st)) eqn:Hen; [|discriminate].
    apply andb_true_iff in Hen as [_ Hnd]. apply negb_true_iff in Hnd.
    unfold next_disabled in Hnd. unfold next_page in Hfire.
    destruct (meta st) as [m|] eqn:Hm; [|discriminate].
    rewrite Z.geb_leb in Hnd. apply Z.leb_gt in Hnd.
    injection Hfire as <-. constructor; close_field.
    destruct (totalPages m =? 0) eqn:Hz; [apply Z.eqb_eq in Hz|]; lia.
  - (* BillersArrived *)
    destruct bi; [|discriminate]. injection Hfire as <-.
    unfold billers_settled. destruct r as [[records m]|err]; constructor; close_field.
  - (* StaleBillersArrived *)
    injection Hfire as <-. unfold billers_settled. constructor; close_field.
Qed.

Lemma reachable_consistent w : reachable RegExp_test w -> Consistent w.
Proof.
  induction 1 as [|w e w' _ IH Hfire]; [apply start_consistent|].
  exact (fire_consistent e w w' IH Hfire).
Qed.

Lemma run_reachable events : forall w w',
  reachable RegExp_test w -> run RegExp_test events w = Some w' -> reachable RegExp_test w'.
Proof.
  induction events as [|e events IH]; intros w w' Hw Hrun; cbn [run] in Hrun.
  - now injection Hrun as <-.
  - destruct (fire RegExp_test e w) as [w1|] eqn:Hfire; [|discriminate].
    apply (IH w1 w'); [|assumption]. now apply (reach_fire _ w e w1).
Qed.

(** Whatever the user does and in whatever order the requests settle, the
    step is one of 1 to 4; from step 2 on a biller is selected and a
    details form is loaded (the two cells are set; the form may be that of
    an issuer clicked earlier, whose details arrived last); at step 4 the
    enquiry data is there and a non-empty payment mode is selected. *)
Theorem wizard_steps_have_their_data (w : World) :
  reachable RegExp_test w ->
  1 <= currentStep (ui w) <= 4
  /\ (2 <= currentStep (ui w) ->
      billerDetails (ui w) <> None /\ selectedBiller (ui w) <> None)
  /\ (currentStep (ui w) = 4 ->
      enquiryData (ui w) <> None
      /\ exists mode, selectedPaymentMode (ui w) = Some mode /\ mode <> ""%string).
Proof.
  intros Hw. destruct (reachable_consistent w Hw). auto.
Qed.

(** At step 3 the page shows the spinner or the enquiry: the "No data"
    branch of the render is never taken. *)
Theorem wizard_never_shows_no_data (w : World) :
  reachable RegExp_test w ->
  currentStep (ui w) = 3 -> loadingEnquiry (ui w) = false -> enquiryData (ui w) <> None.
Proof.
  intros Hw Hs Hl. destruct (reachable_consistent w Hw) as [_ _ _ _ _ Hverify _ _ _].
  destruct (Hverify Hs) as [H|H]; [congruence|exact H].
Qed.

(** A spinner is only shown while its request is on its way: the enquiry
    spinner implies a pre-enquiry call that has not settled, the list
    spinner is on exactly while the current page request is pending. *)
Theorem wizard_spinners_have_requests (w : World) :
  reachable RegExp_test w ->
  (loadingEnquiry (ui w) = true -> (0 < enquiry_inflight w)%nat)
  /\ loadingBillers (ui w) = billers_inflight w.
Proof.
  intros Hw. destruct (reachable_consistent w Hw). auto.
Qed.

(** The page number asked of the proxy is never below 1. *)
Theorem wizard_page_number_positive (w : World) :
  reachable RegExp_test w -> 1 <= pageNumber (ui w).
Proof.
  intros Hw. now destruct (reachable_consistent w Hw).
Qed.

(** No event clears what was fetched or chosen: a selected biller, biller
    details, an enquiry response and a payment mode stay set once they are;
    and only typing into a field changes the form data (choosing another
    issuer keeps the values typed before). *)
Theorem wizard_never_clears (e : Event) (w w' : World) :
  fire RegExp_test e w = Some w' ->
  (selectedBiller (ui w) <> None -> selectedBiller (ui w') <> None)
  /\ (billerDetails (ui w) <> None -> billerDetails (ui w') <> None)
  /\ (enquiryData (ui w) <> None -> enquiryData (ui w') <> None)
  /\ (selectedPaymentMode (ui w) <> None -> selectedPaymentMode (ui w') <> None)
  /\ ((forall field text, e <> FieldTyped field text) -> formData (ui w') = formData (ui w)).
Proof.
  intros Hfire. destruct w as [st bi di ei]. read_state.
  destruct e; cbn [fire ui] in Hfire;
    repeat match type of Hfire with
           | (let _ := _ in _) = _ => lazy zeta in Hfire
           | match ?c with _ => _ end = _ =>
               let E := fresh "E" in destruct c eqn:E; try discriminate Hfire
           | (if ?c then _ else _) = _ =>
               let E := fresh "E" in destruct c eqn:E; try discriminate Hfire
           end;
    try (injection Hfire as <-).
  all: try (unfold billers_settled, selectBiller_settled, onSubmit_settled, proceedToPayment;
            repeat match goal with
                   | |- context [match ?c with _ => _ end] => destruct c
                   end;
            read_state; repeat split; intros;
            solve [assumption | discriminate | reflexivity | congruence]).
  - (* FieldTyped *)
    read_state. repeat split; intros; try congruence.
    exfalso. match goal with H : _ |- _ => now apply (H field text) end.
  - (* FormSubmitted, onSubmit returned *)
    match goal with H : onSubmit _ _ = Ok _ |- _ =>
      destruct (onSubmit_cases _ _ _ H) as [[-> ->]|[(msg & -> & ->)|(-> & _)]] end;
      read_state; repeat split; intros; solve [assumption | reflexivity | congruence].
  - (* BackClicked *)
    destruct control; read_state; repeat split; intros; solve [assumption | reflexivity].
  - (* ProceedClicked *)
    unfold proceedToPayment. destruct (selectedPaymentMode st) as [mode|] eqn:Hmode;
      [destruct (nonempty mode)|]; read_state; repeat split; intros;
      solve [assumption | reflexivity | congruence].
Qed.

End FlowProperties.

Section FlowWitnesses.
Import Client Wizard Flow FlowSamples.

(** The sample session, run with an engine that accepts every value. *)
Lemma wizard_steps_have_their_data_witness :
  match run Samples.accept_all happy_path start with
  | Some w => currentStep (ui w) = 4 /\ enquiryData (ui w) <> None
  | None => False
  end.
Proof.
  destruct (run Samples.accept_all happy_path start) as [w|] eqn:Hrun.
  - assert (Hreach : reachable Samples.accept_all w)
      by exact (run_reachable Samples.accept_all happy_path start w
                  (reach_start Samples.accept_all) Hrun).
    destruct (wizard_steps_have_their_data Samples.accept_all w Hreach) as (_ & _ & H4).
    assert (Hs : currentStep (ui w) = 4)
      by (vm_compute in Hrun; injection Hrun as <-; reflexivity).
    split; [exact Hs|apply (H4 Hs)].
  - vm_compute in Hrun. discriminate Hrun.
Defined.

Lemma wizard_never_shows_no_data_witness :
  match run Samples.accept_all answered_path start with
  | Some w => currentStep (ui w) = 3 /\ enquiryData (ui w) <> None
  | None => False
  end.
Proof.
  destruct (run Samples.accept_all answered_path start) as [w|] eqn:Hrun.
  - assert (Hreach : reachable Samples.accept_all w)
      by exact (run_reachable Samples.accept_all answered_path start w
                  (reach_start Samples.accept_all) Hrun).
    assert (Hs : currentStep (ui w) = 3 /\ loadingEnquiry (ui w) = false)
      by (vm_compute in Hrun; injection Hrun as <-; split; reflexivity).
    destruct Hs as [Hs Hl]. split; [exact Hs|].
    exact (wizard_never_shows_no_data Samples.accept_all w Hreach Hs Hl).
  - vm_compute in Hrun. discriminate Hrun.
Defined.

Lemma wizard_spinners_have_requests_witness :
  match run Samples.accept_all waiting_path start with
  | Some w => loadingEnquiry (ui w) = true /\ (0 < enquiry_inflight w)%nat
  | None => False
  end.
Proof.
  destruct (run Samples.accept_all waiting_path start) as [w|] eqn:Hrun.
  - assert (Hreach : reachable Samples.accept_all w)
      by exact (run_reachable Samples.accept_all waiting_path start w
                  (reach_start Samples.accept_all) Hrun).
    assert (Hl : loadingEnquiry (ui w) = true)
      by (vm_compute in Hrun; injection Hrun as <-; reflexivity).
    split; [exact Hl|].
    destruct (wizard_spinners_have_requests Samples.accept_all w Hreach) as [H _].
    exact (H Hl).
  - vm_compute in Hrun. discriminate Hrun.
Defined.

Lemma wizard_page_number_positive_witness :
  match run Samples.accept_all waiting_path start with
  | Some w => 1 <= pageNumber (ui w)
  | None => False
  end.
Proof.
  destruct (run Samples.accept_all waiting_path start) as [w|] eqn:Hrun.
  - apply (wizard_page_number_positive Samples.accept_all).
    exact (run_reachable Samples.accept_all waiting_path start w
             (reach_start Samples.accept_all) Hrun).
  - vm_compute in Hrun. discriminate Hrun.
Defined.

(** Going back from the form keeps the selected biller and the details. *)
Lemma wizard_never_clears_witness :
  match run Samples.accept_all chosen_path start with
  | Some w =>
      match fire Samples.accept_all (BackClicked Step2Back) w with
      | Some w' => selectedBiller (ui w') <> None /\ billerDetails (ui w') <> None
      | None => False
      end
  | None => False
  end.
Proof.
  destruct (run Samples.accept_all chosen_path start) as [w|] eqn:Hrun;
    [|vm_compute in Hrun; discriminate Hrun].
  assert (Hw : selectedBiller (ui w) <> None /\ billerDetails (ui w) <> None
               /\ step2_shown (ui w) = true)
    by (vm_compute in Hrun; injection Hrun as <-; repeat split; discriminate).
  destruct Hw as (Hb & Hd & Hshown).
  destruct (fire Samples.accept_all (BackClicked Step2Back) w) as [w'|] eqn:Hfire.
  - destruct (wizard_never_clears Samples.accept_all _ _ _ Hfire) as (H1 & H2 & _).
    split; [exact (H1 Hb)|exact (H2 Hd)].
  - cbn [fire] in Hfire. rewrite Hshown in Hfire. discriminate Hfire.
Defined.

End FlowWitnesses.
